(** * Senior Care Agent: the state, scheduling and reminder core of [app.py]

    A shallow embedding of the data layer of [src/app.py] (the SQLite tables,
    the daily-routine seeding, the reminder evaluation and the gateway to the
    language model) together with the Python library functions that this code
    relies on ([int], [str.split], [datetime.strptime], [date] arithmetic,
    [dict]).  Python exceptions are results of an error monad; the database
    is an explicit state. *)

From Stdlib Require Import ZArith String Ascii List Lia Bool.
From stdpp Require Import base option list gmap strings sorting.

Open Scope string_scope.
Open Scope list_scope.
Open Scope Z_scope.

(* ================================================================== *)
(** * Exceptions *)
(* ================================================================== *)

(** The exceptions that the modelled code can raise.  [ValueError] and
    [TypeError] come from parsing, [AttributeError] from calling [.get] on a
    value that is not a [dict], [OperationalError] from SQLite (missing
    table) and [InterfaceError] from binding an unsupported parameter. *)
Inductive exn : Type :=
  | ValueError (msg : string)
  | TypeError (msg : string)
  | IndexError (msg : string)
  | AttributeError (msg : string)
  | OperationalError (msg : string)
  | InterfaceError (msg : string)
  | ProviderError (msg : string).

(** [str(e)] *)
Definition exn_str (e : exn) : string :=
  match e with
  | ValueError m | TypeError m | IndexError m | AttributeError m
  | OperationalError m | InterfaceError m | ProviderError m => m
  end.

Inductive result (A : Type) : Type :=
  | Ok (a : A)
  | Raise (e : exn).
Arguments Ok {A} a.
Arguments Raise {A} e.

#[global] Instance result_ret : MRet result := @Ok.
#[global] Instance result_bind : MBind result := fun A B k r =>
  match r with
  | Ok a => k a
  | Raise e => Raise e
  end.

(** [try: body  except Exception: handler] *)
Definition try_except {A : Type} (body : result A) (handler : exn -> A) : A :=
  match body with
  | Ok a => a
  | Raise e => handler e
  end.

Definition of_option {A : Type} (o : option A) (e : exn) : result A :=
  match o with
  | Some a => Ok a
  | None => Raise e
  end.

Definition is_Ok {A : Type} (r : result A) : Prop := exists a, r = Ok a.

(* ================================================================== *)
(** * Python library functions used by the application *)
(* ================================================================== *)

(** Strings are byte strings; the digit and blank classes below are the
    ASCII ones.  They are Python's classes on ASCII text ([is_ascii]): there
    [\d] and [int] accept the digits [0]..[9] only and [int] strips the six
    ASCII blanks only.  On other text Python also accepts the decimal digits
    and the blanks of other scripts, which these classes leave out; properties
    of parsed text are therefore stated for ASCII text or for text that
    parses here. *)
Module Py.

Definition chars (s : string) : list ascii := list_ascii_of_string s.
Definition str (cs : list ascii) : string := string_of_list_ascii cs.

Definition code (c : ascii) : Z := Z.of_N (N_of_ascii c).

(** [str.isascii()]: every character is below 128. *)
Definition is_ascii (s : string) : bool :=
  forallb (fun c => code c <? 128) (chars s).

Definition is_digit (c : ascii) : bool := (48 <=? code c) && (code c <=? 57).
Definition digit_value (c : ascii) : Z := code c - 48.

(** Blank characters skipped by [int]: space, [\t], [\n], [\v], [\f], [\r]. *)
Definition is_space (c : ascii) : bool :=
  (code c =? 32) || ((9 <=? code c) && (code c <=? 13)).

Definition in_range (lo hi : ascii) (c : ascii) : bool :=
  (code lo <=? code c) && (code c <=? code hi).

Fixpoint drop_while {A : Type} (p : A -> bool) (l : list A) : list A :=
  match l with
  | [] => []
  | x :: l' => if p x then drop_while p l' else l
  end.

Definition strip (cs : list ascii) : list ascii :=
  rev (drop_while is_space (rev (drop_while is_space cs))).

(** Digits of an integer literal, with single underscores allowed between
    digits.  [prev] tells whether the previous character was a digit. *)
Fixpoint int_digits (acc : Z) (prev : bool) (cs : list ascii) : option Z :=
  match cs with
  | [] => if prev then Some acc else None
  | c :: cs' =>
      if Ascii.eqb c "_" then
        if prev then int_digits acc false cs' else None
      else if is_digit c then int_digits (10 * acc + digit_value c) true cs'
      else None
  end.

(** The interpreter refuses decimal literals of more than 4300 digits. *)
Definition max_str_digits : nat := 4300.

(** [int(s)] for a string [s], base 10. *)
Definition int (s : string) : option Z :=
  let cs := strip (chars s) in
  let '(sign, ds) :=
    match cs with
    | "+"%char :: r => (1, r)
    | "-"%char :: r => (-1, r)
    | _ => (1, cs)
    end in
  if (max_str_digits <? List.length (List.filter is_digit ds))%nat then None
  else option_map (Z.mul sign) (int_digits 0 false ds).

(** [s.split(sep)[0]]: the text before the first separator (all of [s] when
    it has none). *)
Fixpoint before (sep : ascii) (cs : list ascii) : list ascii :=
  match cs with
  | [] => []
  | c :: cs' => if Ascii.eqb c sep then [] else c :: before sep cs'
  end.

Definition split_first (sep : ascii) (s : string) : string :=
  str (before sep (chars s)).

(** ** Regular expressions of [_strptime]

    A directive is a group of alternatives, each a fixed sequence of
    character classes; alternatives are tried in order and the first one
    that lets the rest of the pattern match is kept. *)

Definition cclass : Type := ascii -> bool.

Inductive item : Type :=
  | Lit (c : ascii)
  | Group (alts : list (list cclass)).

Fixpoint match_classes (p : list cclass) (cs : list ascii)
  : option (list ascii * list ascii) :=
  match p with
  | [] => Some ([], cs)
  | k :: p' =>
      match cs with
      | c :: cs' =>
          if k c then
            match match_classes p' cs' with
            | Some (txt, rest) => Some (c :: txt, rest)
            | None => None
            end
          else None
      | [] => None
      end
  end.

Fixpoint first_some {A B : Type} (f : A -> option B) (l : list A) : option B :=
  match l with
  | [] => None
  | x :: l' => match f x with Some b => Some b | None => first_some f l' end
  end.

(** [re.match]: the texts of the groups, and the unconsumed input. *)
Fixpoint re_match (re : list item) (cs : list ascii)
  : option (list string * list ascii) :=
  match re with
  | [] => Some ([], cs)
  | Lit c :: re' =>
      match cs with
      | c' :: cs' => if Ascii.eqb c c' then re_match re' cs' else None
      | [] => None
      end
  | Group alts :: re' =>
      first_some
        (fun alt =>
           match match_classes alt cs with
           | Some (txt, rest) =>
               match re_match re' rest with
               | Some (gs, rest') => Some (str txt :: gs, rest')
               | None => None
               end
           | None => None
           end) alts
  end.

Definition d : cclass := is_digit.
Definition one (c : ascii) : cclass := fun x => Ascii.eqb x c.

(** [%H]: [2[0-3]|[0-1]\d|\d] *)
Definition re_H : item :=
  Group [[one "2"; in_range "0" "3"]; [in_range "0" "1"; d]; [d]].
(** [%M]: [[0-5]\d|\d] *)
Definition re_M : item := Group [[in_range "0" "5"; d]; [d]].
(** [%Y]: [\d\d\d\d] *)
Definition re_Y : item := Group [[d; d; d; d]].
(** [%m]: [1[0-2]|0[1-9]|[1-9]] *)
Definition re_m : item :=
  Group [[one "1"; in_range "0" "2"]; [one "0"; in_range "1" "9"]; [in_range "1" "9"]].
(** [%d]: [3[0-1]|[1-2]\d|0[1-9]|[1-9]| [1-9]] *)
Definition re_d : item :=
  Group [[one "3"; in_range "0" "1"]; [in_range "1" "2"; d];
         [one "0"; in_range "1" "9"]; [in_range "1" "9"];
         [one " "; in_range "1" "9"]].

(** The groups found by [_strptime]: the pattern must match a prefix of the
    data, and then no unconverted data may remain. *)
Definition strptime_groups (re : list item) (s : string) : option (list string) :=
  match re_match re (chars s) with
  | Some (gs, []) => Some gs
  | _ => None
  end.

(** ** [datetime.time] *)

Record time : Type := Time { hour : Z; minute : Z; second : Z; microsecond : Z }.

(** [a > b] on naive times: the order of the tuples
    [(hour, minute, second, microsecond)]. *)
Definition time_gt (a b : time) : bool :=
  (hour b <? hour a) ||
  ((hour a =? hour b) &&
   ((minute b <? minute a) ||
    ((minute a =? minute b) &&
     ((second b <? second a) ||
      ((second a =? second b) && (microsecond b <? microsecond a)))))).

(** [datetime.strptime(s, "%H:%M").time()] *)
Definition strptime_HM (s : string) : option time :=
  match strptime_groups [re_H; Lit ":"; re_M] s with
  | Some [h; m] =>
      match int h, int m with
      | Some h', Some m' => Some (Time h' m' 0 0)
      | _, _ => None
      end
  | _ => None
  end.

Definition digit_char (k : Z) : ascii := ascii_of_N (Z.to_N (48 + k)).

(** Two and four decimal digits, zero padded. *)
Definition pad2 (n : Z) : string :=
  String (digit_char (n / 10)) (String (digit_char (n mod 10)) "").
Definition pad4 (n : Z) : string :=
  String (digit_char (n / 1000)) (String (digit_char (n / 100 mod 10)) (pad2 (n mod 100))).

(** [t.strftime("%H:%M")] *)
Definition strftime_HM (t : time) : string :=
  pad2 (hour t) +:+ ":" +:+ pad2 (minute t).

(** ** [datetime.date] *)

Record date : Type := Date { year : Z; month : Z; day : Z }.

Definition MINYEAR : Z := 1.
Definition MAXYEAR : Z := 9999.

Definition is_leap (y : Z) : bool :=
  (y mod 4 =? 0) && (negb (y mod 100 =? 0) || (y mod 400 =? 0)).

Definition days_before_year (y : Z) : Z :=
  let y' := y - 1 in y' * 365 + y' / 4 - y' / 100 + y' / 400.

Definition DAYS_IN_MONTH (m : Z) : Z :=
  match m with
  | 1 => 31 | 2 => 28 | 3 => 31 | 4 => 30 | 5 => 31 | 6 => 30
  | 7 => 31 | 8 => 31 | 9 => 30 | 10 => 31 | 11 => 30 | 12 => 31
  | _ => -1
  end.

Definition DAYS_BEFORE_MONTH (m : Z) : Z :=
  match m with
  | 1 => 0 | 2 => 31 | 3 => 59 | 4 => 90 | 5 => 120 | 6 => 151
  | 7 => 181 | 8 => 212 | 9 => 243 | 10 => 273 | 11 => 304 | 12 => 334
  | _ => -1
  end.

Definition days_in_month (y m : Z) : Z :=
  if (m =? 2) && is_leap y then 29 else DAYS_IN_MONTH m.

Definition days_before_month (y m : Z) : Z :=
  DAYS_BEFORE_MONTH m + (if (2 <? m) && is_leap y then 1 else 0).

Definition ymd2ord (y m d : Z) : Z :=
  days_before_year y + days_before_month y m + d.

Definition toordinal (x : date) : Z := ymd2ord (year x) (month x) (day x).

(** The checks made by the [date] constructor. *)
Definition check_date_fields (y m d : Z) : bool :=
  (MINYEAR <=? y) && (y <=? MAXYEAR) &&
  (1 <=? m) && (m <=? 12) &&
  (1 <=? d) && (d <=? days_in_month y m).

(** [(a - b).days] *)
Definition sub_days (a b : date) : Z := toordinal a - toordinal b.

(** [datetime.strptime(s, "%Y-%m-%d").date()] *)
Definition strptime_Ymd (s : string) : option date :=
  match strptime_groups [re_Y; Lit "-"; re_m; Lit "-"; re_d] s with
  | Some [y; m; d] =>
      match int y, int m, int d with
      | Some y', Some m', Some d' =>
          if check_date_fields y' m' d' then Some (Date y' m' d') else None
      | _, _, _ => None
      end
  | _ => None
  end.

(** [x.strftime("%Y-%m-%d")], for the four-digit years. *)
Definition strftime_Ymd (x : date) : string :=
  pad4 (year x) +:+ "-" +:+ pad2 (month x) +:+ "-" +:+ pad2 (day x).

(** The calendar day after [x]. *)
Definition tomorrow (x : date) : date :=
  if day x <? days_in_month (year x) (month x) then
    Date (year x) (month x) (day x + 1)
  else if month x <? 12 then Date (year x) (month x + 1) 1
  else Date (year x + 1) 1 1.

(** ** [dict] *)

(** [dict(pairs)]: later pairs overwrite earlier ones with the same key. *)
Definition dict {V : Type} (pairs : list (string * V)) : gmap string V :=
  fold_left (fun m kv => <[kv.1 := kv.2]> m) pairs ∅.

(** [zip(a, b)] *)
Definition zip {A B : Type} (a : list A) (b : list B) : list (A * B) :=
  List.combine a b.

End Py.

(* ================================================================== *)
(** * Data model *)
(* ================================================================== *)

(** Python values that cross the gateway: what [json.loads] can return, and
    plain text.  Floats are kept as their literal. *)
#[warnings="-register-all"]
Inductive pyval : Type :=
  | PNone
  | PBool (b : bool)
  | PInt (n : Z)
  | PFloat (literal : string)
  | PStr (s : string)
  | PList (l : list pyval)
  | PDict (m : gmap string pyval).

(** [v.get(key, default)]: only a [dict] has the method. *)
Definition py_get (v : pyval) (key : string) (default : pyval) : result pyval :=
  match v with
  | PDict m => Ok (match m !! key with Some x => x | None => default end)
  | _ => Raise (AttributeError "object has no attribute 'get'")
  end.

(** Values stored in a column. *)
Inductive sqlval : Type :=
  | SqlNull
  | SqlInt (n : Z)
  | SqlReal (literal : string)
  | SqlText (s : string).

(** Binding a Python value to a [?] placeholder: lists and dicts are not
    supported by the driver.  A text and [None] are stored as they are.  For
    a number the Python value is kept: neither the driver's 64-bit range nor
    the conversion to the text affinity of the column is modelled, and the
    properties of stored values are stated for texts. *)
Definition sql_bind (v : pyval) : result sqlval :=
  match v with
  | PNone => Ok SqlNull
  | PBool b => Ok (SqlInt (if b then 1 else 0))
  | PInt n => Ok (SqlInt n)
  | PFloat l => Ok (SqlReal l)
  | PStr s => Ok (SqlText s)
  | PList _ | PDict _ => Raise (InterfaceError "Error binding parameter")
  end.

(** [column = 'text'] in a [WHERE] clause. *)
Definition sql_eq_text (v : sqlval) (s : string) : bool :=
  match v with
  | SqlText t => String.eqb t s
  | _ => false
  end.

(** One record type per table; the [id] column is kept beside the record. *)
Module LogEntry.
Record t : Type := Row {
  timestamp : string;
  author : string;
  original_text : string;
  category : sqlval;
  severity : sqlval }.
End LogEntry.

Module Medication.
Record t : Type := Row {
  name : string;
  dosage : string;
  time : string;
  purpose : option string }.
End Medication.

Module Appointment.
Record t : Type := Row {
  date : string;
  doctor : string;
  purpose : string }.
End Appointment.

Module RoutineTask.
(** [completed] is stored as an integer: [False] is 0 and [True] is 1. *)
Record t : Type := Row {
  date : string;
  task : string;
  scheduled_time : string;
  completed : Z }.
End RoutineTask.

Module PatientProfile.
Record t : Type := Row {
  age : string;
  conditions : string }.
End PatientProfile.

(** A table with [id INTEGER PRIMARY KEY AUTOINCREMENT]: its rows in the
    order of a table scan, and the largest id ever handed out (the entry of
    the table in [sqlite_sequence]). *)
Record table (R : Type) : Type := Table {
  rows : list (Z * R);
  seq : Z }.
Arguments Table {R} rows seq.
Arguments rows {R} t.
Arguments seq {R} t.

Definition empty_table {R : Type} : table R := Table [] 0.

Definition max_rowid {R : Type} (l : list (Z * R)) : Z :=
  fold_right Z.max 0 (map fst l).

(** The id given to the next inserted row. *)
Definition next_rowid {R : Type} (t : table R) : Z :=
  Z.max (seq t) (max_rowid (rows t)) + 1.

(** [INSERT INTO t (...) VALUES (...)] without an explicit id. *)
Definition insert_row {R : Type} (r : R) (t : table R) : table R :=
  let i := next_rowid t in Table (rows t ++ [(i, r)]) i.

(** [SELECT count( * ) FROM t WHERE p] *)
Definition count_where {R : Type} (p : R -> bool) (t : table R) : Z :=
  Z.of_nat (List.length (List.filter (fun r => p r.2) (rows t))).

(** The database file: a table is [None] until it has been created. *)
Record db : Type := DB {
  logs : option (table LogEntry.t);
  medications : option (table Medication.t);
  appointments : option (table Appointment.t);
  routines : option (table RoutineTask.t);
  patient_profile : option (table PatientProfile.t) }.

(** A database file that does not exist yet. *)
Definition new_db : db := DB None None None None None.

Definition set_logs (x : table LogEntry.t) (s : db) : db :=
  DB (Some x) (medications s) (appointments s) (routines s) (patient_profile s).
Definition set_routines (x : table RoutineTask.t) (s : db) : db :=
  DB (logs s) (medications s) (appointments s) (Some x) (patient_profile s).
Definition set_patient_profile (x : table PatientProfile.t) (s : db) : db :=
  DB (logs s) (medications s) (appointments s) (routines s) (Some x).

Definition no_such_table (name : string) : exn :=
  OperationalError ("no such table: " +:+ name).

(** The rows of a table, none when it is absent (for statements of
    theorems only). *)
Definition rows_of {R : Type} (o : option (table R)) : list (Z * R) :=
  match o with
  | Some t => rows t
  | None => []
  end.

(* ================================================================== *)
(** * Database management *)
(* ================================================================== *)

(** [CREATE TABLE IF NOT EXISTS] *)
Definition create_table_if_not_exists {R : Type} (o : option (table R)) : table R :=
  match o with
  | Some t => t
  | None => empty_table
  end.

(** [ALTER TABLE t ADD COLUMN c]: every table of the model already has all
    its columns, so the statement fails with a duplicate column. *)
Definition alter_table_add_column (s : db) (tbl col : string) : result db :=
  Raise (OperationalError ("duplicate column name: " +:+ col)).

Definition default_profile : PatientProfile.t :=
  PatientProfile.Row "75" "Hypertension, Arthritis".

Definition init_db (s : db) : db :=
  (* 1. Logs Table *)
  let s := DB (Some (create_table_if_not_exists (logs s)))
              (medications s) (appointments s) (routines s) (patient_profile s) in
  let s := fold_left
             (fun s col => try_except (alter_table_add_column s "logs" col) (fun _ => s))
             ["severity"; "category"; "author"] s in
  (* 2. Meds Table *)
  let s := DB (logs s) (Some (create_table_if_not_exists (medications s)))
              (appointments s) (routines s) (patient_profile s) in
  let s := try_except (alter_table_add_column s "medications" "time") (fun _ => s) in
  (* 3. Appointments Table *)
  let s := DB (logs s) (medications s)
              (Some (create_table_if_not_exists (appointments s)))
              (routines s) (patient_profile s) in
  (* 4. DAILY ROUTINE TABLE *)
  let s := DB (logs s) (medications s) (appointments s)
              (Some (create_table_if_not_exists (routines s))) (patient_profile s) in
  (* 5. PATIENT PROFILE TABLE *)
  let profile := create_table_if_not_exists (patient_profile s) in
  (* Init profile if empty *)
  if count_where (fun _ => true) profile =? 0 then
    set_patient_profile (insert_row default_profile profile) s
  else set_patient_profile profile s.

(** The default routine of a day. *)
Definition defaults : list (string * string) :=
  [ ("Breakfast", "08:00");
    ("Morning Meds", "09:00");
    ("Lunch", "13:00");
    ("Afternoon Walk", "17:00");
    ("Dinner", "20:00");
    ("Night Meds", "21:00") ].

(** [today_str] is [date.today().strftime("%Y-%m-%d")]. *)
Definition check_and_create_daily_tasks (today : Py.date) (s : db) : result db :=
  let today_str := Py.strftime_Ymd today in
  t ← of_option (routines s) (no_such_table "routines");
  let count := count_where (fun r => String.eqb (RoutineTask.date r) today_str) t in
  if count =? 0 then
    Ok (set_routines
          (fold_left
             (fun t '(task, t_time) =>
                insert_row (RoutineTask.Row today_str task t_time 0) t)
             defaults t) s)
  else Ok s.

(** [SELECT id, task, scheduled_time, completed FROM routines WHERE date = today_str] *)
Definition fetch_tasks (today : Py.date) (s : db) : result (list (Z * RoutineTask.t)) :=
  let today_str := Py.strftime_Ymd today in
  t ← of_option (routines s) (no_such_table "routines");
  Ok (List.filter (fun r => String.eqb (RoutineTask.date r.2) today_str) (rows t)).

(* ================================================================== *)
(** * Alarm data, reminders and status *)
(* ================================================================== *)

(** [tasks_df[tasks_df['completed'] == 0]] *)
Definition pending (tasks_df : list (Z * RoutineTask.t)) : list (Z * RoutineTask.t) :=
  List.filter (fun r => RoutineTask.completed r.2 =? 0) tasks_df.

(** The mapping [alarm_data] that [inject_alarm_logic] hands to the page. *)
Definition alarm_data (tasks_df : list (Z * RoutineTask.t)) : gmap string string :=
  let pending := pending tasks_df in
  Py.dict (Py.zip (map (fun r => RoutineTask.scheduled_time r.2) pending)
                  (map (fun r => RoutineTask.task r.2) pending)).

Definition missed_message (row : RoutineTask.t) : string :=
  "⚠️ MISSED: **" +:+ RoutineTask.task row +:+ "** (Scheduled: "
    +:+ RoutineTask.scheduled_time row +:+ ")".

(** [int(row['scheduled_time'].split(":")[0])] *)
Definition task_hour (row : RoutineTask.t) : result Z :=
  of_option (Py.int (Py.split_first ":" (RoutineTask.scheduled_time row)))
            (ValueError "invalid literal for int() with base 10").

(** The loop of the dashboard over the incomplete tasks; [overdue_alerts] is
    the list built so far. *)
Fixpoint overdue_loop (current_hour : Z) (todo : list (Z * RoutineTask.t))
    (overdue_alerts : list string) : result (list string) :=
  match todo with
  | [] => Ok overdue_alerts
  | row :: todo' =>
      task_hour ← task_hour row.2;
      if current_hour >? task_hour + 1 then
        overdue_loop current_hour todo' (overdue_alerts ++ [missed_message row.2])
      else overdue_loop current_hour todo' overdue_alerts
  end.

Definition overdue_alerts (current_hour : Z) (tasks_df : list (Z * RoutineTask.t))
  : result (list string) :=
  overdue_loop current_hour (pending tasks_df) [].

(** Rows with the greater id first. *)
Definition id_desc {R : Type} (a b : Z * R) : Prop := b.1 <= a.1.

#[global] Instance id_desc_dec {R : Type} (a b : Z * R) : Decision (id_desc a b).
Proof. unfold id_desc. apply _. Defined.

(** [SELECT * FROM logs WHERE severity = 'High' ORDER BY id DESC LIMIT 1] *)
Definition recent_high_risk (s : db) : result (list (Z * LogEntry.t)) :=
  t ← of_option (logs s) (no_such_table "logs");
  Ok (take 1 (merge_sort id_desc
                (List.filter (fun r => sql_eq_text (LogEntry.severity r.2) "High")
                             (rows t)))).

Definition alert_message (row : LogEntry.t) : string :=
  "🚨 ALERT: " +:+ LogEntry.original_text row +:+ " (" +:+ LogEntry.timestamp row +:+ ")".

(** The [st.error] calls of the dashboard for the high-risk query. *)
Definition high_risk_alerts (s : db) : result (list string) :=
  recent_high_risk ← recent_high_risk s;
  match recent_high_risk with
  | [] => Ok []
  | row :: _ => Ok [alert_message row.2]
  end.

(** A truth test on a stored integer. *)
Definition truthy (n : Z) : bool := negb (n =? 0).

(** Daily Routine page: [(status_color, status_text)] of a row. *)
Definition task_status (current_time : Py.time) (row : RoutineTask.t)
  : result (string * string) :=
  task_time_obj ← of_option (Py.strptime_HM (RoutineTask.scheduled_time row))
                             (ValueError "time data does not match format '%H:%M'");
  if truthy (RoutineTask.completed row) then Ok ("green", "Done")
  else if Py.time_gt current_time task_time_obj then Ok ("red", "Overdue")
  else Ok ("gray", "Upcoming").

Definition today_message (row : Appointment.t) : string :=
  "🔔 REMINDER: Appointment with **" +:+ Appointment.doctor row +:+ "** is **TODAY**!".
Definition tomorrow_message (row : Appointment.t) : string :=
  "🔔 REMINDER: Appointment with **" +:+ Appointment.doctor row +:+ "** is **TOMORROW**!".

(** The body of the [try] for one appointment; [warnings] are the
    [st.warning] calls made so far. *)
Definition reminder_body (today : Py.date) (row : Appointment.t)
    (warnings : list string) : result (list string) :=
  appt_date ← of_option (Py.strptime_Ymd (Appointment.date row))
                         (ValueError "time data does not match format '%Y-%m-%d'");
  let delta := Py.sub_days appt_date today in
  if delta =? 0 then Ok (warnings ++ [today_message row])
  else if delta =? 1 then Ok (warnings ++ [tomorrow_message row])
  else Ok warnings.

(** Shared Calendar page: the reminder loop over [appt_df], with
    [except: pass] around each body. *)
Definition appointment_reminders (today : Py.date) (appt_df : list (Z * Appointment.t))
  : list string :=
  fold_left
    (fun warnings row =>
       try_except (reminder_body today row.2 warnings) (fun _ => warnings))
    appt_df [].

(** [conn.execute("SELECT age, conditions FROM patient_profile").fetchone()] *)
Definition fetch_profile (s : db) : result (option (string * string)) :=
  t ← of_option (patient_profile s) (no_such_table "patient_profile");
  Ok (match rows t with
      | [] => None
      | r :: _ => Some (PatientProfile.age r.2, PatientProfile.conditions r.2)
      end).

(** [UPDATE patient_profile SET age = ?, conditions = ? WHERE id = 1] *)
Definition update_profile (new_age new_cond : string) (s : db) : result db :=
  t ← of_option (patient_profile s) (no_such_table "patient_profile");
  Ok (set_patient_profile
        (Table (map (fun r => if r.1 =? 1 then (r.1, PatientProfile.Row new_age new_cond)
                               else r) (rows t))
               (seq t)) s).

(* ================================================================== *)
(** * AI functions *)
(* ================================================================== *)

Definition MODEL_NAME : string := "llama-3.3-70b-versatile".

(** The keyword arguments of [client.chat.completions.create]. *)
Record request : Type := Request {
  messages : list (string * string);
  model : string;
  response_format : option string }.

Section Gateway.

(** The provider: for a request it raises, or returns the [content] of
    each choice of the completion ([None] for a message without
    content). *)
Variable create : request -> result (list (option string)).

(** [json.loads] on a string: the parsed value, or a decode error. *)
Variable json_loads : string -> result pyval.

(** [json.loads(content)] where [content] may be [None]. *)
Definition loads (content : option string) : result pyval :=
  match content with
  | Some text => json_loads text
  | None => Raise (TypeError
      "the JSON object must be str, bytes or bytearray, not NoneType")
  end.

Definition ask_ai (prompt : string) (json_mode : bool) : pyval :=
  try_except
    (let kwargs :=
       Request [("system", "You are a senior care medical expert.");
                ("user", prompt)]
               MODEL_NAME
               (if json_mode then Some "json_object" else None) in
     choices ← create kwargs;
     content ← of_option (head choices) (IndexError "list index out of range");
     if json_mode then loads content
     else Ok (match content with Some text => PStr text | None => PNone end))
    (fun e => PDict {["error" := PStr (exn_str e)]}).

Definition classify_prompt (log_text : string) : string :=
  "Analyze: '" +:+ log_text +:+
  "'. Return JSON: category (Vitals/Activity/Mood/Incident), severity (Low/Medium/High).".

(** The handler of the Submit Log button; [now] is [CURRENT_TIMESTAMP]. *)
Definition submit_log (now author log_text : string) (s : db) : result db :=
  let analysis := ask_ai (classify_prompt log_text) true in
  category ← py_get analysis "category" (PStr "General");
  severity ← py_get analysis "severity" (PStr "Low");
  t ← of_option (logs s) (no_such_table "logs");
  category ← sql_bind category;
  severity ← sql_bind severity;
  Ok (set_logs (insert_row (LogEntry.Row now author log_text category severity) t) s).

End Gateway.

(* ================================================================== *)
(** * Start of a session *)
(* ================================================================== *)

(** The module-level statements before the pages: initialise, seed the day,
    fetch the tasks of today and build the alarm mapping.  [date.today()] is
    read twice, by the seed ([seed_day]) and again for the fetch ([today]);
    the two differ when midnight falls between the two reads. *)
Definition startup (seed_day today : Py.date) (s : db)
  : result (db * list (Z * RoutineTask.t) * gmap string string) :=
  let s := init_db s in
  s ← check_and_create_daily_tasks seed_day s;
  tasks_df ← fetch_tasks today s;
  Ok (s, tasks_df, alarm_data tasks_df).

(** [json.dumps] writes the mapping into the page between the tags of the
    script element, as it is: a [<] of a scheduled time or of a task name is
    written as it is, and [json.dumps] writes none of its own.  A text such
    as the closing tag of the element inside a name ends the script before
    its end, and then no alarm runs.  When no incomplete task has a [<] in
    its name or in its time, the element holds the whole script and its
    [alarms] object is the mapping. *)
Definition lt_free (text : string) : bool :=
  forallb (fun c => negb (Py.code c =? 60)) (Py.chars text).

Definition script_intact (tasks_df : list (Z * RoutineTask.t)) : bool :=
  forallb (fun r => lt_free (RoutineTask.scheduled_time r.2)
                    && lt_free (RoutineTask.task r.2))
          (pending tasks_df).

(** One tick of the script injected in the page, when the script element is
    intact ([script_intact]): every ten seconds the current time, hours and
    minutes padded to two digits, is looked up in [alarms]; on a hit the
    alert names the task. *)
Definition alarm_tick (alarms : gmap string string) (hours minutes : Z)
  : option string :=
  let currentTime := Py.pad2 hours +:+ ":" +:+ Py.pad2 minutes in
  match alarms !! currentTime with
  | Some taskName => Some ("⏰ ALARM: Time for " +:+ taskName +:+ "!")
  | None => None
  end.

(* ================================================================== *)
(** * Caregiver actions *)
(* ================================================================== *)

(** [UPDATE t SET ... WHERE id = ?] *)
Definition update_row {R : Type} (id : Z) (f : R -> R) (t : table R) : table R :=
  Table (map (fun r => if r.1 =? id then (r.1, f r.2) else r) (rows t)) (seq t).

(** [DELETE FROM t WHERE id = ?] *)
Definition delete_row {R : Type} (id : Z) (t : table R) : table R :=
  Table (List.filter (fun r => negb (r.1 =? id)) (rows t)) (seq t).

Definition set_medications (x : table Medication.t) (s : db) : db :=
  DB (logs s) (Some x) (appointments s) (routines s) (patient_profile s).
Definition set_appointments (x : table Appointment.t) (s : db) : db :=
  DB (logs s) (medications s) (Some x) (routines s) (patient_profile s).

(** Daily Routine page, Add Task: nothing happens for an empty name. *)
Definition add_task (today : Py.date) (new_task_name : string)
    (new_task_time : Py.time) (s : db) : result db :=
  match new_task_name with
  | "" => Ok s
  | _ =>
      let time_str := Py.strftime_HM new_task_time in
      t ← of_option (routines s) (no_such_table "routines");
      Ok (set_routines
            (insert_row (RoutineTask.Row (Py.strftime_Ymd today) new_task_name time_str 0) t)
            s)
  end.

(** Daily Routine page, Save: [UPDATE routines SET scheduled_time = ? WHERE id = ?] *)
Definition save_time (id : Z) (new_t_obj : Py.time) (s : db) : result db :=
  let new_time_str := Py.strftime_HM new_t_obj in
  t ← of_option (routines s) (no_such_table "routines");
  Ok (set_routines
        (update_row id
           (fun r => RoutineTask.Row (RoutineTask.date r) (RoutineTask.task r)
                                     new_time_str (RoutineTask.completed r)) t) s).

(** Daily Routine page, Del: [DELETE FROM routines WHERE id = ?] *)
Definition delete_task (id : Z) (s : db) : result db :=
  t ← of_option (routines s) (no_such_table "routines");
  Ok (set_routines (delete_row id t) s).

(** Daily Routine page, the checkbox of a row: the store is written only
    when the box differs from the stored flag. *)
Definition toggle_task (is_checked : bool) (row : Z * RoutineTask.t) (s : db)
  : result db :=
  if negb (Bool.eqb is_checked (truthy (RoutineTask.completed row.2))) then
    t ← of_option (routines s) (no_such_table "routines");
    Ok (set_routines
          (update_row row.1
             (fun r => RoutineTask.Row (RoutineTask.date r) (RoutineTask.task r)
                                       (RoutineTask.scheduled_time r)
                                       (if is_checked then 1 else 0)) t) s)
  else Ok s.

(** Dashboard, the bin of a log entry: [DELETE FROM logs WHERE id = ?] *)
Definition delete_log (id : Z) (s : db) : result db :=
  t ← of_option (logs s) (no_such_table "logs");
  Ok (set_logs (delete_row id t) s).

(** Dashboard, Recent Activity:
    [SELECT ... FROM logs ORDER BY id DESC LIMIT 10] *)
Definition recent_activity (s : db) : result (list (Z * LogEntry.t)) :=
  t ← of_option (logs s) (no_such_table "logs");
  Ok (take 10 (merge_sort id_desc (rows t))).

Definition severity_icon (row : LogEntry.t) : string :=
  if sql_eq_text (LogEntry.severity row) "High" then "🔴" else "🟢".

(** Medication Safety page, Add to Cabinet. *)
Definition add_med (name dosage time_val : string) (s : db) : result db :=
  t ← of_option (medications s) (no_such_table "medications");
  Ok (set_medications (insert_row (Medication.Row name dosage time_val None) t) s).

(** Medication Safety page, the bin of a medicine. *)
Definition delete_med (id : Z) (s : db) : result db :=
  t ← of_option (medications s) (no_such_table "medications");
  Ok (set_medications (delete_row id t) s).

(** [SELECT id, name, dosage, time FROM medications] *)
Definition fetch_meds (s : db) : result (list (Z * Medication.t)) :=
  t ← of_option (medications s) (no_such_table "medications");
  Ok (rows t).

(** [date.isoformat()], the text the driver stores for a [date]. *)
Definition isoformat (x : Py.date) : string :=
  Py.pad4 (Py.year x) +:+ "-" +:+ Py.pad2 (Py.month x) +:+ "-" +:+ Py.pad2 (Py.day x).

(** Shared Calendar page, Schedule. *)
Definition add_appointment (date_val : Py.date) (doc purpose : string) (s : db)
  : result db :=
  t ← of_option (appointments s) (no_such_table "appointments");
  Ok (set_appointments (insert_row (Appointment.Row (isoformat date_val) doc purpose) t) s).

(** Shared Calendar page, the bin of an appointment. *)
Definition delete_appointment (id : Z) (s : db) : result db :=
  t ← of_option (appointments s) (no_such_table "appointments");
  Ok (set_appointments (delete_row id t) s).

(** Rows with the earlier date text first. *)
Definition date_asc (a b : Z * Appointment.t) : Prop :=
  String.leb (Appointment.date a.2) (Appointment.date b.2) = true.

#[global] Instance date_asc_dec (a b : Z * Appointment.t) : Decision (date_asc a b).
Proof. unfold date_asc. apply _. Defined.

(** [SELECT id, date, doctor, purpose FROM appointments ORDER BY date ASC] *)
Definition fetch_appointments (s : db) : result (list (Z * Appointment.t)) :=
  t ← of_option (appointments s) (no_such_table "appointments");
  Ok (merge_sort date_asc (rows t)).

(** Shared Calendar page: the reminders shown for the stored appointments. *)
Definition calendar_reminders (today : Py.date) (s : db) : result (list string) :=
  appt_df ← fetch_appointments s;
  Ok (appointment_reminders today appt_df).

(* ================================================================== *)
(** * The advisory pages *)
(* ================================================================== *)

(** A double quote and a line feed, as they occur in the prompts. *)
Definition dq : string := String (ascii_of_nat 34) "".
Definition nl : string := String (ascii_of_nat 10) "".

(** The calls a page makes to draw its result. *)
Inductive st_call : Type :=
  | st_success (body : string)
  | st_error (body : string)
  | st_warning (body : string)
  | st_caption (body : string)
  | st_subheader (body : string)
  | st_info (body : pyval)
  | st_write (body : pyval)
  | st_markdown (body : pyval).

(** What a handler drew, and the exception that ended it, if any. *)
Definition page : Type := (list st_call * option exn)%type.

Definition drawn (calls : list st_call) : page := (calls, None).
Definition crashed (calls : list st_call) (e : exn) : page := (calls, Some e).

(** [needle in hay] on strings. *)
Fixpoint contains (needle hay : string) : bool :=
  if String.prefix needle hay then true
  else match hay with
       | "" => false
       | String _ hay' => contains needle hay'
       end.

Section Pages.

Variable create : request -> result (list (option string)).
Variable json_loads : string -> result pyval.

(** Three facts about Python values that the model leaves to the
    interpreter: whether a float literal denotes zero, the text [str(v)] of
    a number or a container, and the order in which a dict yields its
    keys. *)
Variable float_is_zero : string -> bool.
Variable repr : pyval -> string.
Variable dict_keys : gmap string pyval -> list string.

(** [bool(v)] *)
Definition py_truthy (v : pyval) : bool :=
  match v with
  | PNone => false
  | PBool b => b
  | PInt n => negb (n =? 0)
  | PFloat literal => negb (float_is_zero literal)
  | PStr s => negb (String.eqb s "")
  | PList l => match l with [] => false | _ :: _ => true end
  | PDict m => negb (bool_decide (m = ∅))
  end.

(** The text of [v] inside an f-string. *)
Definition py_format (v : pyval) : string :=
  match v with
  | PNone => "None"
  | PBool true => "True"
  | PBool false => "False"
  | PStr s => s
  | _ => repr v
  end.

(** [for x in v]: the items, or [TypeError] when [v] is not iterable.  A
    text is iterated character by character; the characters of the model are
    bytes, which are the characters of Python on ASCII text. *)
Definition py_iter (v : pyval) : result (list pyval) :=
  match v with
  | PList l => Ok l
  | PStr s => Ok (map (fun c => PStr (String c "")) (Py.chars s))
  | PDict m => Ok (map PStr (dict_keys m))
  | _ => Raise (TypeError "object is not iterable")
  end.

(** [needle in v] for a string [needle]. *)
Definition py_in (needle : string) (v : pyval) : result bool :=
  match v with
  | PStr s => Ok (contains needle s)
  | PList l => Ok (existsb (fun x => match x with
                                     | PStr s => String.eqb s needle
                                     | _ => false
                                     end) l)
  | PDict m => Ok (bool_decide (is_Some (m !! needle)))
  | _ => Raise (TypeError "argument is not iterable")
  end.

(** [v[key]] on the dict returned by the gateway. *)
Definition py_item (m : gmap string pyval) (key : string) : option pyval := m !! key.

Definition analyze_medical_text (report_text : string) : pyval :=
  let prompt :=
    nl +:+
    "    You are a helpful medical assistant for a family. " +:+ nl +:+
    "    Here is the text from a medical report/lab result: " +:+ dq +:+ report_text +:+ dq +:+ nl +:+
    "    1. Identify the key test names and values." +:+ nl +:+
    "    2. Translate what they mean into plain English for a non-doctor." +:+ nl +:+
    "    3. If values seem high/low based on general knowledge, mention it gently." +:+ nl +:+
    "    Return the response in clear Markdown format." +:+ nl +:+
    "    " in
  ask_ai create json_loads prompt false.

Definition check_drug_interactions (meds_list : string) : pyval :=
  let prompt :=
    "Analyze this list of medications for dangerous interactions: " +:+ meds_list +:+ ". Return JSON: " +:+ dq +:+ "safe" +:+ dq +:+ ": bool, " +:+ dq +:+ "warnings" +:+ dq +:+ ": list, " +:+ dq +:+ "recommendation" +:+ dq +:+ ": str" in
  ask_ai create json_loads prompt true.

Definition check_food_interaction (food_item meds_list : string) : pyval :=
  let prompt :=
    "Patient's Meds: " +:+ meds_list +:+ ". Food: " +:+ dq +:+ food_item +:+ dq +:+ ". Analyze Food-Drug interactions. Return JSON: " +:+ dq +:+ "safe" +:+ dq +:+ ": bool, " +:+ dq +:+ "warning" +:+ dq +:+ ": str, " +:+ dq +:+ "advice" +:+ dq +:+ ": str" in
  ask_ai create json_loads prompt true.

Definition detect_patterns (history_text : string) : pyval :=
  let prompt :=
    "Analyze logs for " +:+ dq +:+ "Slow Declines" +:+ dq +:+ ". Return JSON: " +:+ dq +:+ "concern_detected" +:+ dq +:+ ": bool, " +:+ dq +:+ "pattern_description" +:+ dq +:+ ": str, " +:+ dq +:+ "advice" +:+ dq +:+ ": str. Logs: " +:+ history_text in
  ask_ai create json_loads prompt true.

Definition generate_newsletter (history_text : string) : pyval :=
  let prompt :=
    "Summarize these logs: " +:+ history_text +:+ ". Organize by " +:+ dq +:+ "Physical Health" +:+ dq +:+ ", " +:+ dq +:+ "Mood" +:+ dq +:+ ", " +:+ dq +:+ "Upcoming Needs" +:+ dq +:+ ". Direct message format. No " +:+ dq +:+ "Dear Family" +:+ dq +:+ "." in
  ask_ai create json_loads prompt false.

Definition check_symptoms_with_context (symptoms age conditions meds : string) : pyval :=
  let prompt :=
    nl +:+
    "    Act as a professional medical triage nurse (Dr. AI)." +:+ nl +:+
    "    " +:+ nl +:+
    "    PATIENT PROFILE:" +:+ nl +:+
    "    - Age: " +:+ age +:+ nl +:+
    "    - Known Conditions: " +:+ conditions +:+ nl +:+
    "    - Current Medications: " +:+ meds +:+ nl +:+
    "    " +:+ nl +:+
    "    NEW SYMPTOMS:" +:+ nl +:+
    "    " +:+ dq +:+ symptoms +:+ dq +:+ nl +:+
    "    " +:+ nl +:+
    "    Analyze the symptoms specifically in the context of their age, conditions, and meds." +:+ nl +:+
    "    " +:+ nl +:+
    "    Return JSON with:" +:+ nl +:+
    "    - " +:+ dq +:+ "triage_level" +:+ dq +:+ ": (String: " +:+ dq +:+ "Emergency - Call 911" +:+ dq +:+ ", " +:+ dq +:+ "Urgent - See Doctor 24h" +:+ dq +:+ ", " +:+ dq +:+ "Non-Urgent - Monitor" +:+ dq +:+ ")" +:+ nl +:+
    "    - " +:+ dq +:+ "analysis" +:+ dq +:+ ": (String: Explain WHY, linking symptoms to conditions/meds if relevant)" +:+ nl +:+
    "    - " +:+ dq +:+ "action_plan" +:+ dq +:+ ": (String: Bullet points of what to do right now)" +:+ nl +:+
    "    - " +:+ dq +:+ "disclaimer" +:+ dq +:+ ": (String: Strict medical disclaimer)" +:+ nl +:+
    "    " in
  ask_ai create json_loads prompt true.

(** [str(meds_df['name'].tolist())] *)
Definition med_list_str (meds_df : list (Z * Medication.t)) : string :=
  repr (PList (map (fun r => PStr (Medication.name r.2)) meds_df)).

(** Medication Safety page, Check Drug Interactions; the button exists only
    when the cabinet is not empty. *)
Definition check_interactions_page (meds_df : list (Z * Medication.t)) : page :=
  let report := check_drug_interactions (med_list_str meds_df) in
  match py_get report "safe" PNone with
  | Raise e => crashed [] e
  | Ok safe =>
      if py_truthy safe then drawn [st_success "✅ No dangerous interactions detected."]
      else
        let calls := [st_error "❌ INTERACTION WARNING"] in
        match (warnings ← py_get report "warnings" (PList []); py_iter warnings) with
        | Raise e => crashed calls e
        | Ok items =>
            drawn (calls ++ map (fun warn => st_write (PStr ("- " +:+ py_format warn))) items)
        end
  end.

(** Medication Safety page, Check Safety of a food. *)
Definition check_food_page (food_input : string) (meds_df : list (Z * Medication.t))
  : page :=
  match food_input with
  | "" => drawn [st_warning "Please enter a food item."]
  | _ =>
      match meds_df with
      | [] => drawn [st_info (PStr "Cabinet is empty. Please add medicines first.")]
      | _ :: _ =>
          let result := check_food_interaction food_input (med_list_str meds_df) in
          match result with
          | PDict m =>
              let get (key : string) := match m !! key with Some v => v | None => PNone end in
              if py_truthy (get "safe") then
                let calls := [st_success ("✅ **" +:+ food_input +:+ "** appears safe.")] in
                if py_truthy (get "advice") then drawn (calls ++ [st_info (get "advice")])
                else drawn calls
              else
                drawn [ st_error "⚠️ **Caution Required**";
                        st_write (PStr ("**Warning:** " +:+ py_format (get "warning")));
                        st_write (PStr ("**Advice:** " +:+ py_format (get "advice"))) ]
          | _ => crashed [] (AttributeError "object has no attribute 'get'")
          end
      end
  end.

(** What the pattern page draws for an answer of the model; [inr (calls, key)]
    is a [KeyError] for [key] raised after [calls] were drawn. *)
Definition patterns_view (analysis : pyval) : page + (list st_call * string) :=
  match analysis with
  | PDict m =>
      if py_truthy (match m !! "concern_detected" with Some v => v | None => PNone end) then
        match m !! "pattern_description" with
        | None => inr ([], "pattern_description")
        | Some description =>
            let calls := [st_warning ("⚠️ Pattern Detected: " +:+ py_format description)] in
            match m !! "advice" with
            | None => inr (calls, "advice")
            | Some advice =>
                inl (drawn (calls ++ [st_write (PStr ("**Advice:** " +:+ py_format advice))]))
            end
        end
      else inl (drawn [st_success "✅ Trends look stable."])
  | _ => inl (crashed [] (AttributeError "object has no attribute 'get'"))
  end.

(** Family Updates page, Run Pattern Analysis. *)
Definition run_pattern_analysis_page (history_text : string)
  : page + (list st_call * string) :=
  patterns_view (detect_patterns history_text).

(** Medical Reports page, Decode Report. *)
Definition decode_report_page (report_text : string) : page :=
  match report_text with
  | "" => drawn [st_warning "Please paste some text first."]
  | _ =>
      let analysis := analyze_medical_text report_text in
      drawn [ st_subheader "📝 Plain English Translation";
              st_markdown analysis;
              st_success "Analysis Complete!" ]
  end.

(** Dr. AI page: the part drawn for the triage level. *)
Definition triage_banner (triage : pyval) : result st_call :=
  emergency ← py_in "Emergency" triage;
  if emergency : bool then Ok (st_error ("🔴 **TRIAGE: " +:+ py_format triage +:+ "**"))
  else
    urgent ← py_in "Urgent" triage;
    if urgent : bool then Ok (st_warning ("🟠 **TRIAGE: " +:+ py_format triage +:+ "**"))
    else Ok (st_success ("🟢 **TRIAGE: " +:+ py_format triage +:+ "**")).

(** Dr. AI page, Check Symptoms; [age], [conditions] and [meds_df] are what
    the page fetched. *)
Definition check_symptoms_page (symptoms age conditions : string)
    (meds_df : list (Z * Medication.t)) : page :=
  let meds_list_str :=
    match meds_df with
    | [] => "No medications listed"
    | _ :: _ => med_list_str meds_df
    end in
  match symptoms with
  | "" => drawn [st_warning "Please enter symptoms."]
  | _ =>
      let result := check_symptoms_with_context symptoms age conditions meds_list_str in
      match result with
      | PDict m =>
          let get (key : string) := match m !! key with Some v => v | None => PNone end in
          let triage := match m !! "triage_level" with
                        | Some v => v
                        | None => PStr "Unknown"
                        end in
          match triage_banner triage with
          | Raise e => crashed [] e
          | Ok banner =>
              drawn [ banner;
                      st_subheader "Analysis";
                      st_write (get "analysis");
                      st_subheader "Recommended Action Plan";
                      st_info (get "action_plan");
                      st_caption ("⚠️ **DISCLAIMER:** " +:+ py_format (get "disclaimer")) ]
          end
      | _ => crashed [] (AttributeError "object has no attribute 'get'")
      end
  end.

End Pages.

(* ================================================================== *)
(** * The operations as one transition system *)
(* ================================================================== *)

(** What a session can do to the store. *)
Inductive action : Type :=
  | Init
  | Seed (today : Py.date)
  | AddTask (today : Py.date) (new_task_name : string) (new_task_time : Py.time)
  | SaveTime (id : Z) (new_t_obj : Py.time)
  | DeleteTask (id : Z)
  | Toggle (is_checked : bool) (row : Z * RoutineTask.t)
  | SubmitLog (now author log_text : string)
  | DeleteLog (id : Z)
  | AddMed (name dosage time_val : string)
  | DeleteMed (id : Z)
  | AddAppointment (date_val : Py.date) (doc purpose : string)
  | DeleteAppointment (id : Z)
  | UpdateProfile (new_age new_cond : string).

(** The time and date pickers of the pages only yield times of the day and
    dates of the calendar. *)
Definition from_widgets (a : action) : Prop :=
  match a with
  | AddTask _ _ t | SaveTime _ t =>
      0 <= Py.hour t < 24 /\ 0 <= Py.minute t < 60
  | AddAppointment x _ _ =>
      Py.check_date_fields (Py.year x) (Py.month x) (Py.day x) = true
  | _ => True
  end.

Section Transitions.

Variable create : request -> result (list (option string)).
Variable json_loads : string -> result pyval.

Definition perform (a : action) (s : db) : result db :=
  match a with
  | Init => Ok (init_db s)
  | Seed today => check_and_create_daily_tasks today s
  | AddTask today name time => add_task today name time s
  | SaveTime id time => save_time id time s
  | DeleteTask id => delete_task id s
  | Toggle is_checked row => toggle_task is_checked row s
  | SubmitLog now author log_text => submit_log create json_loads now author log_text s
  | DeleteLog id => delete_log id s
  | AddMed name dosage time_val => add_med name dosage time_val s
  | DeleteMed id => delete_med id s
  | AddAppointment date_val doc purpose => add_appointment date_val doc purpose s
  | DeleteAppointment id => delete_appointment id s
  | UpdateProfile new_age new_cond => update_profile new_age new_cond s
  end.

(** The stores that sessions can produce from a new database file. *)
Inductive reachable : db -> Prop :=
  | reachable_new : reachable new_db
  | reachable_step (a : action) (s s' : db) :
      reachable s -> from_widgets a -> perform a s = Ok s' -> reachable s'.

End Transitions.

(** A table whose ids are distinct and covered by its sequence. *)
Definition keyed {R : Type} (t : table R) : Prop :=
  NoDup (map fst (rows t)) /\ forall r, r ∈ rows t -> r.1 <= seq t.

(** A scheduled time as the application writes it. *)
Definition written_time (st : string) : Prop :=
  exists t, 0 <= Py.hour t < 24 /\ 0 <= Py.minute t < 60 /\ st = Py.strftime_HM t.

(** An appointment date as the application stores it. *)
Definition written_date (text : string) : Prop :=
  exists x, Py.check_date_fields (Py.year x) (Py.month x) (Py.day x) = true /\
            text = isoformat x.

(** The invariant of the store. *)
Definition store_ok (s : db) : Prop :=
  (forall t, logs s = Some t -> keyed t) /\
  (forall t, medications s = Some t -> keyed t) /\
  (forall t, appointments s = Some t ->
     keyed t /\ forall r, r ∈ rows t -> written_date (Appointment.date r.2)) /\
  (forall t, routines s = Some t ->
     keyed t /\ forall r, r ∈ rows t -> written_time (RoutineTask.scheduled_time r.2)) /\
  (forall t, patient_profile s = Some t -> keyed t /\ List.length (rows t) = 1%nat).

(* ================================================================== *)
(** * Definitions used to state the properties *)
(* ================================================================== *)

(** The rows of the routine table for a day, without their ids. *)
Definition todays_tasks (today : Py.date) (s : db) : list RoutineTask.t :=
  map snd (List.filter
             (fun r => String.eqb (RoutineTask.date r.2) (Py.strftime_Ymd today))
             (rows_of (routines s))).

(** A concrete day and the store after the first start of the application. *)
Definition demo_day : Py.date := Py.Date 2026 11 3.
Definition started_db : db := init_db new_db.

(** The store of the demo day after the start of the session. *)
Definition seeded_db : db :=
  match check_and_create_daily_tasks demo_day started_db with
  | Ok s => s
  | Raise _ => started_db
  end.

(** The store in which the profile row was deleted by hand after the first
    start: the table is empty and the sequence remembers id 1. *)
Definition profile_deleted_db : db :=
  set_patient_profile (Table [] 1) started_db.

(** The order on times is the order of the instants of the day, counted in
    microseconds. *)
Definition micros (t : Py.time) : Z :=
  ((Py.hour t * 60 + Py.minute t) * 60 + Py.second t) * 1000000 + Py.microsecond t.

(** A time of the day. *)
Definition valid_time (t : Py.time) : Prop :=
  0 <= Py.hour t < 24 /\ 0 <= Py.minute t < 60 /\
  0 <= Py.second t < 60 /\ 0 <= Py.microsecond t < 1000000.

(** A row of today is missed when it is not completed and the current hour
    is more than one hour past the hour of its scheduled time. *)
Definition missed (current_hour : Z) (row : RoutineTask.t) : bool :=
  (RoutineTask.completed row =? 0) &&
  match task_hour row with
  | Ok h => h + 1 <? current_hour
  | Raise _ => false
  end.

(** Two incomplete tasks added for the same time of the day. *)
Definition same_time_df : list (Z * RoutineTask.t) :=
  [ (7, RoutineTask.Row "2026-11-03" "Physiotherapy" "10:00" 0);
    (8, RoutineTask.Row "2026-11-03" "Eye drops" "10:00" 0) ].

(** A log with two High entries and a later Low one. *)
Definition demo_logs : table LogEntry.t :=
  Table [ (1, LogEntry.Row "2026-11-01 08:00:00" "Nurse" "Fell in the hallway"
               (SqlText "Incident") (SqlText "High"));
          (2, LogEntry.Row "2026-11-02 09:30:00" "Son" "Chest pain after lunch"
               (SqlText "Vitals") (SqlText "High"));
          (3, LogEntry.Row "2026-11-03 10:00:00" "Daughter" "Good mood today"
               (SqlText "Mood") (SqlText "Low")) ] 3.

(** The [High] rows of the log. *)
Definition high_rows (t : table LogEntry.t) : list (Z * LogEntry.t) :=
  List.filter (fun r => sql_eq_text (LogEntry.severity r.2) "High") (rows t).

(** The explicit error object of the gateway. *)
Definition error_object (msg : string) : pyval := PDict {[ "error" := PStr msg ]}.

(** The request sent for a prompt. *)
Definition request_of (prompt : string) (json_mode : bool) : request :=
  Request [("system", "You are a senior care medical expert."); ("user", prompt)]
          MODEL_NAME
          (if json_mode then Some "json_object" else None).

(** A provider that is down, and a decoder that rejects everything. *)
Definition provider_down : request -> result (list (option string)) :=
  fun _ => Raise (ProviderError "Connection error.").
Definition provider_says (text : string) : request -> result (list (option string)) :=
  fun _ => Ok [Some text].
Definition no_json : string -> result pyval :=
  fun _ => Raise (ValueError "Expecting value: line 1 column 1 (char 0)").
Definition classified_json : string -> result pyval :=
  fun _ => Ok (PDict (<["category" := PStr "Incident"]> {[ "severity" := PStr "High" ]})).

(** [json.loads] on the payload [[]], the empty JSON array: the empty list. *)
Definition array_json : string -> result pyval :=
  fun text => if String.eqb text "[]" then Ok (PList [])
              else Raise (ValueError "Expecting value: line 1 column 1 (char 0)").

(** A date of the proleptic Gregorian calendar, with no upper bound on the
    year. *)
Definition calendar_date (x : Py.date) : Prop :=
  1 <= Py.year x /\ 1 <= Py.month x <= 12 /\
  1 <= Py.day x <= Py.days_in_month (Py.year x) (Py.month x).

(** The length of a year. *)
Definition days_in_year (y : Z) : Z := if Py.is_leap y then 366 else 365.

#[global] Instance date_eq_dec : EqDecision Py.date.
Proof. solve_decision. Defined.

(** What one appointment contributes to the reminders of a day. *)
Definition appointment_alert (today : Py.date) (row : Appointment.t) : list string :=
  match Py.strptime_Ymd (Appointment.date row) with
  | Some appt_date =>
      if decide (appt_date = today) then [today_message row]
      else if decide (appt_date = Py.tomorrow today) then [tomorrow_message row]
      else []
  | None => []
  end.

(* ================================================================== *)
(** * Properties of the database management *)
(* ================================================================== *)

Lemma rows_insert_row {R : Type} (r : R) (t : table R) :
  rows (insert_row r t) = rows t ++ [(next_rowid t, r)].
Proof. reflexivity. Qed.

Lemma filter_nil_of_length {A : Type} (p : A -> bool) (l : list A) :
  Z.of_nat (List.length (List.filter p l)) = 0 -> List.filter p l = [].
Proof. destruct (List.filter p l); simpl; [done | lia]. Qed.

Lemma db_eta_routines (s : db) (t : table RoutineTask.t) :
  routines s = Some t -> set_routines t s = s.
Proof. destruct s; simpl; intros ->; reflexivity. Qed.

Lemma db_eta_profile (s : db) (t : table PatientProfile.t) :
  patient_profile s = Some t -> set_patient_profile t s = s.
Proof. destruct s; simpl; intros ->; reflexivity. Qed.

Lemma rows_set_routines (x : table RoutineTask.t) (s : db) :
  rows_of (routines (set_routines x s)) = rows x.
Proof. reflexivity. Qed.

(** Seeding an empty day: the six defaults are appended, nothing else moves. *)
Lemma seed_rows (today_str : string) (t : table RoutineTask.t) :
  exists i1 i2 i3 i4 i5 i6,
    rows (fold_left
            (fun t '(task, t_time) =>
               insert_row (RoutineTask.Row today_str task t_time 0) t)
            defaults t)
    = rows t ++
      [ (i1, RoutineTask.Row today_str "Breakfast" "08:00" 0);
        (i2, RoutineTask.Row today_str "Morning Meds" "09:00" 0);
        (i3, RoutineTask.Row today_str "Lunch" "13:00" 0);
        (i4, RoutineTask.Row today_str "Afternoon Walk" "17:00" 0);
        (i5, RoutineTask.Row today_str "Dinner" "20:00" 0);
        (i6, RoutineTask.Row today_str "Night Meds" "21:00" 0) ].
Proof.
  do 6 eexists. unfold defaults. cbn [fold_left].
  rewrite !rows_insert_row, <- !app_assoc. reflexivity.
Qed.

(** C1. The daily seed is a no-op when the date already has a row; otherwise
    it appends exactly the six default tasks, not completed; a second call
    on the same date changes nothing, so the number of rows of the date stays
    the same. *)
Theorem check_and_create_daily_tasks_idempotent
    (today : Py.date) (s : db) (t : table RoutineTask.t) :
  routines s = Some t ->
  exists s',
    check_and_create_daily_tasks today s = Ok s' /\
    (todays_tasks today s <> [] -> s' = s) /\
    (todays_tasks today s = [] ->
       todays_tasks today s' =
         [ RoutineTask.Row (Py.strftime_Ymd today) "Breakfast" "08:00" 0;
           RoutineTask.Row (Py.strftime_Ymd today) "Morning Meds" "09:00" 0;
           RoutineTask.Row (Py.strftime_Ymd today) "Lunch" "13:00" 0;
           RoutineTask.Row (Py.strftime_Ymd today) "Afternoon Walk" "17:00" 0;
           RoutineTask.Row (Py.strftime_Ymd today) "Dinner" "20:00" 0;
           RoutineTask.Row (Py.strftime_Ymd today) "Night Meds" "21:00" 0 ] /\
       (exists new, rows_of (routines s') = rows t ++ new /\ List.length new = 6%nat) /\
       logs s' = logs s /\ medications s' = medications s /\
       appointments s' = appointments s /\ patient_profile s' = patient_profile s) /\
    check_and_create_daily_tasks today s' = Ok s' /\
    (forall s'', check_and_create_daily_tasks today s' = Ok s'' ->
       List.length (todays_tasks today s'') = List.length (todays_tasks today s')).
Proof.
  unfold check_and_create_daily_tasks, todays_tasks.
  generalize (Py.strftime_Ymd today). intros today_str Ht.
  set (p := fun r : Z * RoutineTask.t => String.eqb (RoutineTask.date r.2) today_str).
  set (seed := fun t : table RoutineTask.t =>
         fold_left (fun t '(task, t_time) =>
           insert_row (RoutineTask.Row today_str task t_time 0) t) defaults t).
  assert (Hcount : forall u : table RoutineTask.t,
             count_where (fun r => String.eqb (RoutineTask.date r) today_str) u
             = Z.of_nat (List.length (List.filter p (rows u)))) by reflexivity.
  rewrite Ht. cbn [of_option mbind result_bind rows_of].
  rewrite Hcount.
  destruct (List.filter p (rows t)) as [|x l] eqn:Hf.
  - (* nothing for today yet *)
    destruct (seed_rows today_str t) as (i1 & i2 & i3 & i4 & i5 & i6 & Hseed).
    change (fold_left _ defaults t) with (seed t) in Hseed.
    assert (Hnew : List.filter p (rows (seed t))
             = [ (i1, RoutineTask.Row today_str "Breakfast" "08:00" 0);
                 (i2, RoutineTask.Row today_str "Morning Meds" "09:00" 0);
                 (i3, RoutineTask.Row today_str "Lunch" "13:00" 0);
                 (i4, RoutineTask.Row today_str "Afternoon Walk" "17:00" 0);
                 (i5, RoutineTask.Row today_str "Dinner" "20:00" 0);
                 (i6, RoutineTask.Row today_str "Night Meds" "21:00" 0) ]).
    { rewrite Hseed, List.filter_app, Hf. unfold p.
      cbn [List.filter app snd RoutineTask.date].
      rewrite String.eqb_refl. reflexivity. }
    exists (set_routines (seed t) s).
    cbn [List.length Z.of_nat Z.eqb].
    split; [reflexivity|].
    rewrite rows_set_routines, Hnew.
    cbn [routines set_routines of_option mbind result_bind].
    rewrite Hcount, Hnew.
    split; [done|]. split; [|split; [reflexivity|]].
    + intros _. split; [reflexivity|]. split.
      * rewrite Hseed. eexists. split; reflexivity.
      * destruct s; done.
    + intros s'' Hs''. injection Hs'' as <-.
      rewrite rows_set_routines, Hnew. reflexivity.
  - (* today already has rows *)
    exists s. rewrite Ht. cbn [of_option mbind result_bind rows_of].
    rewrite Hcount, Hf.
    change (Z.of_nat (List.length (x :: l)) =? 0) with false. cbv iota.
    split; [reflexivity|]. split; [done|]. split; [done|].
    split; [reflexivity|]. intros s'' Hs''.
    injection Hs'' as <-. rewrite Ht. cbn [rows_of]. rewrite Hf. reflexivity.
Qed.

Lemma check_and_create_daily_tasks_idempotent_witness :
  routines started_db = Some empty_table /\
  exists s', check_and_create_daily_tasks demo_day started_db = Ok s' /\
             check_and_create_daily_tasks demo_day s' = Ok s'.
Proof.
  split; [reflexivity|].
  destruct (check_and_create_daily_tasks_idempotent demo_day started_db empty_table)
    as (s' & H1 & _ & _ & H2 & _); [reflexivity|].
  exists s'. split; assumption.
Defined.

Lemma profile_of_init_db (s : db) :
  patient_profile (init_db s) =
  Some (let p := create_table_if_not_exists (patient_profile s) in
        match rows p with
        | [] => insert_row default_profile p
        | _ :: _ => p
        end).
Proof.
  unfold init_db, count_where. cbn [fold_left try_except alter_table_add_column patient_profile].
  destruct (rows (create_table_if_not_exists (patient_profile s))) eqn:E;
    cbn [List.filter List.length]; [reflexivity|].
  case Z.eqb_spec; [lia|reflexivity].
Qed.

Lemma profile_rows_of_init_db (s : db) :
  rows_of (patient_profile (init_db s)) =
  match rows_of (patient_profile s) with
  | [] => [(next_rowid (create_table_if_not_exists (patient_profile s)), default_profile)]
  | r :: l => r :: l
  end.
Proof.
  rewrite profile_of_init_db. cbn [rows_of].
  destruct (patient_profile s) as [t|]; cbn [create_table_if_not_exists rows_of].
  - destruct (rows t) eqn:E; [|exact E]. rewrite rows_insert_row, E. reflexivity.
  - reflexivity.
Qed.

Lemma profile_rows_iter_init_db (n : nat) (s : db) :
  rows_of (patient_profile (Nat.iter (S n) init_db s)) =
  rows_of (patient_profile (init_db s)).
Proof.
  induction n as [|n IH]; [reflexivity|].
  change (Nat.iter (S (S n)) init_db s) with (init_db (Nat.iter (S n) init_db s)).
  rewrite profile_rows_of_init_db, IH.
  rewrite (profile_rows_of_init_db s).
  destruct (rows_of (patient_profile s)); reflexivity.
Qed.

(** C2. However many times the store is initialised (at least once), the
    profile table holds exactly one row afterwards: the default row is
    inserted when the table is empty, and an initialisation that finds a row
    leaves the table as it is. *)
Theorem init_db_profile_singleton (s : db) :
  (rows_of (patient_profile s) = [] ->
     exists i, rows_of (patient_profile (init_db s)) =
               [(i, PatientProfile.Row "75" "Hypertension, Arthritis")]) /\
  (rows_of (patient_profile s) <> [] ->
     rows_of (patient_profile (init_db s)) = rows_of (patient_profile s) /\
     forall t, patient_profile s = Some t -> patient_profile (init_db s) = Some t) /\
  (forall n : nat, (1 <= n)%nat ->
     (List.length (rows_of (patient_profile s)) <= 1)%nat ->
     List.length (rows_of (patient_profile (Nat.iter n init_db s))) = 1%nat /\
     rows_of (patient_profile (Nat.iter n init_db s)) =
       rows_of (patient_profile (init_db s))) /\
  (forall n : nat, (1 <= n)%nat ->
     rows_of (patient_profile (Nat.iter n init_db new_db)) =
       [(1, PatientProfile.Row "75" "Hypertension, Arthritis")]).
Proof.
  split; [|split; [|split]].
  - intros H. rewrite profile_rows_of_init_db, H. eexists. reflexivity.
  - intros H. split.
    + rewrite profile_rows_of_init_db. destruct (rows_of (patient_profile s)); done.
    + intros t Ht. rewrite profile_of_init_db, Ht. cbn [create_table_if_not_exists].
      rewrite Ht in H. cbn [rows_of] in H. destruct (rows t); done.
  - intros [|n] Hn Hle; [lia|]. rewrite profile_rows_iter_init_db. split; [|reflexivity].
    rewrite profile_rows_of_init_db.
    destruct (rows_of (patient_profile s)) as [|r [|r' l]]; simpl in *; try reflexivity; lia.
  - intros [|n] Hn; [lia|]. rewrite profile_rows_iter_init_db. reflexivity.
Qed.

Lemma init_db_profile_singleton_witness :
  List.length (rows_of (patient_profile (Nat.iter 3 init_db new_db))) = 1%nat /\
  rows_of (patient_profile (Nat.iter 3 init_db new_db)) =
    [(1, PatientProfile.Row "75" "Hypertension, Arthritis")].
Proof.
  destruct (init_db_profile_singleton new_db) as (_ & _ & H & H').
  split.
  - apply (H 3%nat); simpl; lia.
  - apply (H' 3%nat). lia.
Defined.

(** The rows written by the profile update. *)
Lemma update_profile_rows (new_age new_cond : string) (s : db)
    (t : table PatientProfile.t) :
  patient_profile s = Some t ->
  update_profile new_age new_cond s =
    Ok (set_patient_profile
          (Table (map (fun r => if r.1 =? 1
                                then (r.1, PatientProfile.Row new_age new_cond)
                                else r) (rows t)) (seq t)) s).
Proof. intros Ht. unfold update_profile. rewrite Ht. reflexivity. Qed.

Lemma map_id_on {A : Type} (f : A -> A) (l : list A) :
  (forall x, x ∈ l -> f x = x) -> map f l = l.
Proof.
  induction l as [|a l IH]; intros H; [reflexivity|]. simpl.
  rewrite (H a) by apply list_elem_of_here.
  rewrite IH; [reflexivity|]. intros x Hx. apply H. by apply list_elem_of_further.
Qed.

(** C10. The profile update rewrites the rows whose id is 1 and no other
    row; when no row has id 1 the whole store is left as it was, although
    the read path returns the first row whatever its id. *)
Theorem update_profile_only_id_1 (new_age new_cond : string) (s : db)
    (t : table PatientProfile.t) :
  patient_profile s = Some t ->
  exists s',
    update_profile new_age new_cond s = Ok s' /\
    logs s' = logs s /\ medications s' = medications s /\
    appointments s' = appointments s /\ routines s' = routines s /\
    List.length (rows_of (patient_profile s')) = List.length (rows t) /\
    (forall (k : nat) (i : Z) (r : PatientProfile.t),
       rows t !! k = Some (i, r) ->
       rows_of (patient_profile s') !! k =
         Some (i, if i =? 1 then PatientProfile.Row new_age new_cond else r)) /\
    ((forall i r, (i, r) ∈ rows t -> i <> 1) ->
       s' = s /\ fetch_profile s' = fetch_profile s /\
       fetch_profile s =
         Ok (match rows t with
             | [] => None
             | r :: _ => Some (PatientProfile.age r.2, PatientProfile.conditions r.2)
             end)).
Proof.
  intros Ht. eexists. split; [apply update_profile_rows; exact Ht|].
  split; [reflexivity|]. split; [reflexivity|]. split; [reflexivity|].
  split; [reflexivity|]. cbn [patient_profile set_patient_profile rows_of rows].
  split; [apply length_map|]. split.
  - intros k i r Hk. rewrite list_lookup_fmap, Hk. cbn [fmap option_fmap option_map fst].
    destruct (i =? 1); reflexivity.
  - intros Hno.
    assert (Hs : set_patient_profile
              (Table (map (fun r : Z * PatientProfile.t =>
                       if r.1 =? 1 then (r.1, PatientProfile.Row new_age new_cond) else r)
                     (rows t)) (seq t)) s = s).
    { rewrite map_id_on.
      - destruct t. apply db_eta_profile. exact Ht.
      - intros [i r] Hin. cbn [fst]. case Z.eqb_spec; [|reflexivity].
        intros ->. by destruct (Hno 1 r). }
    rewrite Hs. split; [reflexivity|]. split; [reflexivity|].
    unfold fetch_profile. rewrite Ht. reflexivity.
Qed.

Lemma update_profile_only_id_1_witness :
  patient_profile (init_db profile_deleted_db)
    = Some (Table [(2, PatientProfile.Row "75" "Hypertension, Arthritis")] 2) /\
  update_profile "80" "Diabetes" (init_db profile_deleted_db)
    = Ok (init_db profile_deleted_db) /\
  fetch_profile (init_db profile_deleted_db) = Ok (Some ("75", "Hypertension, Arthritis")).
Proof.
  split; [reflexivity|].
  destruct (update_profile_only_id_1 "80" "Diabetes" (init_db profile_deleted_db)
              (Table [(2, PatientProfile.Row "75" "Hypertension, Arthritis")] 2))
    as (s' & Hup & _ & _ & _ & _ & _ & _ & Hframe); [reflexivity|].
  destruct Hframe as (Heq & _ & Hfetch).
  { intros i r Hin. apply list_elem_of_singleton in Hin. injection Hin as -> _. lia. }
  split; [rewrite Hup, Heq; reflexivity | exact Hfetch].
Defined.

(* ================================================================== *)
(** * Properties of the status and of the reminders *)
(* ================================================================== *)

(** Times written by the application ([strftime("%H:%M")] of a time of day)
    are read back by the status derivation. *)
Lemma strptime_strftime_HM (t : Py.time) :
  0 <= Py.hour t < 24 -> 0 <= Py.minute t < 60 ->
  Py.strptime_HM (Py.strftime_HM t) = Some (Py.Time (Py.hour t) (Py.minute t) 0 0).
Proof.
  intros Hh Hm.
  assert (Hall : forallb (fun h => forallb (fun m =>
              match Py.strptime_HM (Py.strftime_HM (Py.Time h m 0 0)) with
              | Some (Py.Time h' m' 0 0) => (h' =? h) && (m' =? m)
              | _ => false
              end) (seqZ 0 60)) (seqZ 0 24) = true) by (vm_compute; reflexivity).
  rewrite forallb_forall in Hall.
  specialize (Hall (Py.hour t)). rewrite forallb_forall in Hall.
  specialize (Hall ltac:(apply list_elem_of_In, elem_of_seqZ; lia) (Py.minute t)
                   ltac:(apply list_elem_of_In, elem_of_seqZ; lia)).
  change (Py.strftime_HM (Py.Time (Py.hour t) (Py.minute t) 0 0))
    with (Py.strftime_HM t) in Hall.
  destruct (Py.strptime_HM (Py.strftime_HM t)) as [[h' m' s' u']|]; [|done].
  destruct s'; try done. destruct u'; try done.
  apply andb_true_iff in Hall as [H1 H2].
  apply Z.eqb_eq in H1, H2. by subst.
Qed.

Lemma time_gt_micros (a b : Py.time) :
  valid_time a -> valid_time b ->
  (Py.time_gt a b = true <-> micros b < micros a).
Proof.
  intros (Ha1 & Ha2 & Ha3 & Ha4) (Hb1 & Hb2 & Hb3 & Hb4).
  unfold Py.time_gt, micros.
  repeat (rewrite orb_true_iff || rewrite andb_true_iff).
  rewrite !Z.ltb_lt, !Z.eqb_eq.
  split; [intros H; nia|intros H].
  destruct (Z.lt_trichotomy (Py.hour a) (Py.hour b)) as [?|[?|?]];
    [nia| |left; lia].
  right. split; [done|].
  destruct (Z.lt_trichotomy (Py.minute a) (Py.minute b)) as [?|[?|?]];
    [nia| |left; lia].
  right. split; [done|].
  destruct (Z.lt_trichotomy (Py.second a) (Py.second b)) as [?|[?|?]];
    [nia| |left; lia].
  right. split; [done|]. nia.
Qed.

(** C3. The status of a row depends on the row and the current time only:
    [Done] when completed, else [Overdue] when the current time is later
    than the scheduled time, else [Upcoming]; the task of 08:00 is
    [Upcoming] at 07:59, [Overdue] at 08:01 and [Done] at any time once
    completed. *)
Theorem task_status_derivation (current_time task_time : Py.time)
    (row : RoutineTask.t) :
  Py.strptime_HM (RoutineTask.scheduled_time row) = Some task_time ->
  (RoutineTask.completed row <> 0 ->
     task_status current_time row = Ok ("green", "Done")) /\
  (RoutineTask.completed row = 0 -> Py.time_gt current_time task_time = true ->
     task_status current_time row = Ok ("red", "Overdue")) /\
  (RoutineTask.completed row = 0 -> Py.time_gt current_time task_time = false ->
     task_status current_time row = Ok ("gray", "Upcoming")) /\
  (forall date task,
     task_status (Py.Time 7 59 0 0) (RoutineTask.Row date task "08:00" 0)
       = Ok ("gray", "Upcoming") /\
     task_status (Py.Time 8 1 0 0) (RoutineTask.Row date task "08:00" 0)
       = Ok ("red", "Overdue") /\
     forall now completed, completed <> 0 ->
       task_status now (RoutineTask.Row date task "08:00" completed)
         = Ok ("green", "Done")).
Proof.
  intros Hparse. unfold task_status. rewrite Hparse.
  cbn [of_option mbind result_bind]. unfold truthy.
  split; [|split; [|split]].
  - intros Hc. rewrite (proj2 (Z.eqb_neq _ _) Hc). reflexivity.
  - intros Hc Hgt. rewrite Hc, Hgt. reflexivity.
  - intros Hc Hgt. rewrite Hc, Hgt. reflexivity.
  - intros date task. split; [reflexivity|]. split; [reflexivity|].
    intros now completed Hc.
    change (Py.strptime_HM (RoutineTask.scheduled_time
              (RoutineTask.Row date task "08:00" completed)))
      with (Some (Py.Time 8 0 0 0)).
    cbn [of_option mbind result_bind RoutineTask.completed].
    rewrite (proj2 (Z.eqb_neq _ _) Hc). reflexivity.
Qed.

Lemma task_status_derivation_witness :
  task_status (Py.Time 8 0 30 0) (RoutineTask.Row "2026-11-03" "Breakfast" "08:00" 0)
    = Ok ("red", "Overdue") /\
  task_status (Py.Time 8 0 0 0) (RoutineTask.Row "2026-11-03" "Breakfast" "08:00" 0)
    = Ok ("gray", "Upcoming") /\
  task_status (Py.Time 6 0 0 0) (RoutineTask.Row "2026-11-03" "Breakfast" "08:00" 1)
    = Ok ("green", "Done").
Proof.
  split; [|split].
  - apply (task_status_derivation (Py.Time 8 0 30 0) (Py.Time 8 0 0 0)
             (RoutineTask.Row "2026-11-03" "Breakfast" "08:00" 0)); reflexivity.
  - apply (task_status_derivation (Py.Time 8 0 0 0) (Py.Time 8 0 0 0)
             (RoutineTask.Row "2026-11-03" "Breakfast" "08:00" 0)); reflexivity.
  - apply (task_status_derivation (Py.Time 6 0 0 0) (Py.Time 8 0 0 0)
             (RoutineTask.Row "2026-11-03" "Breakfast" "08:00" 1)); [reflexivity|].
    simpl. lia.
Defined.

Lemma missed_iff (current_hour : Z) (row : RoutineTask.t) :
  missed current_hour row = true <->
  RoutineTask.completed row = 0 /\
  exists h, task_hour row = Ok h /\ current_hour > h + 1.
Proof.
  unfold missed. rewrite andb_true_iff, Z.eqb_eq.
  destruct (task_hour row) as [h|e].
  - rewrite Z.ltb_lt. split.
    + intros [Hc Hh]. split; [done|]. exists h. split; [done|lia].
    + intros [Hc (h' & Hh' & Hgt)]. injection Hh' as <-. split; [done|lia].
  - split; [intros [_ ?]; done | intros [_ (h & ? & _)]; done].
Qed.

Lemma overdue_loop_spec (current_hour : Z) (todo : list (Z * RoutineTask.t)) :
  forall acc : list string,
  (forall r, r ∈ todo -> exists h, task_hour r.2 = Ok h) ->
  overdue_loop current_hour todo acc =
    Ok (acc ++ map (fun r => missed_message r.2)
                 (List.filter (fun r => match task_hour r.2 with
                                         | Ok h => h + 1 <? current_hour
                                         | Raise _ => false
                                         end) todo)).
Proof.
  induction todo as [|row todo IH]; intros acc Hall.
  - simpl. by rewrite app_nil_r.
  - destruct (Hall row) as [h Hh]; [apply list_elem_of_here|].
    cbn [overdue_loop List.filter]. rewrite Hh. cbn [mbind result_bind].
    assert (Hrest : forall r, r ∈ todo -> exists h, task_hour r.2 = Ok h).
    { intros r Hr. apply Hall. by apply list_elem_of_further. }
    rewrite Z.gtb_ltb. destruct (h + 1 <? current_hour).
    + rewrite IH by exact Hrest. cbn [map]. by rewrite <- app_assoc.
    + by rewrite IH.
Qed.

Lemma filter_filter_andb {A : Type} (p q : A -> bool) (l : list A) :
  List.filter q (List.filter p l) = List.filter (fun x => p x && q x) l.
Proof.
  induction l as [|x l IH]; [reflexivity|]. simpl.
  destruct (p x); simpl; [destruct (q x)|]; by rewrite IH.
Qed.

(** The text before the first colon decides the hour. *)
Lemma before_app_sep (sep : ascii) (a b : list ascii) :
  sep ∉ a -> Py.before sep (a ++ sep :: b) = a.
Proof.
  induction a as [|c a IH]; intros Hnot; simpl.
  - by rewrite Ascii.eqb_refl.
  - destruct (Ascii.eqb_spec c sep) as [->|Hne].
    + exfalso. apply Hnot, list_elem_of_here.
    + rewrite IH; [reflexivity|]. intros Hin. apply Hnot. by apply list_elem_of_further.
Qed.

Lemma chars_append (a b : string) : Py.chars (a +:+ b) = Py.chars a ++ Py.chars b.
Proof.
  unfold Py.chars. induction a as [|c a IH]; [reflexivity|].
  simpl. by rewrite IH.
Qed.

Lemma str_chars (a : string) : Py.str (Py.chars a) = a.
Proof. apply string_of_list_ascii_of_string. Qed.

Lemma task_hour_ignores_minutes (date task hh mm : string) (completed : Z) :
  ":"%char ∉ Py.chars hh ->
  task_hour (RoutineTask.Row date task (hh +:+ ":" +:+ mm) completed)
  = of_option (Py.int hh) (ValueError "invalid literal for int() with base 10").
Proof.
  intros Hnot. unfold task_hour, Py.split_first. cbn [RoutineTask.scheduled_time].
  rewrite !chars_append. cbn [Py.chars list_ascii_of_string app].
  rewrite before_app_sep by exact Hnot. by rewrite str_chars.
Qed.

(** C4. The dashboard emits one MISSED line, naming the task and its
    scheduled time, for exactly the incomplete rows whose scheduled hour plus
    one is below the current hour; the minutes play no part.  A task of 08:00
    gives no line at hour 9 and one line at hour 10. *)
Theorem overdue_alerts_missed (current_hour : Z) (tasks_df : list (Z * RoutineTask.t)) :
  (forall r, r ∈ tasks_df -> RoutineTask.completed r.2 = 0 ->
     exists h, task_hour r.2 = Ok h) ->
  overdue_alerts current_hour tasks_df =
    Ok (map (fun r => "⚠️ MISSED: **" +:+ RoutineTask.task r.2 +:+ "** (Scheduled: "
                        +:+ RoutineTask.scheduled_time r.2 +:+ ")")
            (List.filter (fun r => missed current_hour r.2) tasks_df)) /\
  (forall r, missed current_hour r = true <->
     RoutineTask.completed r = 0 /\
     exists h, task_hour r = Ok h /\ current_hour > h + 1) /\
  (forall date task mm, task_hour (RoutineTask.Row date task ("08:" +:+ mm) 0) = Ok 8) /\
  (forall i date task,
     overdue_alerts 9 [(i, RoutineTask.Row date task "08:00" 0)] = Ok [] /\
     overdue_alerts 10 [(i, RoutineTask.Row date task "08:00" 0)] =
       Ok ["⚠️ MISSED: **" +:+ task +:+ "** (Scheduled: 08:00)"]).
Proof.
  intros Hall. split; [|split; [|split]].
  - unfold overdue_alerts. rewrite overdue_loop_spec.
    + unfold pending. rewrite filter_filter_andb. reflexivity.
    + intros r Hr. unfold pending in Hr.
      apply list_elem_of_In, filter_In in Hr as [Hin Hc].
      apply Hall; [by apply list_elem_of_In | by apply Z.eqb_eq].
  - intros r. apply missed_iff.
  - intros date task mm.
    apply (task_hour_ignores_minutes date task "08" mm 0).
    unfold Py.chars. simpl. rewrite !not_elem_of_cons.
    repeat split; try discriminate. apply not_elem_of_nil.
  - intros i date task. split; reflexivity.
Qed.

Lemma overdue_alerts_missed_witness :
  overdue_alerts 12
    [ (1, RoutineTask.Row "2026-11-03" "Breakfast" "08:00" 1);
      (2, RoutineTask.Row "2026-11-03" "Morning Meds" "09:45" 0);
      (3, RoutineTask.Row "2026-11-03" "Physiotherapy" "11:00" 0) ]
  = Ok ["⚠️ MISSED: **Morning Meds** (Scheduled: 09:45)"].
Proof.
  refine (eq_trans (proj1 (overdue_alerts_missed 12
    [ (1, RoutineTask.Row "2026-11-03" "Breakfast" "08:00" 1);
      (2, RoutineTask.Row "2026-11-03" "Morning Meds" "09:45" 0);
      (3, RoutineTask.Row "2026-11-03" "Physiotherapy" "11:00" 0) ] _)) _).
  - intros r Hr _.
    repeat (apply elem_of_cons in Hr as [->|Hr];
            [eexists; lazy; reflexivity|]).
    by apply not_elem_of_nil in Hr.
  - vm_compute. reflexivity.
Defined.

(** ** The alarm mapping *)

Lemma zip_map_map {A B C : Type} (f : A -> B) (g : A -> C) (l : list A) :
  Py.zip (map f l) (map g l) = map (fun x => (f x, g x)) l.
Proof. unfold Py.zip. induction l as [|x l IH]; simpl; [done|]. by rewrite IH. Qed.

(** A key of [dict(pairs)] is bound to the value of its last pair. *)
Lemma dict_fold_lookup {V : Type} (pairs : list (string * V)) (k : string) :
  forall m0 : gmap string V,
  fold_left (fun m kv => <[kv.1 := kv.2]> m) pairs m0 !! k =
  match last (List.filter (fun kv => String.eqb kv.1 k) pairs) with
  | Some kv => Some kv.2
  | None => m0 !! k
  end.
Proof.
  induction pairs as [|[k' v] pairs IH] using rev_ind; intros m0; [reflexivity|].
  rewrite fold_left_app, List.filter_app. cbn [fold_left List.filter fst snd].
  destruct (String.eqb_spec k' k) as [->|Hne].
  - rewrite last_snoc. by rewrite lookup_insert_eq.
  - rewrite app_nil_r, lookup_insert_ne by done. apply IH.
Qed.

Lemma dict_lookup {V : Type} (pairs : list (string * V)) (k : string) :
  Py.dict pairs !! k =
  snd <$> last (List.filter (fun kv => String.eqb kv.1 k) pairs).
Proof.
  unfold Py.dict. rewrite dict_fold_lookup.
  destruct (last _); [reflexivity|]. apply lookup_empty.
Qed.

Lemma filter_map_comm {A B : Type} (f : A -> B) (p : B -> bool) (l : list A) :
  List.filter p (map f l) = map f (List.filter (fun x => p (f x)) l).
Proof.
  induction l as [|x l IH]; [reflexivity|]. simpl.
  destruct (p (f x)); simpl; by rewrite IH.
Qed.

Lemma last_map {A B : Type} (f : A -> B) (l : list A) :
  last (map f l) = f <$> last l.
Proof.
  induction l as [|x l IH] using rev_ind; [reflexivity|].
  rewrite map_app. cbn [map]. by rewrite !last_snoc.
Qed.

Lemma alarm_data_lookup (tasks_df : list (Z * RoutineTask.t)) (t : string) :
  alarm_data tasks_df !! t =
  (fun r => RoutineTask.task r.2) <$>
    last (List.filter (fun r => String.eqb (RoutineTask.scheduled_time r.2) t)
                      (pending tasks_df)).
Proof.
  unfold alarm_data. rewrite zip_map_map, dict_lookup, filter_map_comm, last_map.
  cbn [fst]. by destruct (last _).
Qed.

Lemma last_elem_of {A : Type} (l : list A) (x : A) : last l = Some x -> x ∈ l.
Proof.
  destruct l as [|y l] using rev_ind; [done|].
  rewrite last_snoc. intros [= ->]. apply elem_of_app. right. apply list_elem_of_here.
Qed.

Lemma filter_unique_key {A : Type} (key : A -> string) (l : list A) (x : A) :
  NoDup (map key l) -> x ∈ l ->
  List.filter (fun y => String.eqb (key y) (key x)) l = [x].
Proof.
  induction l as [|y l IH]; intros Hnd Hin; [by apply not_elem_of_nil in Hin|].
  cbn [map] in Hnd. apply NoDup_cons in Hnd as [Hy Hnd].
  assert (Hnone : forall z, key z ∉ map key l ->
            List.filter (fun y => String.eqb (key y) (key z)) l = []).
  { intros z Hz. clear -Hz. induction l as [|w l IH]; [reflexivity|]. simpl.
    cbn [map] in Hz. apply not_elem_of_cons in Hz as [Hne Hz].
    destruct (String.eqb_spec (key w) (key z)); [congruence|]. by apply IH. }
  apply elem_of_cons in Hin as [->|Hin]; simpl.
  - rewrite String.eqb_refl. by rewrite Hnone.
  - destruct (String.eqb_spec (key y) (key x)) as [Heq|Hne].
    + exfalso. apply Hy. rewrite Heq. apply list_elem_of_fmap. by exists x.
    + by apply IH.
Qed.

Lemma elem_of_pending (tasks_df : list (Z * RoutineTask.t)) (r : Z * RoutineTask.t) :
  r ∈ pending tasks_df <-> r ∈ tasks_df /\ RoutineTask.completed r.2 = 0.
Proof.
  unfold pending. rewrite !list_elem_of_In, filter_In, Z.eqb_eq. reflexivity.
Qed.

(** C9, as stated, fails: of two incomplete tasks with the same scheduled
    time only the later row is in the mapping. *)
Lemma alarm_data_same_time_counterexample :
  alarm_data same_time_df = {[ "10:00" := "Eye drops" ]} /\
  (forall t, alarm_data same_time_df !! t <> Some "Physiotherapy") /\
  ~ (forall (tasks_df : list (Z * RoutineTask.t)) (r : Z * RoutineTask.t),
       r ∈ tasks_df -> RoutineTask.completed r.2 = 0 ->
       alarm_data tasks_df !! RoutineTask.scheduled_time r.2
         = Some (RoutineTask.task r.2)).
Proof.
  assert (H : alarm_data same_time_df = {[ "10:00" := "Eye drops" ]}).
  { unfold alarm_data, same_time_df, Py.dict. cbn.
    rewrite insert_insert_eq. reflexivity. }
  split; [exact H|]. split.
  - intros t. rewrite H. destruct (decide (t = "10:00")) as [->|Hne].
    + rewrite lookup_singleton_eq. discriminate.
    + rewrite lookup_singleton_ne by done. discriminate.
  - intros Hall.
    specialize (Hall same_time_df (7, RoutineTask.Row "2026-11-03" "Physiotherapy" "10:00" 0)
                  ltac:(apply list_elem_of_here) eq_refl).
    rewrite H in Hall. cbn [snd RoutineTask.scheduled_time RoutineTask.task] in Hall.
    rewrite lookup_singleton_eq in Hall. discriminate.
Qed.

(** C9, amended.  The mapping binds a time to the name of the last incomplete
    row scheduled at that time, and binds nothing else: every entry comes
    from an incomplete row, the scheduled time of every incomplete row is a
    key, and when the incomplete rows have distinct times each of them is
    found under its time with its own name. *)
Theorem alarm_data_last_pending (tasks_df : list (Z * RoutineTask.t)) :
  (forall t,
     alarm_data tasks_df !! t =
     (fun r => RoutineTask.task r.2) <$>
       last (List.filter (fun r => String.eqb (RoutineTask.scheduled_time r.2) t)
                         (List.filter (fun r => RoutineTask.completed r.2 =? 0) tasks_df))) /\
  (forall t name, alarm_data tasks_df !! t = Some name ->
     exists r, r ∈ tasks_df /\ RoutineTask.completed r.2 = 0 /\
               RoutineTask.scheduled_time r.2 = t /\ RoutineTask.task r.2 = name) /\
  (forall r, r ∈ tasks_df -> RoutineTask.completed r.2 = 0 ->
     is_Some (alarm_data tasks_df !! RoutineTask.scheduled_time r.2)) /\
  (NoDup (map (fun r => RoutineTask.scheduled_time r.2)
              (List.filter (fun r => RoutineTask.completed r.2 =? 0) tasks_df)) ->
   forall r, r ∈ tasks_df -> RoutineTask.completed r.2 = 0 ->
     alarm_data tasks_df !! RoutineTask.scheduled_time r.2 = Some (RoutineTask.task r.2)).
Proof.
  fold (pending tasks_df).
  split; [|split; [|split]].
  - intros t. apply alarm_data_lookup.
  - intros t name. rewrite alarm_data_lookup.
    destruct (last _) as [r|] eqn:Hlast; [|done]. intros [= <-].
    apply last_elem_of, list_elem_of_In, filter_In in Hlast as [Hin Ht].
    apply list_elem_of_In, elem_of_pending in Hin as [Hin Hc].
    exists r. repeat split; try done. by apply String.eqb_eq.
  - intros r Hin Hc. rewrite alarm_data_lookup.
    assert (Hr : r ∈ List.filter
              (fun r' => String.eqb (RoutineTask.scheduled_time r'.2)
                                    (RoutineTask.scheduled_time r.2)) (pending tasks_df)).
    { apply list_elem_of_In, filter_In. split.
      - apply list_elem_of_In, elem_of_pending. done.
      - apply String.eqb_refl. }
    destruct (List.filter _ (pending tasks_df)) as [|x l] using rev_ind.
    + by apply not_elem_of_nil in Hr.
    + rewrite last_snoc. by eexists.
  - intros Hnd r Hin Hc. rewrite alarm_data_lookup.
    rewrite (filter_unique_key (fun r => RoutineTask.scheduled_time r.2) (pending tasks_df) r).
    + reflexivity.
    + exact Hnd.
    + by apply elem_of_pending.
Qed.

Lemma alarm_data_last_pending_witness :
  alarm_data
    [ (1, RoutineTask.Row "2026-11-03" "Breakfast" "08:00" 1);
      (2, RoutineTask.Row "2026-11-03" "Morning Meds" "09:00" 0);
      (3, RoutineTask.Row "2026-11-03" "Lunch" "13:00" 0) ] !! "09:00"
  = Some "Morning Meds".
Proof.
  destruct (alarm_data_last_pending
    [ (1, RoutineTask.Row "2026-11-03" "Breakfast" "08:00" 1);
      (2, RoutineTask.Row "2026-11-03" "Morning Meds" "09:00" 0);
      (3, RoutineTask.Row "2026-11-03" "Lunch" "13:00" 0) ]) as (_ & _ & _ & H).
  apply (H ltac:(cbn; apply (bool_decide_unpack _); vm_compute; exact I)
           (2, RoutineTask.Row "2026-11-03" "Morning Meds" "09:00" 0)).
  - apply list_elem_of_further, list_elem_of_here.
  - reflexivity.
Defined.

(** ** The high-severity alert *)

#[global] Instance id_desc_trans {R : Type} : Transitive (@id_desc R).
Proof. intros a b c. unfold id_desc. lia. Qed.

#[global] Instance id_desc_total {R : Type} : Total (@id_desc R).
Proof. intros a b. unfold id_desc. lia. Qed.

(** The head of [ORDER BY id DESC] has the greatest id. *)
Lemma head_of_sorted_desc {R : Type} (l : list (Z * R)) :
  match merge_sort id_desc l with
  | [] => l = []
  | x :: _ => x ∈ l /\ forall y, y ∈ l -> y.1 <= x.1
  end.
Proof.
  pose proof (merge_sort_Permutation id_desc l) as Hperm.
  pose proof (StronglySorted_merge_sort id_desc l) as Hsorted.
  destruct (merge_sort id_desc l) as [|x l'].
  - symmetry in Hperm. by apply Permutation_nil_r in Hperm.
  - split.
    + rewrite <- Hperm. apply list_elem_of_here.
    + intros y Hy. rewrite <- Hperm in Hy.
      apply StronglySorted_inv in Hsorted as [_ Hall].
      apply elem_of_cons in Hy as [->|Hy]; [lia|].
      rewrite Forall_forall in Hall. by apply (Hall y).
Qed.

(** The primary key identifies a row. *)
Lemma row_of_id {R : Type} (l : list (Z * R)) (a b : Z * R) :
  NoDup (map fst l) -> a ∈ l -> b ∈ l -> a.1 = b.1 -> a = b.
Proof.
  induction l as [|x l IH]; intros Hnd Ha Hb Heq; [by apply not_elem_of_nil in Ha|].
  cbn [map] in Hnd. apply NoDup_cons in Hnd as [Hx Hnd].
  apply elem_of_cons in Ha as [->|Ha]; apply elem_of_cons in Hb as [->|Hb].
  - reflexivity.
  - exfalso. apply Hx. rewrite Heq. apply list_elem_of_fmap. by exists b.
  - exfalso. apply Hx. rewrite <- Heq. apply list_elem_of_fmap. by exists a.
  - by apply IH.
Qed.

Lemma high_rows_elem_of (t : table LogEntry.t) (r : Z * LogEntry.t) :
  r ∈ high_rows t <-> r ∈ rows t /\ LogEntry.severity r.2 = SqlText "High".
Proof.
  unfold high_rows. rewrite !list_elem_of_In, filter_In.
  split; intros [Hin Hs]; (split; [done|]).
  - destruct (LogEntry.severity r.2); try done. simpl in Hs.
    apply String.eqb_eq in Hs. by subst.
  - by rewrite Hs.
Qed.

(** C8. The dashboard shows at most one high-severity alert: none when no
    log entry has severity High, and otherwise exactly one, with the text
    and the timestamp of the High entry that has the greatest id. *)
Theorem high_risk_alert_latest (s : db) (t : table LogEntry.t) :
  logs s = Some t ->
  NoDup (map fst (rows t)) ->
  ((forall r, r ∈ rows t -> LogEntry.severity r.2 <> SqlText "High") ->
     recent_high_risk s = Ok [] /\ high_risk_alerts s = Ok []) /\
  (forall r, r ∈ rows t -> LogEntry.severity r.2 = SqlText "High" ->
     (forall r', r' ∈ rows t -> LogEntry.severity r'.2 = SqlText "High" -> r'.1 <= r.1) ->
     recent_high_risk s = Ok [r] /\
     high_risk_alerts s =
       Ok ["🚨 ALERT: " +:+ LogEntry.original_text r.2 +:+ " ("
             +:+ LogEntry.timestamp r.2 +:+ ")"]) /\
  (forall r, r ∈ rows t -> LogEntry.severity r.2 = SqlText "High" ->
     exists latest,
       latest ∈ rows t /\ LogEntry.severity latest.2 = SqlText "High" /\
       (forall r', r' ∈ rows t -> LogEntry.severity r'.2 = SqlText "High" ->
          r'.1 <= latest.1) /\
       recent_high_risk s = Ok [latest] /\
       high_risk_alerts s = Ok [alert_message latest.2]).
Proof.
  intros Ht Hnd.
  assert (Hq : recent_high_risk s = Ok (take 1 (merge_sort id_desc (high_rows t)))).
  { unfold recent_high_risk. rewrite Ht. reflexivity. }
  assert (Ha : high_risk_alerts s =
               match take 1 (merge_sort id_desc (high_rows t)) with
               | [] => Ok []
               | row :: _ => Ok [alert_message row.2]
               end).
  { unfold high_risk_alerts. rewrite Hq. reflexivity. }
  pose proof (head_of_sorted_desc (high_rows t)) as Hhead.
  rewrite Hq, Ha. clear Hq Ha.
  destruct (merge_sort id_desc (high_rows t)) as [|x l].
  - (* no High row *)
    split; [done|]. split.
    + intros r Hin Hs. exfalso.
      assert (Hr : r ∈ high_rows t) by by apply high_rows_elem_of.
      rewrite Hhead in Hr. by apply not_elem_of_nil in Hr.
    + intros r Hin Hs. exfalso.
      assert (Hr : r ∈ high_rows t) by by apply high_rows_elem_of.
      rewrite Hhead in Hr. by apply not_elem_of_nil in Hr.
  - destruct Hhead as [Hx Hmax].
    apply high_rows_elem_of in Hx as [Hxin Hxs].
    cbn [take].
    split; [|split].
    + intros Hnone. by destruct (Hnone x Hxin).
    + intros r Hin Hs Hr.
      assert (r = x) as ->; [|done].
      apply (row_of_id (rows t)); try done.
      apply Z.le_antisymm.
      * apply Hmax. by apply high_rows_elem_of.
      * by apply Hr.
    + intros _ _ _. exists x. repeat split; try done.
      intros r' Hin' Hs'. apply Hmax. by apply high_rows_elem_of.
Qed.

Lemma high_risk_alert_latest_witness :
  high_risk_alerts (set_logs demo_logs started_db)
  = Ok ["🚨 ALERT: Chest pain after lunch (2026-11-02 09:30:00)"].
Proof.
  destruct (high_risk_alert_latest (set_logs demo_logs started_db) demo_logs eq_refl)
    as (_ & H & _).
  - cbn. apply (bool_decide_unpack _). vm_compute. exact I.
  - apply (H (2, LogEntry.Row "2026-11-02 09:30:00" "Son" "Chest pain after lunch"
                   (SqlText "Vitals") (SqlText "High"))).
    + apply list_elem_of_further, list_elem_of_here.
    + reflexivity.
    + intros r' Hin Hs. unfold demo_logs in Hin. cbn [rows] in Hin.
      repeat (apply elem_of_cons in Hin as [->|Hin];
              [first [cbn; lia | discriminate]|]).
      by apply not_elem_of_nil in Hin.
Defined.

(* ================================================================== *)
(** * Properties of the gateway *)
(* ================================================================== *)

Section GatewayProperties.

Variable create : request -> result (list (option string)).
Variable json_loads : string -> result pyval.

Lemma ask_ai_unfold (prompt : string) (json_mode : bool) :
  ask_ai create json_loads prompt json_mode =
  match create (request_of prompt json_mode) with
  | Raise e => error_object (exn_str e)
  | Ok [] => error_object "list index out of range"
  | Ok (content :: _) =>
      if json_mode then
        match content with
        | Some text =>
            match json_loads text with
            | Ok v => v
            | Raise e => error_object (exn_str e)
            end
        | None => error_object
            "the JSON object must be str, bytes or bytearray, not NoneType"
        end
      else match content with Some text => PStr text | None => PNone end
  end.
Proof.
  unfold ask_ai, request_of.
  destruct (create _) as [[|[text|] choices]|e]; cbn; try reflexivity;
    destruct json_mode; cbn; try reflexivity.
Qed.

(** C7, amended.  The gateway always returns a value: the error object
    carrying the message when the provider raises or the payload cannot be
    decoded; in structured mode, when the call succeeds, the decoded payload
    as it is, which is a mapping exactly when the payload decodes to one (the
    result is not checked to be a mapping); and the text of the response when
    the flag is unset. *)
Theorem ask_ai_never_raises (prompt : string) (json_mode : bool) :
  (forall e, create (request_of prompt json_mode) = Raise e ->
     ask_ai create json_loads prompt json_mode = PDict {[ "error" := PStr (exn_str e) ]}) /\
  (forall text rest e,
     create (request_of prompt true) = Ok (Some text :: rest) ->
     json_loads text = Raise e ->
     ask_ai create json_loads prompt true = PDict {[ "error" := PStr (exn_str e) ]}) /\
  (forall text rest v,
     create (request_of prompt true) = Ok (Some text :: rest) ->
     json_loads text = Ok v ->
     ask_ai create json_loads prompt true = v /\
     ((exists m, ask_ai create json_loads prompt true = PDict m) <->
      (exists m, v = PDict m))) /\
  (forall text rest,
     create (request_of prompt false) = Ok (Some text :: rest) ->
     ask_ai create json_loads prompt false = PStr text) /\
  (exists v, ask_ai create json_loads prompt json_mode = v /\
     ((exists msg, v = PDict {[ "error" := PStr msg ]}) \/
      (json_mode = true /\ exists text rest,
         create (request_of prompt true) = Ok (Some text :: rest) /\
         json_loads text = Ok v) \/
      (json_mode = false /\ exists content rest,
         create (request_of prompt false) = Ok (content :: rest) /\
         v = match content with Some text => PStr text | None => PNone end))).
Proof.
  split; [|split; [|split; [|split]]].
  - intros e He. by rewrite ask_ai_unfold, He.
  - intros text rest e Hc Hj. by rewrite ask_ai_unfold, Hc, Hj.
  - intros text rest v Hc Hj.
    assert (Hv : ask_ai create json_loads prompt true = v)
      by (by rewrite ask_ai_unfold, Hc, Hj).
    split; [exact Hv|]. by rewrite Hv.
  - intros text rest Hc. by rewrite ask_ai_unfold, Hc.
  - eexists. split; [reflexivity|]. rewrite ask_ai_unfold.
    destruct (create (request_of prompt json_mode)) as [[|content rest]|e] eqn:Hc.
    + left. by eexists.
    + destruct json_mode.
      * destruct content as [text|]; [|left; by eexists].
        destruct (json_loads text) as [v|e] eqn:Hj; [|left; by eexists].
        right. left. split; [done|]. by exists text, rest.
      * right. right. split; [done|]. by exists content, rest.
    + left. by eexists.
Qed.

Lemma py_get_error_object (msg key : string) (default : pyval) :
  key <> "error" -> py_get (error_object msg) key default = Ok default.
Proof.
  intros Hne. unfold py_get, error_object.
  by rewrite lookup_singleton_ne.
Qed.

(** C6. When the classification fails, that is when the gateway returns
    its error object, the log entry is still inserted, with category
    General and severity Low. *)
Theorem submit_log_degrades (now author log_text : string) (s : db)
    (t : table LogEntry.t) :
  logs s = Some t ->
  let entry := LogEntry.Row now author log_text (SqlText "General") (SqlText "Low") in
  let written := set_logs (Table (rows t ++ [(next_rowid t, entry)]) (next_rowid t)) s in
  (forall msg,
     ask_ai create json_loads (classify_prompt log_text) true
       = PDict {[ "error" := PStr msg ]} ->
     submit_log create json_loads now author log_text s = Ok written) /\
  (forall e, create (request_of (classify_prompt log_text) true) = Raise e ->
     submit_log create json_loads now author log_text s = Ok written) /\
  (forall text rest e,
     create (request_of (classify_prompt log_text) true) = Ok (Some text :: rest) ->
     json_loads text = Raise e ->
     submit_log create json_loads now author log_text s = Ok written) /\
  (forall rest,
     create (request_of (classify_prompt log_text) true) = Ok (None :: rest) ->
     submit_log create json_loads now author log_text s = Ok written) /\
  (create (request_of (classify_prompt log_text) true) = Ok [] ->
     submit_log create json_loads now author log_text s = Ok written).
Proof.
  intros Ht entry written.
  assert (Hmain : forall msg,
     ask_ai create json_loads (classify_prompt log_text) true = error_object msg ->
     submit_log create json_loads now author log_text s = Ok written).
  { intros msg Hai. unfold submit_log. rewrite Hai.
    rewrite !py_get_error_object by discriminate.
    cbn [mbind result_bind]. rewrite Ht. reflexivity. }
  split; [exact Hmain|]. split; [|split; [|split]].
  - intros e He. apply (Hmain (exn_str e)). by rewrite ask_ai_unfold, He.
  - intros text rest e Hc Hj. apply (Hmain (exn_str e)).
    by rewrite ask_ai_unfold, Hc, Hj.
  - intros rest Hc. eapply Hmain. by rewrite ask_ai_unfold, Hc.
  - intros Hc. eapply Hmain. by rewrite ask_ai_unfold, Hc.
Qed.

End GatewayProperties.

Lemma ask_ai_never_raises_witness :
  ask_ai provider_down no_json "Analyze: 'fell'." true
    = PDict {[ "error" := PStr "Connection error." ]} /\
  ask_ai (provider_says "not json") no_json "Analyze: 'fell'." true
    = PDict {[ "error" := PStr "Expecting value: line 1 column 1 (char 0)" ]} /\
  ask_ai (provider_says "{}") classified_json "Analyze: 'fell'." true
    = PDict (<["category" := PStr "Incident"]> {[ "severity" := PStr "High" ]}) /\
  ask_ai (provider_says "[]") array_json "Analyze: 'fell'." true = PList [] /\
  ask_ai (provider_says "Dear all") no_json "Summarize these logs" false
    = PStr "Dear all".
Proof.
  split; [|split; [|split; [|split]]].
  - apply (proj1 (ask_ai_never_raises provider_down no_json "Analyze: 'fell'." true)
             (ProviderError "Connection error.")).
    reflexivity.
  - destruct (ask_ai_never_raises (provider_says "not json") no_json
                "Analyze: 'fell'." true) as (_ & H & _).
    apply (H "not json" [] (ValueError "Expecting value: line 1 column 1 (char 0)"));
      reflexivity.
  - destruct (ask_ai_never_raises (provider_says "{}") classified_json
                "Analyze: 'fell'." true) as (_ & _ & H & _).
    apply (H "{}" []); reflexivity.
  - destruct (ask_ai_never_raises (provider_says "[]") array_json
                "Analyze: 'fell'." true) as (_ & _ & H & _).
    apply (H "[]" []); reflexivity.
  - destruct (ask_ai_never_raises (provider_says "Dear all") no_json
                "Summarize these logs" false) as (_ & _ & _ & H & _).
    apply (H "Dear all" []). reflexivity.
Defined.

(** C7, as stated, fails.  With the structured flag set and a successful call
    whose payload is the JSON array [[]], the gateway returns the empty list:
    neither a mapping nor the error object. *)
Lemma ask_ai_not_mapping_counterexample :
  let answer := ask_ai (provider_says "[]") array_json "Analyze: 'fell'." true in
  provider_says "[]" (request_of "Analyze: 'fell'." true) = Ok [Some "[]"] /\
  array_json "[]" = Ok (PList []) /\
  answer = PList [] /\
  (forall m, answer <> PDict m) /\
  ~ (forall create json_loads prompt text rest v,
       create (request_of prompt true) = Ok (Some text :: rest) ->
       json_loads text = Ok v ->
       exists m, ask_ai create json_loads prompt true = PDict m).
Proof.
  cbn zeta.
  assert (Hanswer : ask_ai (provider_says "[]") array_json "Analyze: 'fell'." true
                    = PList []) by reflexivity.
  split; [reflexivity|]. split; [reflexivity|]. split; [exact Hanswer|].
  split.
  - intros m Hm. rewrite Hanswer in Hm. discriminate Hm.
  - intros Hall.
    destruct (Hall (provider_says "[]") array_json "Analyze: 'fell'." "[]" []
                (PList []) eq_refl eq_refl) as [m Hm].
    rewrite Hanswer in Hm. discriminate Hm.
Qed.

Lemma submit_log_degrades_witness :
  submit_log provider_down no_json "2026-11-03 10:00:00" "Nurse" "Mom fell" started_db
  = Ok (set_logs (Table [(1, LogEntry.Row "2026-11-03 10:00:00" "Nurse" "Mom fell"
                             (SqlText "General") (SqlText "Low"))] 1) started_db).
Proof.
  apply (proj1 (proj2 (submit_log_degrades provider_down no_json
                         "2026-11-03 10:00:00" "Nurse" "Mom fell" started_db
                         empty_table eq_refl)) (ProviderError "Connection error.")).
  reflexivity.
Defined.

(* ================================================================== *)
(** * Calendar arithmetic *)
(* ================================================================== *)

Lemma check_date_fields_calendar (y m d : Z) :
  Py.check_date_fields y m d = true -> calendar_date (Py.Date y m d).
Proof.
  unfold Py.check_date_fields, calendar_date, Py.MINYEAR. cbn [Py.year Py.month Py.day].
  rewrite !andb_true_iff, !Z.leb_le. lia.
Qed.

Lemma month_cases (m : Z) :
  1 <= m <= 12 ->
  m = 1 \/ m = 2 \/ m = 3 \/ m = 4 \/ m = 5 \/ m = 6 \/
  m = 7 \/ m = 8 \/ m = 9 \/ m = 10 \/ m = 11 \/ m = 12.
Proof. lia. Qed.

Ltac each_month H :=
  apply month_cases in H;
  destruct H as [->|[->|[->|[->|[->|[->|[->|[->|[->|[->|[->| ->]]]]]]]]]]].

(** Evaluates the successor of a month number. *)
Ltac next_month :=
  repeat match goal with
         | |- context [Z.pos ?a + 1] =>
             let v := eval vm_compute in (Z.pos a + 1) in
             change (Z.pos a + 1) with v
         end.

Lemma days_before_year_succ (y : Z) :
  Py.days_before_year (y + 1) = Py.days_before_year y + days_in_year y.
Proof.
  unfold Py.days_before_year, days_in_year, Py.is_leap.
  replace (y + 1 - 1) with y by lia.
  destruct (Z.eqb_spec (y mod 4) 0); destruct (Z.eqb_spec (y mod 100) 0);
    destruct (Z.eqb_spec (y mod 400) 0); cbn [negb andb orb];
    Z.div_mod_to_equations; lia.
Qed.

Lemma days_in_year_pos (y : Z) : 365 <= days_in_year y <= 366.
Proof. unfold days_in_year. destruct (Py.is_leap y); lia. Qed.

Lemma days_before_year_mono (y1 y2 : Z) :
  y1 < y2 -> Py.days_before_year y1 + days_in_year y1 <= Py.days_before_year y2.
Proof.
  intros Hlt. replace y2 with (y1 + 1 + Z.of_nat (Z.to_nat (y2 - y1 - 1))) by lia.
  generalize (Z.to_nat (y2 - y1 - 1)) as n. intros n.
  induction n as [|n IH].
  - rewrite Z.add_0_r, days_before_year_succ. lia.
  - replace (y1 + 1 + Z.of_nat (S n)) with (y1 + 1 + Z.of_nat n + 1) by lia.
    rewrite days_before_year_succ.
    pose proof (days_in_year_pos (y1 + 1 + Z.of_nat n)). lia.
Qed.

(** The day of the year lies within the year. *)
Lemma day_of_year_bounds (x : Py.date) :
  calendar_date x ->
  1 <= Py.days_before_month (Py.year x) (Py.month x) + Py.day x
    <= days_in_year (Py.year x).
Proof.
  destruct x as [y m d]. unfold calendar_date. cbn [Py.year Py.month Py.day].
  intros (_ & Hm & Hd). revert Hd.
  unfold Py.days_before_month, Py.days_in_month, days_in_year.
  each_month Hm; destruct (Py.is_leap y); cbn; lia.
Qed.

Lemma day_of_year_inj (y m1 d1 m2 d2 : Z) :
  calendar_date (Py.Date y m1 d1) -> calendar_date (Py.Date y m2 d2) ->
  Py.days_before_month y m1 + d1 = Py.days_before_month y m2 + d2 ->
  m1 = m2 /\ d1 = d2.
Proof.
  unfold calendar_date. cbn [Py.year Py.month Py.day].
  intros (_ & Hm1 & Hd1) (_ & Hm2 & Hd2). revert Hd1 Hd2.
  unfold Py.days_before_month, Py.days_in_month.
  each_month Hm1; each_month Hm2; destruct (Py.is_leap y); cbn; lia.
Qed.

(** Different dates have different ordinals. *)
Lemma toordinal_inj (a b : Py.date) :
  calendar_date a -> calendar_date b ->
  Py.toordinal a = Py.toordinal b -> a = b.
Proof.
  intros Ha Hb Heq.
  pose proof (day_of_year_bounds a Ha) as Ba.
  pose proof (day_of_year_bounds b Hb) as Bb.
  destruct a as [y1 m1 d1], b as [y2 m2 d2].
  unfold Py.toordinal, Py.ymd2ord in Heq. cbn [Py.year Py.month Py.day] in *.
  assert (y1 = y2) as ->.
  { destruct (Z.lt_trichotomy y1 y2) as [Hlt|[?|Hlt]]; [|done|].
    - pose proof (days_before_year_mono y1 y2 Hlt). lia.
    - pose proof (days_before_year_mono y2 y1 Hlt). lia. }
  destruct (day_of_year_inj y2 m1 d1 m2 d2 Ha Hb) as [-> ->]; [lia|reflexivity].
Qed.

Lemma tomorrow_calendar (x : Py.date) :
  calendar_date x -> calendar_date (Py.tomorrow x).
Proof.
  destruct x as [y m d]. unfold calendar_date, Py.tomorrow.
  cbn [Py.year Py.month Py.day]. intros (Hy & Hm & Hd).
  destruct (Z.ltb_spec d (Py.days_in_month y m)) as [Hlt|Hge];
    cbn [Py.year Py.month Py.day].
  - lia.
  - destruct (Z.ltb_spec m 12) as [Hm12|Hm12]; cbn [Py.year Py.month Py.day].
    + split; [lia|]. split; [lia|]. clear Hd Hge.
      unfold Py.days_in_month.
      each_month Hm; destruct (Py.is_leap y); next_month; cbn; lia.
    + cbn. lia.
Qed.

(** The ordinal of the next day is the next ordinal. *)
Lemma toordinal_tomorrow (x : Py.date) :
  calendar_date x -> Py.toordinal (Py.tomorrow x) = Py.toordinal x + 1.
Proof.
  destruct x as [y m d]. unfold calendar_date, Py.tomorrow, Py.toordinal, Py.ymd2ord.
  cbn [Py.year Py.month Py.day]. intros (Hy & Hm & Hd).
  destruct (Z.ltb_spec d (Py.days_in_month y m)) as [Hlt|Hge];
    cbn [Py.year Py.month Py.day].
  - lia.
  - assert (d = Py.days_in_month y m) as -> by lia. clear Hd Hge.
    destruct (Z.ltb_spec m 12) as [Hm12|Hm12]; cbn [Py.year Py.month Py.day].
    + unfold Py.days_before_month, Py.days_in_month.
      each_month Hm; destruct (Py.is_leap y); next_month; cbn; lia.
    + assert (m = 12) as -> by lia.
      rewrite days_before_year_succ.
      unfold Py.days_before_month, Py.days_in_month, days_in_year.
      destruct (Py.is_leap y); destruct (Py.is_leap (y + 1)); cbn; lia.
Qed.

(** ** Appointment reminders *)

Lemma strptime_Ymd_calendar (s : string) (x : Py.date) :
  Py.strptime_Ymd s = Some x -> calendar_date x.
Proof.
  unfold Py.strptime_Ymd.
  destruct (Py.strptime_groups _ s) as [[|y [|m [|d [|? ?]]]]|]; try done.
  destruct (Py.int y) as [y'|]; [|done].
  destruct (Py.int m) as [m'|]; [|done].
  destruct (Py.int d) as [d'|]; [|done].
  destruct (Py.check_date_fields y' m' d') eqn:Hc; [|done].
  intros [= <-]. by apply check_date_fields_calendar.
Qed.

Lemma sub_days_zero (a b : Py.date) :
  calendar_date a -> calendar_date b ->
  (Py.sub_days a b =? 0) = bool_decide (a = b).
Proof.
  intros Ha Hb. unfold Py.sub_days.
  destruct (Z.eqb_spec (Py.toordinal a - Py.toordinal b) 0) as [Heq|Hne];
    symmetry.
  - apply bool_decide_eq_true. apply toordinal_inj; [done|done|lia].
  - apply bool_decide_eq_false. intros ->. lia.
Qed.

Lemma sub_days_one (a b : Py.date) :
  calendar_date a -> calendar_date b ->
  (Py.sub_days a b =? 1) = bool_decide (a = Py.tomorrow b).
Proof.
  intros Ha Hb. unfold Py.sub_days.
  pose proof (toordinal_tomorrow b Hb) as Ht.
  destruct (Z.eqb_spec (Py.toordinal a - Py.toordinal b) 1) as [Heq|Hne];
    symmetry.
  - apply bool_decide_eq_true.
    apply toordinal_inj; [done|by apply tomorrow_calendar|lia].
  - apply bool_decide_eq_false. intros ->. lia.
Qed.

(** One turn of the loop adds the alert of its row, whatever came before. *)
Lemma reminder_step (today : Py.date) (row : Appointment.t) (warnings : list string) :
  calendar_date today ->
  try_except (reminder_body today row warnings) (fun _ => warnings)
  = warnings ++ appointment_alert today row.
Proof.
  intros Htoday. unfold reminder_body, appointment_alert.
  destruct (Py.strptime_Ymd (Appointment.date row)) as [appt_date|] eqn:Hp;
    cbn [of_option mbind result_bind try_except]; [|by rewrite app_nil_r].
  pose proof (strptime_Ymd_calendar _ _ Hp) as Hd.
  rewrite sub_days_zero, sub_days_one by done.
  destruct (decide (appt_date = today)) as [He|Hne].
  { rewrite (bool_decide_eq_true_2 _ He). reflexivity. }
  rewrite (bool_decide_eq_false_2 _ Hne).
  destruct (decide (appt_date = Py.tomorrow today)) as [He|Hne'].
  { rewrite (bool_decide_eq_true_2 _ He). reflexivity. }
  rewrite (bool_decide_eq_false_2 _ Hne'). cbn. by rewrite app_nil_r.
Qed.

Lemma reminder_loop (today : Py.date) (appt_df : list (Z * Appointment.t)) :
  calendar_date today ->
  forall warnings,
  fold_left (fun warnings row =>
               try_except (reminder_body today row.2 warnings) (fun _ => warnings))
            appt_df warnings
  = warnings ++ flat_map (fun row => appointment_alert today row.2) appt_df.
Proof.
  intros Htoday. induction appt_df as [|row appt_df IH]; intros warnings.
  - cbn. by rewrite app_nil_r.
  - cbn [fold_left flat_map]. rewrite reminder_step by done.
    rewrite IH. by rewrite <- app_assoc.
Qed.



(* ================================================================== *)
(** * Further properties: initialisation and start of a session *)
(* ================================================================== *)

Lemma init_db_tables (s : db) :
  init_db s =
  DB (Some (create_table_if_not_exists (logs s)))
     (Some (create_table_if_not_exists (medications s)))
     (Some (create_table_if_not_exists (appointments s)))
     (Some (create_table_if_not_exists (routines s)))
     (Some (let p := create_table_if_not_exists (patient_profile s) in
            match rows p with
            | [] => insert_row default_profile p
            | _ :: _ => p
            end)).
Proof.
  unfold init_db, count_where.
  cbn [fold_left try_except alter_table_add_column
       logs medications appointments routines patient_profile].
  destruct (rows (create_table_if_not_exists (patient_profile s))) eqn:E;
    cbn [List.filter List.length]; [reflexivity|].
  case Z.eqb_spec; [lia|reflexivity].
Qed.

(** X1. Initialising an initialised store changes nothing. *)
Theorem init_db_idempotent (s : db) : init_db (init_db s) = init_db s.
Proof.
  rewrite (init_db_tables (init_db s)). rewrite (init_db_tables s).
  cbn [logs medications appointments routines patient_profile
       create_table_if_not_exists].
  do 4 f_equal.
  destruct (rows (create_table_if_not_exists (patient_profile s))) eqn:E.
  - rewrite rows_insert_row, E. reflexivity.
  - rewrite E. reflexivity.
Qed.

Lemma check_and_create_daily_tasks_eq (today : Py.date) (s : db)
    (t : table RoutineTask.t) :
  routines s = Some t ->
  check_and_create_daily_tasks today s =
    Ok (match List.filter
                (fun r => String.eqb (RoutineTask.date r.2) (Py.strftime_Ymd today))
                (rows t) with
        | [] => set_routines
                  (fold_left
                     (fun t '(task, t_time) =>
                        insert_row (RoutineTask.Row (Py.strftime_Ymd today) task t_time 0) t)
                     defaults t) s
        | _ :: _ => s
        end).
Proof.
  intros Ht. unfold check_and_create_daily_tasks, count_where. rewrite Ht.
  cbn [of_option mbind result_bind].
  destruct (List.filter _ (rows t)) as [|x l]; [reflexivity|].
  cbn [List.length]. case Z.eqb_spec; [lia|reflexivity].
Qed.

(** X3. A session always starts: on any store, and whatever the two dates
    read by the seed and by the fetch, the start succeeds, the tasks handed
    to the pages are the rows of the fetch date and the alarm mapping is
    built from them.  When the two dates are the same there is at least one
    task; when they differ and the store had no row of the fetch date, the
    pages get no task.  Without [init_db] the seed fails on a store that has
    no routines table. *)
Theorem startup_succeeds (seed_day today : Py.date) (s : db) :
  (exists s' tasks_df,
     startup seed_day today s = Ok (s', tasks_df, alarm_data tasks_df) /\
     map snd tasks_df = todays_tasks today s' /\
     (forall r, r ∈ tasks_df ->
        r ∈ rows_of (routines s') /\ RoutineTask.date r.2 = Py.strftime_Ymd today) /\
     check_and_create_daily_tasks seed_day s' = Ok s' /\
     (seed_day = today -> tasks_df <> []) /\
     (Py.strftime_Ymd seed_day <> Py.strftime_Ymd today ->
      todays_tasks today s = [] -> tasks_df = [])) /\
  (routines s = None ->
     check_and_create_daily_tasks seed_day s
       = Raise (OperationalError "no such table: routines")).
Proof.
  split; [|intros Hn; unfold check_and_create_daily_tasks; by rewrite Hn].
  unfold startup.
  set (t := create_table_if_not_exists (routines s)).
  assert (Ht : routines (init_db s) = Some t) by (by rewrite init_db_tables).
  assert (Hrows : rows_of (routines s) = rows t).
  { unfold t, rows_of, create_table_if_not_exists. by destruct (routines s). }
  rewrite (check_and_create_daily_tasks_eq seed_day (init_db s) t Ht).
  cbn [mbind result_bind].
  set (q := fun r : Z * RoutineTask.t =>
              String.eqb (RoutineTask.date r.2) (Py.strftime_Ymd seed_day)).
  set (p := fun r : Z * RoutineTask.t =>
              String.eqb (RoutineTask.date r.2) (Py.strftime_Ymd today)).
  assert (Hgoal : forall s1 t1, routines s1 = Some t1 ->
    List.filter q (rows t1) <> [] ->
    (Py.strftime_Ymd seed_day <> Py.strftime_Ymd today ->
     todays_tasks today s = [] -> List.filter p (rows t1) = []) ->
    exists s' tasks_df,
      (tasks_df ← fetch_tasks today s1; Ok (s1, tasks_df, alarm_data tasks_df))
        = Ok (s', tasks_df, alarm_data tasks_df) /\
      map snd tasks_df = todays_tasks today s' /\
      (forall r, r ∈ tasks_df ->
         r ∈ rows_of (routines s') /\ RoutineTask.date r.2 = Py.strftime_Ymd today) /\
      check_and_create_daily_tasks seed_day s' = Ok s' /\
      (seed_day = today -> tasks_df <> []) /\
      (Py.strftime_Ymd seed_day <> Py.strftime_Ymd today ->
       todays_tasks today s = [] -> tasks_df = [])).
  { intros s1 t1 Ht1 Hne Hmid. exists s1, (List.filter p (rows t1)).
    unfold fetch_tasks. unfold todays_tasks at 1. rewrite Ht1.
    cbn [of_option mbind result_bind rows_of].
    split; [reflexivity|]. split; [reflexivity|]. split; [|split; [|split]].
    - intros r Hr. apply list_elem_of_In, filter_In in Hr as [Hin Hp].
      split; [by apply list_elem_of_In|]. by apply String.eqb_eq.
    - rewrite (check_and_create_daily_tasks_eq seed_day s1 t1 Ht1).
      fold q. by destruct (List.filter q (rows t1)).
    - intros <-. exact Hne.
    - exact Hmid. }
  assert (Hold : todays_tasks today s = [] -> List.filter p (rows t) = []).
  { unfold todays_tasks. rewrite Hrows. fold p. intros Hnil.
    by apply map_eq_nil in Hnil. }
  fold q. destruct (List.filter q (rows t)) as [|x l] eqn:Hf.
  - destruct (seed_rows (Py.strftime_Ymd seed_day) t)
      as (i1 & i2 & i3 & i4 & i5 & i6 & Hseed).
    eapply Hgoal; [reflexivity| |].
    + rewrite Hseed, List.filter_app. unfold q at 2.
      cbn [List.filter snd RoutineTask.date]. rewrite String.eqb_refl.
      intros Hnil. by apply app_eq_nil in Hnil as [_ ?].
    + intros Hdiff Hnone. rewrite Hseed, List.filter_app, (Hold Hnone).
      unfold p. cbn [List.filter snd RoutineTask.date].
      apply String.eqb_neq in Hdiff. by rewrite Hdiff.
  - eapply Hgoal; [exact Ht| |].
    + by rewrite Hf.
    + intros _ Hnone. exact (Hold Hnone).
Qed.

Lemma startup_succeeds_witness :
  (exists tasks_df,
     startup demo_day demo_day new_db = Ok (seeded_db, tasks_df, alarm_data tasks_df) /\
     tasks_df <> []) /\
  startup demo_day (Py.tomorrow demo_day) new_db = Ok (seeded_db, [], alarm_data []).
Proof.
  split.
  - destruct (startup_succeeds demo_day demo_day new_db)
      as [(s' & tasks_df & Hstart & _ & _ & _ & Hsome & _) _].
    exists tasks_df. split; [|exact (Hsome eq_refl)].
    rewrite Hstart. f_equal. f_equal. f_equal.
    assert (Hs : startup demo_day demo_day new_db
                 = Ok (seeded_db, rows_of (routines seeded_db),
                       alarm_data (rows_of (routines seeded_db))))
      by (vm_compute; reflexivity).
    rewrite Hstart in Hs. by injection Hs.
  - destruct (startup_succeeds demo_day (Py.tomorrow demo_day) new_db)
      as [(s' & tasks_df & Hstart & _ & _ & _ & _ & Hnone) _].
    assert (Hnil : tasks_df = []).
    { apply Hnone; [|reflexivity]. vm_compute. discriminate. }
    rewrite Hstart, Hnil. f_equal. f_equal. f_equal.
    assert (Hs : exists l a, startup demo_day (Py.tomorrow demo_day) new_db
                 = Ok (seeded_db, l, a))
      by (do 2 eexists; vm_compute; reflexivity).
    destruct Hs as (l & a & Hs). rewrite Hstart in Hs. by injection Hs.
Defined.

(* ================================================================== *)
(** * Further properties: ids and rows of a table *)
(* ================================================================== *)

Lemma le_max_rowid {R : Type} (l : list (Z * R)) (r : Z * R) :
  r ∈ l -> r.1 <= max_rowid l.
Proof.
  unfold max_rowid. induction l as [|x l IH]; intros Hin.
  - by apply elem_of_nil in Hin.
  - cbn [map fold_right]. apply elem_of_cons in Hin as [->|Hin]; [lia|].
    specialize (IH Hin). lia.
Qed.

(** The next id is above every id of the table and above the sequence. *)
Lemma next_rowid_fresh {R : Type} (t : table R) :
  seq t < next_rowid t /\ forall r, r ∈ rows t -> r.1 < next_rowid t.
Proof.
  unfold next_rowid. split; [lia|]. intros r Hr.
  pose proof (le_max_rowid _ _ Hr). lia.
Qed.

Lemma filter_all {A : Type} (p : A -> bool) (l : list A) :
  (forall x, x ∈ l -> p x = true) -> List.filter p l = l.
Proof.
  induction l as [|x l IH]; intros H; [reflexivity|]. simpl.
  rewrite (H x) by apply list_elem_of_here.
  rewrite IH; [reflexivity|]. intros y Hy. apply H. by apply list_elem_of_further.
Qed.

(** Deleting the row that was just inserted gives the old rows back. *)
Lemma delete_inserted_row {R : Type} (r : R) (t : table R) :
  rows (delete_row (next_rowid t) (insert_row r t)) = rows t.
Proof.
  unfold delete_row. cbn [rows insert_row]. rewrite List.filter_app.
  cbn [List.filter fst]. rewrite Z.eqb_refl. cbn [negb]. rewrite app_nil_r.
  apply filter_all. intros x Hx.
  destruct (next_rowid_fresh t) as [_ Hfresh]. specialize (Hfresh x Hx).
  case Z.eqb_spec; [lia|reflexivity].
Qed.

Lemma keyed_empty {R : Type} : keyed (@empty_table R).
Proof. split; [constructor|]. intros r Hr. by apply elem_of_nil in Hr. Qed.

Lemma keyed_insert_row {R : Type} (r : R) (t : table R) :
  keyed t -> keyed (insert_row r t).
Proof.
  intros [Hnd Hseq]. destruct (next_rowid_fresh t) as [Hs Hfresh].
  split; cbn [rows seq insert_row].
  - rewrite map_app. cbn [map fst]. apply NoDup_app. split; [done|]. split.
    + intros i Hi Hi'. apply list_elem_of_singleton in Hi'. subst i.
      apply list_elem_of_fmap in Hi as (x & Hx & Hin).
      specialize (Hfresh x Hin). lia.
    + apply NoDup_singleton.
  - intros x Hx. apply elem_of_app in Hx as [Hx|Hx].
    + specialize (Hfresh x Hx). lia.
    + apply list_elem_of_singleton in Hx. subst x. cbn. lia.
Qed.

Lemma map_fst_update_row {R : Type} (id : Z) (f : R -> R) (t : table R) :
  map fst (rows (update_row id f t)) = map fst (rows t).
Proof.
  unfold update_row. cbn [rows]. induction (rows t) as [|x l IH]; [reflexivity|].
  cbn [map]. rewrite IH. by destruct (x.1 =? id).
Qed.

Lemma keyed_update_row {R : Type} (id : Z) (f : R -> R) (t : table R) :
  keyed t -> keyed (update_row id f t).
Proof.
  intros [Hnd Hseq]. split.
  - by rewrite map_fst_update_row.
  - intros x Hx. assert (Hi : x.1 ∈ map fst (rows (update_row id f t))).
    { apply list_elem_of_fmap. by exists x. }
    rewrite map_fst_update_row in Hi.
    apply list_elem_of_fmap in Hi as (y & Hy & Hin). rewrite Hy.
    by apply Hseq.
Qed.

Lemma keyed_delete_row {R : Type} (id : Z) (t : table R) :
  keyed t -> keyed (delete_row id t).
Proof.
  intros [Hnd Hseq]. split; cbn [rows seq delete_row].
  - clear Hseq. induction (rows t) as [|x l IH]; [constructor|].
    cbn [map] in Hnd. apply NoDup_cons in Hnd as [Hx Hnd].
    cbn [List.filter]. destruct (negb (x.1 =? id)); [|by apply IH].
    cbn [map]. apply NoDup_cons. split; [|by apply IH].
    intros Hin. apply Hx. apply list_elem_of_fmap in Hin as (y & Hy & Hin).
    apply list_elem_of_In, filter_In in Hin as [Hin _].
    apply list_elem_of_fmap. exists y. split; [done|]. by apply list_elem_of_In.
  - intros x Hx. apply list_elem_of_In, filter_In in Hx as [Hx _].
    apply Hseq. by apply list_elem_of_In.
Qed.

(* ================================================================== *)
(** * Further properties: the routine of the day *)
(* ================================================================== *)

Lemma int_pad2 (n : Z) : 0 <= n < 100 -> Py.int (Py.pad2 n) = Some n.
Proof.
  intros Hn.
  assert (Hall : forallb (fun k => match Py.int (Py.pad2 k) with
                                   | Some v => v =? k
                                   | None => false
                                   end) (seqZ 0 100) = true)
    by (vm_compute; reflexivity).
  rewrite forallb_forall in Hall.
  specialize (Hall n ltac:(apply list_elem_of_In, elem_of_seqZ; lia)).
  destruct (Py.int (Py.pad2 n)) as [v|]; [|done].
  apply Z.eqb_eq in Hall. by subst.
Qed.

Lemma pad2_no_colon (n : Z) : 0 <= n < 100 -> ":"%char ∉ Py.chars (Py.pad2 n).
Proof.
  intros Hn.
  assert (Hall : forallb (fun k => forallb (fun c => negb (Ascii.eqb c ":"))
                                     (Py.chars (Py.pad2 k))) (seqZ 0 100) = true)
    by (vm_compute; reflexivity).
  rewrite forallb_forall in Hall.
  specialize (Hall n ltac:(apply list_elem_of_In, elem_of_seqZ; lia)).
  rewrite forallb_forall in Hall. intros Hin.
  apply list_elem_of_In in Hin. specialize (Hall _ Hin).
  by rewrite Ascii.eqb_refl in Hall.
Qed.

(** The hour read by the dashboard from a time written by the
    application. *)
Lemma task_hour_strftime (date task : string) (t : Py.time) (completed : Z) :
  0 <= Py.hour t < 24 ->
  task_hour (RoutineTask.Row date task (Py.strftime_HM t) completed) = Ok (Py.hour t).
Proof.
  intros Hh. unfold Py.strftime_HM.
  rewrite task_hour_ignores_minutes by (apply pad2_no_colon; lia).
  rewrite int_pad2 by lia. reflexivity.
Qed.

(** X4. What the dashboard calls MISSED the routine page calls Overdue: for
    a task whose time was written by the application, a MISSED line at some
    hour means status Overdue at every instant of that hour; a completed
    task is neither. *)
Theorem missed_is_overdue (now t : Py.time) (row : RoutineTask.t) :
  valid_time now -> 0 <= Py.hour t < 24 -> 0 <= Py.minute t < 60 ->
  RoutineTask.scheduled_time row = Py.strftime_HM t ->
  (missed (Py.hour now) row = true -> task_status now row = Ok ("red", "Overdue")) /\
  (task_status now row = Ok ("gray", "Upcoming") -> missed (Py.hour now) row = false) /\
  (RoutineTask.completed row <> 0 ->
     missed (Py.hour now) row = false /\ task_status now row = Ok ("green", "Done")) /\
  (missed (Py.hour now) row = true <->
     RoutineTask.completed row = 0 /\ Py.hour t + 2 <= Py.hour now).
Proof.
  intros Hnow Hh Hm Hst.
  assert (Hhour : task_hour row = Ok (Py.hour t)).
  { destruct row as [d n st c]. cbn in Hst. subst st. by apply task_hour_strftime. }
  assert (Hparse : Py.strptime_HM (RoutineTask.scheduled_time row)
                   = Some (Py.Time (Py.hour t) (Py.minute t) 0 0)).
  { rewrite Hst. by apply strptime_strftime_HM. }
  assert (Hiff : missed (Py.hour now) row = true <->
                 RoutineTask.completed row = 0 /\ Py.hour t + 2 <= Py.hour now).
  { unfold missed. rewrite Hhour, andb_true_iff, Z.eqb_eq, Z.ltb_lt. lia. }
  assert (Hover : missed (Py.hour now) row = true ->
                  task_status now row = Ok ("red", "Overdue")).
  { intros Hmiss. apply Hiff in Hmiss as [Hc Hlate].
    unfold task_status, truthy. rewrite Hparse, Hc.
    cbn [of_option mbind result_bind Z.eqb negb].
    unfold Py.time_gt. cbn [Py.hour].
    rewrite (proj2 (Z.ltb_lt (Py.hour t) (Py.hour now))) by lia. reflexivity. }
  split; [exact Hover|]. split; [|split; [|exact Hiff]].
  - intros Hup. destruct (missed (Py.hour now) row) eqn:Hmiss; [|reflexivity].
    rewrite (Hover eq_refl) in Hup. discriminate.
  - intros Hc. split.
    + unfold missed. by rewrite (proj2 (Z.eqb_neq _ _) Hc).
    + unfold task_status, truthy. rewrite Hparse.
      cbn [of_option mbind result_bind]. by rewrite (proj2 (Z.eqb_neq _ _) Hc).
Qed.

Lemma missed_is_overdue_witness :
  task_status (Py.Time 11 5 0 0) (RoutineTask.Row "2026-11-03" "Morning Meds" "09:00" 0)
  = Ok ("red", "Overdue").
Proof.
  apply (proj1 (missed_is_overdue (Py.Time 11 5 0 0) (Py.Time 9 0 0 0)
                  (RoutineTask.Row "2026-11-03" "Morning Meds" "09:00" 0)
                  ltac:(unfold valid_time; cbn; lia) ltac:(cbn; lia) ltac:(cbn; lia)
                  eq_refl)).
  vm_compute. reflexivity.
Defined.

(** X5. The status at the precision of the clock: for a task that is not
    completed and whose time was written by the application, the status is
    Overdue exactly when the current instant is after the scheduled minute
    began, even by a microsecond, and Upcoming otherwise. *)
Theorem task_status_by_instant (now t : Py.time) (row : RoutineTask.t) :
  valid_time now -> 0 <= Py.hour t < 24 -> 0 <= Py.minute t < 60 ->
  RoutineTask.scheduled_time row = Py.strftime_HM t ->
  RoutineTask.completed row = 0 ->
  (micros (Py.Time (Py.hour t) (Py.minute t) 0 0) < micros now ->
     task_status now row = Ok ("red", "Overdue")) /\
  (micros now <= micros (Py.Time (Py.hour t) (Py.minute t) 0 0) ->
     task_status now row = Ok ("gray", "Upcoming")).
Proof.
  intros Hnow Hh Hm Hst Hc.
  assert (Hparse : Py.strptime_HM (RoutineTask.scheduled_time row)
                   = Some (Py.Time (Py.hour t) (Py.minute t) 0 0)).
  { rewrite Hst. by apply strptime_strftime_HM. }
  assert (Hv : valid_time (Py.Time (Py.hour t) (Py.minute t) 0 0)).
  { unfold valid_time. cbn. lia. }
  pose proof (time_gt_micros now _ Hnow Hv) as Hgt.
  unfold task_status, truthy. rewrite Hparse, Hc.
  cbn [of_option mbind result_bind Z.eqb negb].
  split; intros Hlt.
  - by rewrite (proj2 Hgt Hlt).
  - assert (Hf : Py.time_gt now (Py.Time (Py.hour t) (Py.minute t) 0 0) = false).
    { apply not_true_iff_false. intros E. apply Hgt in E. lia. }
    by rewrite Hf.
Qed.

Lemma task_status_by_instant_witness :
  task_status (Py.Time 8 0 0 1) (RoutineTask.Row "2026-11-03" "Breakfast" "08:00" 0)
    = Ok ("red", "Overdue") /\
  task_status (Py.Time 8 0 0 0) (RoutineTask.Row "2026-11-03" "Breakfast" "08:00" 0)
    = Ok ("gray", "Upcoming").
Proof.
  split.
  - apply (proj1 (task_status_by_instant (Py.Time 8 0 0 1) (Py.Time 8 0 0 0)
                    (RoutineTask.Row "2026-11-03" "Breakfast" "08:00" 0)
                    ltac:(unfold valid_time; cbn; lia) ltac:(cbn; lia) ltac:(cbn; lia)
                    eq_refl eq_refl)).
    vm_compute. reflexivity.
  - apply (proj2 (task_status_by_instant (Py.Time 8 0 0 0) (Py.Time 8 0 0 0)
                    (RoutineTask.Row "2026-11-03" "Breakfast" "08:00" 0)
                    ltac:(unfold valid_time; cbn; lia) ltac:(cbn; lia) ltac:(cbn; lia)
                    eq_refl eq_refl)).
    vm_compute. discriminate.
Defined.

(** X6. Add Task: an empty name changes nothing; otherwise one incomplete
    row for today is appended under a fresh id, it is the last of today's
    tasks, and the alarm mapping built from today's tasks binds its
    scheduled time to its name. *)
Theorem add_task_appends (today : Py.date) (new_task_name : string)
    (new_task_time : Py.time) (s : db) (t : table RoutineTask.t)
    (tasks_df : list (Z * RoutineTask.t)) :
  routines s = Some t ->
  fetch_tasks today s = Ok tasks_df ->
  add_task today "" new_task_time s = Ok s /\
  (new_task_name <> "" ->
     let row := RoutineTask.Row (Py.strftime_Ymd today) new_task_name
                                (Py.strftime_HM new_task_time) 0 in
     exists s',
       add_task today new_task_name new_task_time s = Ok s' /\
       rows_of (routines s') = rows t ++ [(next_rowid t, row)] /\
       (forall r, r ∈ rows t -> r.1 < next_rowid t) /\
       fetch_tasks today s' = Ok (tasks_df ++ [(next_rowid t, row)]) /\
       alarm_data (tasks_df ++ [(next_rowid t, row)]) !! Py.strftime_HM new_task_time
         = Some new_task_name /\
       logs s' = logs s /\ medications s' = medications s /\
       appointments s' = appointments s /\ patient_profile s' = patient_profile s).
Proof.
  intros Ht Hfetch. split; [reflexivity|]. intros Hname row.
  exists (set_routines (insert_row row t) s).
  split.
  { unfold add_task. destruct new_task_name; [done|].
    rewrite Ht. reflexivity. }
  split; [reflexivity|].
  split; [apply next_rowid_fresh|].
  split.
  { unfold fetch_tasks in *. rewrite Ht in Hfetch.
    cbn [of_option mbind result_bind] in Hfetch. injection Hfetch as <-.
    cbn [routines set_routines of_option mbind result_bind].
    rewrite rows_insert_row, List.filter_app.
    cbn [List.filter snd RoutineTask.date row]. subst row. cbn [RoutineTask.date].
    by rewrite String.eqb_refl. }
  split; [|destruct s; done].
  rewrite alarm_data_lookup.
  unfold pending. rewrite List.filter_app.
  cbn [List.filter snd RoutineTask.completed row Z.eqb].
  rewrite List.filter_app.
  cbn [List.filter snd RoutineTask.scheduled_time row].
  rewrite String.eqb_refl, last_snoc. reflexivity.
Qed.

Lemma add_task_appends_witness :
  exists s', add_task demo_day "Physiotherapy" (Py.Time 10 0 0 0) started_db = Ok s' /\
             fetch_tasks demo_day s' =
               Ok [(1, RoutineTask.Row "2026-11-03" "Physiotherapy" "10:00" 0)] /\
             alarm_data [(1, RoutineTask.Row "2026-11-03" "Physiotherapy" "10:00" 0)]
               !! "10:00" = Some "Physiotherapy".
Proof.
  destruct (add_task_appends demo_day "Physiotherapy" (Py.Time 10 0 0 0) started_db
              empty_table [] eq_refl eq_refl) as [_ H].
  destruct (H ltac:(discriminate)) as (s' & H1 & _ & _ & H2 & H3 & _).
  exists s'. split; [exact H1|]. split; [exact H2|exact H3].
Defined.

Lemma pending_update_completed (i : Z) (l : list (Z * RoutineTask.t)) :
  pending (map (fun r : Z * RoutineTask.t =>
                  if r.1 =? i
                  then (r.1, RoutineTask.Row (RoutineTask.date r.2) (RoutineTask.task r.2)
                                             (RoutineTask.scheduled_time r.2) 1)
                  else r) l)
  = List.filter (fun r => negb (r.1 =? i)) (pending l).
Proof.
  unfold pending. induction l as [|x l IH]; [reflexivity|].
  cbn [map List.filter]. destruct (x.1 =? i) eqn:E.
  - cbn [snd RoutineTask.completed Z.eqb]. rewrite IH.
    destruct (RoutineTask.completed x.2 =? 0); [|reflexivity].
    cbn [List.filter]. by rewrite E.
  - rewrite IH. destruct (RoutineTask.completed x.2 =? 0); [|reflexivity].
    cbn [List.filter]. by rewrite E.
Qed.

Lemma filter_map_same_key {A : Type} (f : A -> A) (p : A -> bool) (l : list A) :
  (forall x, p (f x) = p x) ->
  List.filter p (map f l) = map f (List.filter p l).
Proof.
  intros H. induction l as [|x l IH]; [reflexivity|].
  cbn [map List.filter]. rewrite H. destruct (p x); cbn [map]; by rewrite IH.
Qed.

(** X7. The checkbox of a task: when the box agrees with the stored flag
    nothing is written; ticking an incomplete task sets its flag and leaves
    every other row as it was, so the task leaves the pending tasks, from
    which the alarms and the MISSED lines are derived, and no other task
    does. *)
Theorem toggle_task_completes (today : Py.date) (row : Z * RoutineTask.t)
    (s : db) (tasks_df : list (Z * RoutineTask.t)) :
  fetch_tasks today s = Ok tasks_df ->
  (forall is_checked, is_checked = truthy (RoutineTask.completed row.2) ->
     toggle_task is_checked row s = Ok s) /\
  (RoutineTask.completed row.2 = 0 ->
     exists s' tasks_df',
       toggle_task true row s = Ok s' /\
       fetch_tasks today s' = Ok tasks_df' /\
       map fst tasks_df' = map fst tasks_df /\
       (forall r, r ∈ tasks_df -> r.1 <> row.1 -> r ∈ tasks_df') /\
       pending tasks_df' = List.filter (fun r => negb (r.1 =? row.1)) (pending tasks_df) /\
       row.1 ∉ map fst (pending tasks_df')).
Proof.
  intros Hfetch. split.
  - intros is_checked ->. unfold toggle_task. by rewrite Bool.eqb_reflx.
  - intros Hc. unfold fetch_tasks in Hfetch.
    destruct (routines s) as [t|] eqn:Ht; [|done].
    cbn [of_option mbind result_bind] in Hfetch. injection Hfetch as <-.
    set (upd := fun r : Z * RoutineTask.t =>
                  if r.1 =? row.1
                  then (r.1, RoutineTask.Row (RoutineTask.date r.2) (RoutineTask.task r.2)
                                             (RoutineTask.scheduled_time r.2) 1)
                  else r).
    set (p := fun r : Z * RoutineTask.t =>
                String.eqb (RoutineTask.date r.2) (Py.strftime_Ymd today)).
    exists (set_routines (update_row row.1
              (fun r => RoutineTask.Row (RoutineTask.date r) (RoutineTask.task r)
                                        (RoutineTask.scheduled_time r) 1) t) s),
           (map upd (List.filter p (rows t))).
    split.
    { unfold toggle_task, truthy. rewrite Hc, Ht. reflexivity. }
    split.
    { unfold fetch_tasks. cbn [routines set_routines of_option mbind result_bind].
      unfold update_row. cbn [rows]. fold upd. fold p.
      rewrite (filter_map_same_key upd p); [reflexivity|].
      intros x. unfold upd, p. by destruct (x.1 =? row.1). }
    split.
    { rewrite map_map. apply map_ext. intros x. unfold upd. by destruct (x.1 =? row.1). }
    split.
    { intros r Hr Hne. apply list_elem_of_fmap. exists r. split; [|done].
      unfold upd. by rewrite (proj2 (Z.eqb_neq _ _) Hne). }
    split; [apply pending_update_completed|].
    unfold upd. rewrite pending_update_completed. intros Hin.
    apply list_elem_of_fmap in Hin as (x & Hx & Hin).
    apply list_elem_of_In, filter_In in Hin as [_ Hin].
    rewrite Hx, Z.eqb_refl in Hin. discriminate.
Qed.

Lemma toggle_task_completes_witness :
  toggle_task false (1, RoutineTask.Row "2026-11-03" "Breakfast" "08:00" 0) seeded_db
    = Ok seeded_db /\
  exists s' tasks_df',
    toggle_task true (1, RoutineTask.Row "2026-11-03" "Breakfast" "08:00" 0) seeded_db
      = Ok s' /\
    fetch_tasks demo_day s' = Ok tasks_df' /\
    1 ∉ map fst (pending tasks_df').
Proof.
  destruct (toggle_task_completes demo_day
              (1, RoutineTask.Row "2026-11-03" "Breakfast" "08:00" 0)
              seeded_db (rows_of (routines seeded_db)) eq_refl) as [H1 H2].
  split.
  - apply (H1 false). reflexivity.
  - destruct (H2 eq_refl) as (s' & tasks_df' & Ht & Hf & _ & _ & _ & Hp).
    exists s', tasks_df'. repeat split; assumption.
Defined.

(** X8. Medicine cabinet round trip: adding a medicine and deleting it
    again leaves the rows of the cabinet and every other table as they
    were; only the id sequence advances, so the id is never given again. *)
Theorem add_delete_med_round_trip (name dosage time_val : string) (s : db)
    (t : table Medication.t) :
  medications s = Some t ->
  exists s1 s2,
    add_med name dosage time_val s = Ok s1 /\
    fetch_meds s1 = Ok (rows t ++ [(next_rowid t, Medication.Row name dosage time_val None)]) /\
    delete_med (next_rowid t) s1 = Ok s2 /\
    fetch_meds s2 = fetch_meds s /\
    fetch_meds s2 = Ok (rows t) /\
    logs s2 = logs s /\ appointments s2 = appointments s /\
    routines s2 = routines s /\ patient_profile s2 = patient_profile s /\
    (forall name' dosage' time_val' s3,
       add_med name' dosage' time_val' s2 = Ok s3 ->
       exists i, next_rowid t < i /\
         fetch_meds s3 = Ok (rows t ++ [(i, Medication.Row name' dosage' time_val' None)])).
Proof.
  intros Ht.
  set (t1 := insert_row (Medication.Row name dosage time_val None) t).
  exists (set_medications t1 s), (set_medications (delete_row (next_rowid t) t1) s).
  split; [unfold add_med; by rewrite Ht|].
  split; [reflexivity|].
  split; [reflexivity|].
  assert (Hrows : rows (delete_row (next_rowid t) t1) = rows t)
    by apply delete_inserted_row.
  split; [unfold fetch_meds; rewrite Ht;
          cbn [medications set_medications of_option mbind result_bind];
          by rewrite Hrows|].
  split; [unfold fetch_meds;
          cbn [medications set_medications of_option mbind result_bind];
          by rewrite Hrows|].
  repeat (split; [reflexivity|]).
  intros name' dosage' time_val' s3 Hadd. unfold add_med in Hadd.
  cbn [medications set_medications of_option mbind result_bind] in Hadd.
  injection Hadd as <-. eexists.
  split; [|unfold fetch_meds;
           cbn [medications set_medications of_option mbind result_bind];
           by rewrite rows_insert_row, Hrows].
  unfold next_rowid at 2. cbn [seq delete_row t1 insert_row]. lia.
Qed.

Lemma add_delete_med_round_trip_witness :
  exists s1 s2,
    add_med "Warfarin" "5mg" "Morning" started_db = Ok s1 /\
    delete_med 1 s1 = Ok s2 /\ fetch_meds s2 = Ok [].
Proof.
  destruct (add_delete_med_round_trip "Warfarin" "5mg" "Morning" started_db
              empty_table eq_refl)
    as (s1 & s2 & H1 & _ & H2 & _ & H3 & _).
  exists s1, s2. repeat split; assumption.
Defined.

(* ================================================================== *)
(** * Further properties: the log *)
(* ================================================================== *)

Section LogProperties.

Variable create : request -> result (list (option string)).
Variable json_loads : string -> result pyval.


End LogProperties.


(** X10. Recent Activity shows at most ten entries, newest id first; they
    are entries of the log, and every entry left out has an id that is not
    above any id shown. *)
Theorem recent_activity_newest (s : db) (t : table LogEntry.t) :
  logs s = Some t ->
  exists shown,
    recent_activity s = Ok shown /\
    List.length shown = Nat.min 10 (List.length (rows t)) /\
    StronglySorted id_desc shown /\
    (forall r, r ∈ shown -> r ∈ rows t) /\
    (exists hidden, rows t ≡ₚ shown ++ hidden /\
       forall r x, r ∈ hidden -> x ∈ shown -> r.1 <= x.1).
Proof.
  intros Ht. unfold recent_activity. rewrite Ht.
  cbn [of_option mbind result_bind]. eexists. split; [reflexivity|].
  pose proof (merge_sort_Permutation id_desc (rows t)) as Hperm.
  pose proof (StronglySorted_merge_sort id_desc (rows t)) as Hsorted.
  set (sorted := merge_sort id_desc (rows t)) in *.
  rewrite <- (take_drop 10 sorted) in Hsorted.
  apply StronglySorted_app in Hsorted as (Hcross & Hs1 & Hs2).
  split; [rewrite length_take, <- (Permutation_length Hperm); lia|].
  split; [exact Hs1|]. split.
  - intros r Hr. rewrite <- Hperm. rewrite <- (take_drop 10 sorted).
    apply elem_of_app. by left.
  - exists (drop 10 sorted). split; [by rewrite take_drop|].
    intros r x Hr Hx. apply (Hcross x r Hx Hr).
Qed.

Lemma recent_activity_newest_witness :
  recent_activity (set_logs demo_logs started_db)
  = Ok [ (3, LogEntry.Row "2026-11-03 10:00:00" "Daughter" "Good mood today"
               (SqlText "Mood") (SqlText "Low"));
         (2, LogEntry.Row "2026-11-02 09:30:00" "Son" "Chest pain after lunch"
               (SqlText "Vitals") (SqlText "High"));
         (1, LogEntry.Row "2026-11-01 08:00:00" "Nurse" "Fell in the hallway"
               (SqlText "Incident") (SqlText "High")) ].
Proof.
  destruct (recent_activity_newest (set_logs demo_logs started_db) demo_logs eq_refl)
    as (shown & H & _).
  rewrite H. f_equal. vm_compute in H. by injection H.
Defined.

(* ================================================================== *)
(** * Further properties: the profile *)
(* ================================================================== *)

(** X11. After initialisation the profile read never comes back empty, so
    the page can unpack it; and when the first row of the table has id 1,
    as in every store the application built itself, an update is read back
    by the next fetch. *)
Theorem profile_read_after_write (s : db) :
  (exists age conditions, fetch_profile (init_db s) = Ok (Some (age, conditions))) /\
  fetch_profile (init_db new_db) = Ok (Some ("75", "Hypertension, Arthritis")) /\
  (forall t r rest new_age new_cond,
     patient_profile s = Some t -> rows t = (1, r) :: rest ->
     exists s', update_profile new_age new_cond s = Ok s' /\
                fetch_profile s' = Ok (Some (new_age, new_cond))) /\
  (forall new_age new_cond,
     exists s', update_profile new_age new_cond (init_db new_db) = Ok s' /\
                fetch_profile s' = Ok (Some (new_age, new_cond)) /\
                init_db s' = s').
Proof.
  split; [|split; [reflexivity|split]].
  - unfold fetch_profile. pose proof (profile_rows_of_init_db s) as Hr.
    destruct (patient_profile (init_db s)) as [t|] eqn:Ht;
      [|rewrite profile_of_init_db in Ht; discriminate].
    cbn [rows_of] in Hr. cbn [of_option mbind result_bind].
    destruct (rows t) as [|r l]; [|by eexists _, _].
    destruct (rows_of (patient_profile s)); discriminate.
  - intros t r rest new_age new_cond Ht Hrows. eexists. split.
    + apply update_profile_rows. exact Ht.
    + unfold fetch_profile. cbn [patient_profile set_patient_profile of_option
                                  mbind result_bind rows].
      rewrite Hrows. reflexivity.
  - intros new_age new_cond. eexists. split; [reflexivity|]. split; reflexivity.
Qed.

Lemma profile_read_after_write_witness :
  exists s', update_profile "80" "Diabetes" started_db = Ok s' /\
             fetch_profile s' = Ok (Some ("80", "Diabetes")).
Proof.
  destruct (profile_read_after_write started_db) as (_ & _ & H & _).
  apply (H (Table [(1, default_profile)] 1) default_profile [] "80" "Diabetes");
    reflexivity.
Defined.

(* ================================================================== *)
(** * Further properties: the alarm script *)
(* ================================================================== *)

(** The clock text of the script is the text [strftime] writes. *)
Lemma strftime_HM_inj (a b : Py.time) :
  0 <= Py.hour a < 24 -> 0 <= Py.minute a < 60 ->
  0 <= Py.hour b < 24 -> 0 <= Py.minute b < 60 ->
  Py.strftime_HM a = Py.strftime_HM b ->
  Py.hour a = Py.hour b /\ Py.minute a = Py.minute b.
Proof.
  intros Ha1 Ha2 Hb1 Hb2 Heq.
  pose proof (strptime_strftime_HM a Ha1 Ha2) as Pa.
  pose proof (strptime_strftime_HM b Hb1 Hb2) as Pb.
  rewrite Heq, Pb in Pa. by injection Pa as -> ->.
Qed.

(** X12. The alarm of a minute, when no incomplete task of today has the
    character [<] in its name or in its scheduled time (so that the mapping
    written into the page leaves the script element intact): at wall-clock
    time [hours:minutes] the script alerts exactly when an incomplete task of
    today is scheduled at that time as the application writes it, and it
    names the last such task; for tasks saved through the time pickers, that
    is when the hours and the minutes of the task equal those of the clock. *)
Theorem alarm_tick_rings (tasks_df : list (Z * RoutineTask.t)) (hours minutes : Z) :
  script_intact tasks_df = true ->
  0 <= hours < 24 -> 0 <= minutes < 60 ->
  (forall name,
     alarm_tick (alarm_data tasks_df) hours minutes
       = Some ("⏰ ALARM: Time for " +:+ name +:+ "!") <->
     exists r, last (List.filter
                       (fun r => String.eqb (RoutineTask.scheduled_time r.2)
                                            (Py.strftime_HM (Py.Time hours minutes 0 0)))
                       (pending tasks_df)) = Some r /\
               RoutineTask.task r.2 = name) /\
  (alarm_tick (alarm_data tasks_df) hours minutes = None <->
     forall r, r ∈ tasks_df -> RoutineTask.completed r.2 = 0 ->
       RoutineTask.scheduled_time r.2 <> Py.strftime_HM (Py.Time hours minutes 0 0)) /\
  (forall r t, r ∈ tasks_df -> RoutineTask.completed r.2 = 0 ->
     0 <= Py.hour t < 24 -> 0 <= Py.minute t < 60 ->
     RoutineTask.scheduled_time r.2 = Py.strftime_HM t ->
     (Py.hour t = hours /\ Py.minute t = minutes ->
        exists alert, alarm_tick (alarm_data tasks_df) hours minutes = Some alert) /\
     (RoutineTask.scheduled_time r.2 = Py.strftime_HM (Py.Time hours minutes 0 0) ->
        Py.hour t = hours /\ Py.minute t = minutes)).
Proof.
  intros _ Hh Hm. unfold alarm_tick.
  change (Py.pad2 hours +:+ ":" +:+ Py.pad2 minutes)
    with (Py.strftime_HM (Py.Time hours minutes 0 0)).
  set (key := Py.strftime_HM (Py.Time hours minutes 0 0)).
  rewrite alarm_data_lookup.
  set (hits := List.filter (fun r : Z * RoutineTask.t =>
                 String.eqb (RoutineTask.scheduled_time r.2) key) (pending tasks_df)).
  assert (Hhit : forall r, r ∈ hits <->
            r ∈ tasks_df /\ RoutineTask.completed r.2 = 0 /\
            RoutineTask.scheduled_time r.2 = key).
  { intros r. unfold hits. rewrite list_elem_of_In, filter_In, <- list_elem_of_In,
      elem_of_pending, String.eqb_eq. tauto. }
  split; [|split].
  - intros name. destruct (last hits) as [r|]; cbn [fmap option_fmap option_map].
    + split.
      * intros [= Heq]. exists r. split; [done|].
        apply (f_equal Py.chars) in Heq. rewrite !chars_append in Heq.
        apply app_inv_head in Heq. apply app_inv_tail in Heq.
        rewrite <- (str_chars (RoutineTask.task r.2)), <- (str_chars name).
        by rewrite Heq.
      * intros (r' & [= <-] & <-). reflexivity.
    + split; [done|]. by intros (r' & ? & _).
  - destruct (last hits) as [r|] eqn:Hlast; cbn [fmap option_fmap option_map].
    + split; [done|]. intros Hnone. exfalso.
      apply last_elem_of, Hhit in Hlast as (Hin & Hc & Hk). by apply (Hnone r).
    + split; [|done]. intros _ r Hin Hc Hk.
      assert (Hr : r ∈ hits) by by apply Hhit.
      apply last_None in Hlast. rewrite Hlast in Hr. by apply elem_of_nil in Hr.
  - intros r t Hin Hc Ht1 Ht2 Hst. split.
    + intros [<- <-].
      assert (Hr : r ∈ hits) by (apply Hhit; by rewrite Hst).
      destruct (last hits) as [x|] eqn:Hlast; [by eexists|].
      apply last_None in Hlast. rewrite Hlast in Hr. by apply elem_of_nil in Hr.
    + intros Hk. rewrite Hst in Hk.
      apply (strftime_HM_inj t (Py.Time hours minutes 0 0)); done.
Qed.

Lemma alarm_tick_rings_witness :
  alarm_tick (alarm_data (rows_of (routines seeded_db))) 9 0
    = Some "⏰ ALARM: Time for Morning Meds!" /\
  alarm_tick (alarm_data (rows_of (routines seeded_db))) 9 1 = None.
Proof.
  destruct (alarm_tick_rings (rows_of (routines seeded_db)) 9 0
              ltac:(vm_compute; reflexivity) ltac:(lia) ltac:(lia)) as (H1 & _).
  destruct (alarm_tick_rings (rows_of (routines seeded_db)) 9 1
              ltac:(vm_compute; reflexivity) ltac:(lia) ltac:(lia)) as (_ & H2 & _).
  split.
  - apply (H1 "Morning Meds"). eexists. split; vm_compute; reflexivity.
  - apply H2. intros r Hin _. vm_compute in Hin.
    repeat (apply elem_of_cons in Hin as [->|Hin]; [vm_compute; discriminate|]).
    by apply elem_of_nil in Hin.
Defined.

(* ================================================================== *)
(** * Further properties: the calendar *)
(* ================================================================== *)

Lemma int_pad4 (n : Z) : 0 <= n < 10000 -> Py.int (Py.pad4 n) = Some n.
Proof.
  intros Hn.
  assert (Hall : forallb (fun k => match Py.int (Py.pad4 k) with
                                   | Some v => v =? k
                                   | None => false
                                   end) (seqZ 0 10000) = true)
    by (vm_compute; reflexivity).
  rewrite forallb_forall in Hall.
  specialize (Hall n ltac:(apply list_elem_of_In, elem_of_seqZ; lia)).
  destruct (Py.int (Py.pad4 n)) as [v|]; [|done].
  apply Z.eqb_eq in Hall. by subst.
Qed.

Lemma is_digit_digit_char (k : Z) : 0 <= k <= 9 -> Py.is_digit (Py.digit_char k) = true.
Proof.
  intros Hk.
  assert (k = 0 \/ k = 1 \/ k = 2 \/ k = 3 \/ k = 4 \/ k = 5 \/ k = 6 \/ k = 7 \/
          k = 8 \/ k = 9) as H by lia.
  repeat (destruct H as [->|H]; [reflexivity|]). by subst.
Qed.

(** The year directive reads the four digits of a padded year. *)
Lemma match_year (y : Z) (tail : list ascii) :
  0 <= y < 10000 ->
  Py.match_classes [Py.d; Py.d; Py.d; Py.d] (Py.chars (Py.pad4 y) ++ tail)
  = Some (Py.chars (Py.pad4 y), tail).
Proof.
  intros Hy.
  change (Py.chars (Py.pad4 y)) with
    [Py.digit_char (y / 1000); Py.digit_char (y / 100 mod 10);
     Py.digit_char (y mod 100 / 10); Py.digit_char (y mod 100 mod 10)].
  cbn [app Py.match_classes]. unfold Py.d.
  rewrite !is_digit_digit_char; [reflexivity| | | |];
    Z.div_mod_to_equations; lia.
Qed.

(** The rest of the pattern reads a padded month and day. *)
Lemma match_month_day (m d : Z) :
  1 <= m <= 12 -> 1 <= d <= 31 ->
  Py.re_match [Py.Lit "-"; Py.re_m; Py.Lit "-"; Py.re_d]
              (Py.chars ("-" +:+ Py.pad2 m +:+ "-" +:+ Py.pad2 d))
  = Some ([Py.pad2 m; Py.pad2 d], []).
Proof.
  intros Hm Hd.
  assert (Hall : forallb (fun m => forallb (fun d =>
            match Py.re_match [Py.Lit "-"; Py.re_m; Py.Lit "-"; Py.re_d]
                    (Py.chars ("-" +:+ Py.pad2 m +:+ "-" +:+ Py.pad2 d)) with
            | Some ([a; b], []) => String.eqb a (Py.pad2 m) && String.eqb b (Py.pad2 d)
            | _ => false
            end) (seqZ 1 31)) (seqZ 1 12) = true) by (vm_compute; reflexivity).
  rewrite forallb_forall in Hall.
  specialize (Hall m ltac:(apply list_elem_of_In, elem_of_seqZ; lia)).
  rewrite forallb_forall in Hall.
  specialize (Hall d ltac:(apply list_elem_of_In, elem_of_seqZ; lia)).
  destruct (Py.re_match _ _) as [[[|a [|b [|? ?]]] [|? ?]]|]; try done.
  apply andb_true_iff in Hall as [Ha Hb].
  apply String.eqb_eq in Ha, Hb. by subst.
Qed.

Lemma re_match_single (alt : list Py.cclass) (re : list Py.item) (cs : list ascii) :
  Py.re_match (Py.Group [alt] :: re) cs =
  match Py.match_classes alt cs with
  | Some (txt, rest) =>
      match Py.re_match re rest with
      | Some (gs, rest') => Some (Py.str txt :: gs, rest')
      | None => None
      end
  | None => None
  end.
Proof.
  cbn [Py.re_match Py.first_some].
  destruct (Py.match_classes alt cs) as [[txt rest]|]; [|reflexivity].
  by destruct (Py.re_match re rest) as [[gs rest']|].
Qed.

(** A date stored by the driver is read back by the reminder loop. *)
Lemma strptime_isoformat (x : Py.date) :
  Py.check_date_fields (Py.year x) (Py.month x) (Py.day x) = true ->
  Py.strptime_Ymd (isoformat x) = Some x.
Proof.
  intros Hc. destruct x as [y m d]. cbn [Py.year Py.month Py.day] in Hc.
  pose proof Hc as Hc'. unfold Py.check_date_fields, Py.MINYEAR, Py.MAXYEAR in Hc'.
  rewrite !andb_true_iff, !Z.leb_le in Hc'.
  destruct Hc' as (((((Hy1 & Hy2) & Hm1) & Hm2) & Hd1) & Hd2).
  assert (Hd31 : d <= 31).
  { revert Hd2. unfold Py.days_in_month.
    assert (Hm : 1 <= m <= 12) by lia.
    each_month Hm; destruct (Py.is_leap y); cbn; lia. }
  unfold Py.strptime_Ymd, Py.strptime_groups, isoformat.
  cbn [Py.year Py.month Py.day].
  change (Py.pad4 y +:+ "-" +:+ Py.pad2 m +:+ "-" +:+ Py.pad2 d)
    with (Py.pad4 y +:+ ("-" +:+ Py.pad2 m +:+ "-" +:+ Py.pad2 d)).
  rewrite chars_append.
  unfold Py.re_Y. rewrite re_match_single, match_year by lia.
  rewrite match_month_day by lia.
  rewrite str_chars, int_pad4, !int_pad2 by lia.
  by rewrite Hc.
Qed.

Lemma is_ascii_append (a b : string) :
  Py.is_ascii (a +:+ b) = Py.is_ascii a && Py.is_ascii b.
Proof. unfold Py.is_ascii. by rewrite chars_append, forallb_app. Qed.

Lemma is_ascii_pad2 (n : Z) : 0 <= n < 100 -> Py.is_ascii (Py.pad2 n) = true.
Proof.
  intros Hn.
  assert (Hall : forallb (fun k => Py.is_ascii (Py.pad2 k)) (seqZ 0 100) = true)
    by (vm_compute; reflexivity).
  rewrite forallb_forall in Hall.
  apply Hall, list_elem_of_In, elem_of_seqZ. lia.
Qed.

Lemma is_ascii_pad4 (n : Z) : 0 <= n < 10000 -> Py.is_ascii (Py.pad4 n) = true.
Proof.
  intros Hn.
  assert (Hall : forallb (fun k => Py.is_ascii (Py.pad4 k)) (seqZ 0 10000) = true)
    by (vm_compute; reflexivity).
  rewrite forallb_forall in Hall.
  apply Hall, list_elem_of_In, elem_of_seqZ. lia.
Qed.

(** The dates the application stores are ASCII text. *)
Lemma written_date_ascii (text : string) :
  written_date text -> Py.is_ascii text = true.
Proof.
  unfold written_date. intros (x & Hx & ->). unfold isoformat.
  unfold Py.check_date_fields, Py.MINYEAR, Py.MAXYEAR in Hx.
  rewrite !andb_true_iff, !Z.leb_le in Hx.
  assert (Hd : Py.days_in_month (Py.year x) (Py.month x) <= 31).
  { unfold Py.days_in_month. destruct (_ && _); [lia|].
    assert (Hm : Py.month x ∈ seqZ 1 12) by (apply elem_of_seqZ; lia).
    revert Hm. generalize (Py.month x). intros m Hm.
    repeat (apply elem_of_cons in Hm as [->|Hm]; [vm_compute; discriminate|]).
    by apply elem_of_nil in Hm. }
  rewrite !is_ascii_append, is_ascii_pad4, !is_ascii_pad2 by lia. reflexivity.
Qed.

Lemma calendar_reminders_elem_of (today : Py.date) (s : db)
    (t : table Appointment.t) (a : string) :
  calendar_date today -> appointments s = Some t ->
  exists shown, calendar_reminders today s = Ok shown /\
    (a ∈ shown <-> exists r, r ∈ rows t /\ a ∈ appointment_alert today r.2).
Proof.
  intros Htoday Ht. unfold calendar_reminders, fetch_appointments. rewrite Ht.
  cbn [of_option mbind result_bind]. eexists. split; [reflexivity|].
  unfold appointment_reminders. rewrite reminder_loop by done. cbn [app].
  rewrite list_elem_of_In, in_flat_map. split.
  - intros (r & Hr & Ha). exists r. split; [|by apply list_elem_of_In].
    rewrite <- (merge_sort_Permutation date_asc (rows t)). by apply list_elem_of_In.
  - intros (r & Hr & Ha). exists r. split; [|by apply list_elem_of_In].
    apply list_elem_of_In. by rewrite (merge_sort_Permutation date_asc (rows t)).
Qed.

(** X13. An appointment scheduled through the form for a date of the
    calendar is stored as its ISO text and read back as the same date: it
    gives the TODAY reminder exactly when its date is today, the TOMORROW
    reminder exactly when it is the day after, and otherwise none; the
    reminders of the other appointments stay. *)
Theorem schedule_then_reminder (today date_val : Py.date) (doc purpose : string)
    (s : db) (t : table Appointment.t) :
  calendar_date today ->
  Py.check_date_fields (Py.year date_val) (Py.month date_val) (Py.day date_val) = true ->
  appointments s = Some t ->
  let row := Appointment.Row (isoformat date_val) doc purpose in
  Py.strptime_Ymd (Appointment.date row) = Some date_val /\
  (date_val = today ->
     appointment_alert today row =
       ["🔔 REMINDER: Appointment with **" +:+ doc +:+ "** is **TODAY**!"]) /\
  (date_val = Py.tomorrow today ->
     appointment_alert today row =
       ["🔔 REMINDER: Appointment with **" +:+ doc +:+ "** is **TOMORROW**!"]) /\
  (date_val <> today -> date_val <> Py.tomorrow today ->
     appointment_alert today row = []) /\
  exists s' before after,
    add_appointment date_val doc purpose s = Ok s' /\
    calendar_reminders today s = Ok before /\
    calendar_reminders today s' = Ok after /\
    forall a, a ∈ after <-> a ∈ before \/ a ∈ appointment_alert today row.
Proof.
  intros Htoday Hvalid Ht row.
  assert (Hparse : Py.strptime_Ymd (Appointment.date row) = Some date_val)
    by (by apply strptime_isoformat).
  assert (Hneq : today <> Py.tomorrow today).
  { intros Heq. pose proof (toordinal_tomorrow today Htoday) as H.
    rewrite <- Heq in H. lia. }
  split; [exact Hparse|].
  split; [|split; [|split]].
  - intros Heq. unfold appointment_alert. rewrite Hparse. by rewrite decide_True.
  - intros Heq. unfold appointment_alert. rewrite Hparse.
    rewrite decide_False by (by rewrite Heq). by rewrite decide_True.
  - intros H1 H2. unfold appointment_alert. rewrite Hparse. by rewrite !decide_False.
  - set (t' := insert_row row t).
    assert (Hs' : appointments (set_appointments t' s) = Some t') by reflexivity.
    exists (set_appointments t' s).
    destruct (calendar_reminders_elem_of today s t "" Htoday Ht) as (before & Hb & _).
    destruct (calendar_reminders_elem_of today _ t' "" Htoday Hs') as (after & Ha & _).
    exists before, after.
    split; [unfold add_appointment; by rewrite Ht|].
    split; [exact Hb|]. split; [exact Ha|]. intros a.
    destruct (calendar_reminders_elem_of today s t a Htoday Ht) as (b' & Hb' & Hbi).
    destruct (calendar_reminders_elem_of today _ t' a Htoday Hs') as (a' & Ha' & Hai).
    rewrite Hb in Hb'. injection Hb' as <-. rewrite Ha in Ha'. injection Ha' as <-.
    rewrite Hai, Hbi. unfold t'. rewrite rows_insert_row. split.
    + intros (r & Hr & Hal). apply elem_of_app in Hr as [Hr|Hr].
      * left. by exists r.
      * right. apply list_elem_of_singleton in Hr. by subst r.
    + intros [(r & Hr & Hal)|Hal].
      * exists r. split; [|done]. apply elem_of_app. by left.
      * exists (next_rowid t, row). split; [|done].
        apply elem_of_app. right. apply list_elem_of_here.
Qed.

Lemma schedule_then_reminder_witness :
  exists s',
    add_appointment (Py.Date 2026 11 4) "Dr. Kim" "Dentist" started_db = Ok s' /\
    calendar_reminders demo_day s'
      = Ok ["🔔 REMINDER: Appointment with **Dr. Kim** is **TOMORROW**!"].
Proof.
  destruct (schedule_then_reminder demo_day (Py.Date 2026 11 4) "Dr. Kim" "Dentist"
              started_db empty_table
              ltac:(unfold calendar_date; cbn; lia) eq_refl eq_refl)
    as (_ & _ & _ & _ & s' & before & after & Hadd & _ & _ & _).
  exists s'. split; [exact Hadd|].
  vm_compute in Hadd. injection Hadd as <-. vm_compute. reflexivity.
Defined.

(* ================================================================== *)
(** * Further properties: the invariant of the store *)
(* ================================================================== *)

Lemma elem_of_update_row {R : Type} (id : Z) (f : R -> R) (t : table R) (x : Z * R) :
  x ∈ rows (update_row id f t) ->
  exists y, y ∈ rows t /\ (x = y \/ x = (y.1, f y.2)).
Proof.
  unfold update_row. cbn [rows]. intros Hx.
  apply list_elem_of_fmap in Hx as (y & Hy & Hin). exists y. split; [done|].
  destruct (y.1 =? id); [by right|by left].
Qed.

Lemma elem_of_delete_row {R : Type} (id : Z) (t : table R) (x : Z * R) :
  x ∈ rows (delete_row id t) -> x ∈ rows t.
Proof.
  unfold delete_row. cbn [rows]. intros Hx.
  apply list_elem_of_In, filter_In in Hx as [Hx _]. by apply list_elem_of_In.
Qed.

Lemma length_update_row {R : Type} (id : Z) (f : R -> R) (t : table R) :
  List.length (rows (update_row id f t)) = List.length (rows t).
Proof. unfold update_row. cbn [rows]. apply length_map. Qed.

Lemma store_ok_new : store_ok new_db.
Proof. split; [|split; [|split; [|split]]]; intros t Ht; discriminate. Qed.

Lemma store_ok_set_logs (s : db) (t : table LogEntry.t) :
  store_ok s -> keyed t -> store_ok (set_logs t s).
Proof.
  intros (H1 & H2 & H3 & H4 & H5) Hk. destruct s.
  split; [intros t' [= <-]; done|]. done.
Qed.

Lemma store_ok_set_medications (s : db) (t : table Medication.t) :
  store_ok s -> keyed t -> store_ok (set_medications t s).
Proof.
  intros (H1 & H2 & H3 & H4 & H5) Hk. destruct s.
  split; [done|]. split; [intros t' [= <-]; done|]. done.
Qed.

Lemma store_ok_set_appointments (s : db) (t : table Appointment.t) :
  store_ok s -> keyed t ->
  (forall r, r ∈ rows t -> written_date (Appointment.date r.2)) ->
  store_ok (set_appointments t s).
Proof.
  intros (H1 & H2 & H3 & H4 & H5) Hk Hd. destruct s.
  split; [done|]. split; [done|]. split; [intros t' [= <-]; done|]. done.
Qed.

Lemma store_ok_set_routines (s : db) (t : table RoutineTask.t) :
  store_ok s -> keyed t ->
  (forall r, r ∈ rows t -> written_time (RoutineTask.scheduled_time r.2)) ->
  store_ok (set_routines t s).
Proof.
  intros (H1 & H2 & H3 & H4 & H5) Hk Hd. destruct s.
  split; [done|]. split; [done|]. split; [done|]. split; [intros t' [= <-]; done|]. done.
Qed.

Lemma store_ok_set_patient_profile (s : db) (t : table PatientProfile.t) :
  store_ok s -> keyed t -> List.length (rows t) = 1%nat ->
  store_ok (set_patient_profile t s).
Proof.
  intros (H1 & H2 & H3 & H4 & H5) Hk Hd. destruct s.
  split; [done|]. split; [done|]. split; [done|]. split; [done|].
  intros t' [= <-]; done.
Qed.

Lemma keyed_create {R : Type} (o : option (table R)) :
  (forall t, o = Some t -> keyed t) -> keyed (create_table_if_not_exists o).
Proof. destruct o as [t|]; intros H; [by apply H|apply keyed_empty]. Qed.

Lemma store_ok_init_db (s : db) : store_ok s -> store_ok (init_db s).
Proof.
  intros (H1 & H2 & H3 & H4 & H5). rewrite init_db_tables.
  split; [|split; [|split; [|split]]];
    cbn [logs medications appointments routines patient_profile]; intros t' [= <-].
  - by apply keyed_create.
  - by apply keyed_create.
  - destruct (appointments s) as [t|]; cbn [create_table_if_not_exists].
    + by apply H3.
    + split; [apply keyed_empty|]. intros r Hr. by apply elem_of_nil in Hr.
  - destruct (routines s) as [t|]; cbn [create_table_if_not_exists].
    + by apply H4.
    + split; [apply keyed_empty|]. intros r Hr. by apply elem_of_nil in Hr.
  - destruct (patient_profile s) as [t|]; cbn [create_table_if_not_exists].
    + destruct (H5 t eq_refl) as [Hk Hlen]. cbn zeta.
      destruct (rows t) eqn:E; [discriminate|]. split; [done|]. by rewrite E.
    + cbn. split; [|reflexivity]. apply (keyed_insert_row default_profile empty_table).
      apply keyed_empty.
Qed.

Lemma written_time_default (task t_time : string) :
  (task, t_time) ∈ defaults -> written_time t_time.
Proof.
  unfold defaults. intros H.
  apply elem_of_cons in H as [[= -> ->]|H];
    [exists (Py.Time 8 0 0 0); cbn; repeat split; lia|].
  apply elem_of_cons in H as [[= -> ->]|H];
    [exists (Py.Time 9 0 0 0); cbn; repeat split; lia|].
  apply elem_of_cons in H as [[= -> ->]|H];
    [exists (Py.Time 13 0 0 0); cbn; repeat split; lia|].
  apply elem_of_cons in H as [[= -> ->]|H];
    [exists (Py.Time 17 0 0 0); cbn; repeat split; lia|].
  apply elem_of_cons in H as [[= -> ->]|H];
    [exists (Py.Time 20 0 0 0); cbn; repeat split; lia|].
  apply elem_of_cons in H as [[= -> ->]|H];
    [exists (Py.Time 21 0 0 0); cbn; repeat split; lia|].
  by apply elem_of_nil in H.
Qed.

Lemma seed_ok (today_str : string) (l : list (string * string)) :
  forall t : table RoutineTask.t,
  (forall task t_time, (task, t_time) ∈ l -> written_time t_time) ->
  keyed t ->
  (forall r, r ∈ rows t -> written_time (RoutineTask.scheduled_time r.2)) ->
  let t' := fold_left (fun t '(task, t_time) =>
                         insert_row (RoutineTask.Row today_str task t_time 0) t) l t in
  keyed t' /\ forall r, r ∈ rows t' -> written_time (RoutineTask.scheduled_time r.2).
Proof.
  induction l as [|[task t_time] l IH]; intros t Hl Hk Ht; [done|].
  cbn [fold_left]. apply IH.
  - intros task' t_time' Hin. apply (Hl task'). by apply list_elem_of_further.
  - by apply keyed_insert_row.
  - intros r Hr. rewrite rows_insert_row in Hr. apply elem_of_app in Hr as [Hr|Hr].
    + by apply Ht.
    + apply list_elem_of_singleton in Hr. subst r. apply (Hl task). apply list_elem_of_here.
Qed.

Section Invariant.

Variable create : request -> result (list (option string)).
Variable json_loads : string -> result pyval.

Lemma submit_log_inv (now author log_text : string) (s s' : db) :
  submit_log create json_loads now author log_text s = Ok s' ->
  exists t entry, logs s = Some t /\ s' = set_logs (insert_row entry t) s.
Proof.
  unfold submit_log.
  destruct (py_get _ "category" _) as [c|]; [|done].
  destruct (py_get _ "severity" _) as [v|]; [|done].
  cbn [mbind result_bind].
  destruct (logs s) as [t|]; [|done]. cbn [of_option mbind result_bind].
  destruct (sql_bind c) as [c'|]; [|done]. cbn [mbind result_bind].
  destruct (sql_bind v) as [v'|]; [|done]. cbn [mbind result_bind].
  intros [= <-]. by eexists _, _.
Qed.

Lemma perform_store_ok (a : action) (s s' : db) :
  store_ok s -> from_widgets a -> perform create json_loads a s = Ok s' -> store_ok s'.
Proof.
  intros Hok Hw Hstep. pose proof Hok as (H1 & H2 & H3 & H4 & H5).
  destruct a; cbn [perform from_widgets] in *.
  - (* Init *) injection Hstep as <-. by apply store_ok_init_db.
  - (* Seed *)
    destruct (routines s) as [t|] eqn:Ht;
      [|unfold check_and_create_daily_tasks in Hstep; by rewrite Ht in Hstep].
    rewrite (check_and_create_daily_tasks_eq today s t Ht) in Hstep.
    injection Hstep as <-. destruct (List.filter _ (rows t)); [|done].
    destruct (H4 t eq_refl) as [Hk Htimes].
    destruct (seed_ok (Py.strftime_Ymd today) defaults t written_time_default Hk Htimes).
    by apply store_ok_set_routines.
  - (* AddTask *)
    unfold add_task in Hstep. destruct new_task_name; [by injection Hstep as <-|].
    destruct (routines s) as [t|] eqn:Ht; [|done].
    cbn [of_option mbind result_bind] in Hstep. injection Hstep as <-.
    destruct (H4 t eq_refl) as [Hk Htimes]. apply store_ok_set_routines; [done| |].
    + by apply keyed_insert_row.
    + intros r Hr. rewrite rows_insert_row in Hr. apply elem_of_app in Hr as [Hr|Hr].
      * by apply Htimes.
      * apply list_elem_of_singleton in Hr. subst r. exists new_task_time.
        destruct Hw as [Hh Hm]. split; [exact Hh|]. split; [exact Hm|reflexivity].
  - (* SaveTime *)
    unfold save_time in Hstep. destruct (routines s) as [t|] eqn:Ht; [|done].
    cbn [of_option mbind result_bind] in Hstep. injection Hstep as <-.
    destruct (H4 t eq_refl) as [Hk Htimes]. apply store_ok_set_routines; [done| |].
    + by apply keyed_update_row.
    + intros r Hr. apply elem_of_update_row in Hr as (y & Hy & [->| ->]).
      * by apply Htimes.
      * exists new_t_obj.
        destruct Hw as [Hh Hm]. split; [exact Hh|]. split; [exact Hm|reflexivity].
  - (* DeleteTask *)
    unfold delete_task in Hstep. destruct (routines s) as [t|] eqn:Ht; [|done].
    cbn [of_option mbind result_bind] in Hstep. injection Hstep as <-.
    destruct (H4 t eq_refl) as [Hk Htimes]. apply store_ok_set_routines; [done| |].
    + by apply keyed_delete_row.
    + intros r Hr. apply Htimes. by apply elem_of_delete_row in Hr.
  - (* Toggle *)
    unfold toggle_task in Hstep.
    destruct (negb _); [|by injection Hstep as <-].
    destruct (routines s) as [t|] eqn:Ht; [|done].
    cbn [of_option mbind result_bind] in Hstep. injection Hstep as <-.
    destruct (H4 t eq_refl) as [Hk Htimes]. apply store_ok_set_routines; [done| |].
    + by apply keyed_update_row.
    + intros r Hr. apply elem_of_update_row in Hr as (y & Hy & [->| ->]);
        [by apply Htimes|].
      cbn [snd RoutineTask.scheduled_time]. by apply Htimes.
  - (* SubmitLog *)
    apply submit_log_inv in Hstep as (t & entry & Ht & ->).
    apply store_ok_set_logs; [done|]. apply keyed_insert_row. by apply H1.
  - (* DeleteLog *)
    unfold delete_log in Hstep. destruct (logs s) as [t|] eqn:Ht; [|done].
    cbn [of_option mbind result_bind] in Hstep. injection Hstep as <-.
    apply store_ok_set_logs; [done|]. apply keyed_delete_row. by apply H1.
  - (* AddMed *)
    unfold add_med in Hstep. destruct (medications s) as [t|] eqn:Ht; [|done].
    cbn [of_option mbind result_bind] in Hstep. injection Hstep as <-.
    apply store_ok_set_medications; [done|]. apply keyed_insert_row. by apply H2.
  - (* DeleteMed *)
    unfold delete_med in Hstep. destruct (medications s) as [t|] eqn:Ht; [|done].
    cbn [of_option mbind result_bind] in Hstep. injection Hstep as <-.
    apply store_ok_set_medications; [done|]. apply keyed_delete_row. by apply H2.
  - (* AddAppointment *)
    unfold add_appointment in Hstep. destruct (appointments s) as [t|] eqn:Ht; [|done].
    cbn [of_option mbind result_bind] in Hstep. injection Hstep as <-.
    destruct (H3 t eq_refl) as [Hk Hdates]. apply store_ok_set_appointments; [done| |].
    + by apply keyed_insert_row.
    + intros r Hr. rewrite rows_insert_row in Hr. apply elem_of_app in Hr as [Hr|Hr].
      * by apply Hdates.
      * apply list_elem_of_singleton in Hr. subst r. exists date_val.
        split; [exact Hw|reflexivity].
  - (* DeleteAppointment *)
    unfold delete_appointment in Hstep. destruct (appointments s) as [t|] eqn:Ht; [|done].
    cbn [of_option mbind result_bind] in Hstep. injection Hstep as <-.
    destruct (H3 t eq_refl) as [Hk Hdates]. apply store_ok_set_appointments; [done| |].
    + by apply keyed_delete_row.
    + intros r Hr. apply Hdates. by apply elem_of_delete_row in Hr.
  - (* UpdateProfile *)
    unfold update_profile in Hstep. destruct (patient_profile s) as [t|] eqn:Ht; [|done].
    cbn [of_option mbind result_bind] in Hstep. injection Hstep as <-.
    destruct (H5 t eq_refl) as [Hk Hlen].
    change (Table (map _ (rows t)) (seq t))
      with (update_row 1 (fun _ : PatientProfile.t => PatientProfile.Row new_age new_cond) t).
    apply store_ok_set_patient_profile; [done| |].
    + by apply keyed_update_row.
    + by rewrite length_update_row.
Qed.

Lemma reachable_invariant (s : db) : reachable create json_loads s -> store_ok s.
Proof.
  intros Hr. induction Hr as [|a s s' _ IH Hw Hstep]; [apply store_ok_new|].
  by apply (perform_store_ok a s s').
Qed.

(** The appointment dates of a store that sessions can produce are ASCII
    text. *)
Lemma reachable_dates_ascii (s : db) (t : table Appointment.t) :
  reachable create json_loads s -> appointments s = Some t ->
  forall row, row ∈ rows t -> Py.is_ascii (Appointment.date row.2) = true.
Proof.
  intros Hr Ht row Hrow.
  destruct (reachable_invariant s Hr) as (_ & _ & H3 & _).
  destruct (H3 t Ht) as [_ Hd]. by apply written_date_ascii, Hd.
Qed.

(** X14. In every store that sessions can produce from a new database
    file, whatever the provider answers: the ids of each table are distinct,
    every scheduled time of the routine is a time of the day in the form
    HH:MM, every appointment date is the ISO text of a calendar date, and the
    profile table, once created, holds exactly one row. *)
Theorem reachable_store_ok (s : db) :
  reachable create json_loads s ->
  (forall t, logs s = Some t -> NoDup (map fst (rows t))) /\
  (forall t, medications s = Some t -> NoDup (map fst (rows t))) /\
  (forall t, appointments s = Some t ->
     NoDup (map fst (rows t)) /\
     forall r, r ∈ rows t ->
       exists x, Py.check_date_fields (Py.year x) (Py.month x) (Py.day x) = true /\
                 Appointment.date r.2 = isoformat x) /\
  (forall t, routines s = Some t ->
     NoDup (map fst (rows t)) /\
     forall r, r ∈ rows t ->
       exists tm, 0 <= Py.hour tm < 24 /\ 0 <= Py.minute tm < 60 /\
                  RoutineTask.scheduled_time r.2 = Py.strftime_HM tm) /\
  (forall t, patient_profile s = Some t ->
     exists i age conditions, rows t = [(i, PatientProfile.Row age conditions)]).
Proof.
  intros Hr. destruct (reachable_invariant s Hr) as (H1 & H2 & H3 & H4 & H5).
  split; [intros t Ht; by apply H1|]. split; [intros t Ht; by apply H2|].
  split; [|split].
  - intros t Ht. destruct (H3 t Ht) as [[Hnd _] Hd]. split; [done|]. exact Hd.
  - intros t Ht. destruct (H4 t Ht) as [[Hnd _] Hd]. split; [done|]. exact Hd.
  - intros t Ht. destruct (H5 t Ht) as [_ Hlen].
    destruct (rows t) as [|[i [age c]] [|? ?]]; try discriminate. by exists i, age, c.
Qed.

(** X15. On such a store the pages do not fail on the stored data: for the
    tasks of any day the dashboard computes its MISSED lines, the routine
    page computes a status for every row, and the calendar page reads a date
    from every appointment, so none is skipped. *)
Theorem reachable_pages_total (s : db) (today : Py.date) (now : Py.time)
    (tasks_df : list (Z * RoutineTask.t)) :
  reachable create json_loads s ->
  fetch_tasks today s = Ok tasks_df ->
  (exists alerts, overdue_alerts (Py.hour now) tasks_df = Ok alerts) /\
  (forall r, r ∈ tasks_df ->
     exists status, task_status now r.2 = Ok status /\
       (status = ("green", "Done") \/ status = ("red", "Overdue") \/
        status = ("gray", "Upcoming"))) /\
  (forall t r, appointments s = Some t -> r ∈ rows t ->
     exists appt_date, Py.strptime_Ymd (Appointment.date r.2) = Some appt_date).
Proof.
  intros Hr Hfetch.
  destruct (reachable_invariant s Hr) as (_ & _ & H3 & H4 & _).
  unfold fetch_tasks in Hfetch. destruct (routines s) as [t|] eqn:Ht; [|done].
  cbn [of_option mbind result_bind] in Hfetch. injection Hfetch as <-.
  destruct (H4 t eq_refl) as [_ Htimes].
  assert (Hrow : forall r, r ∈ List.filter
                     (fun r : Z * RoutineTask.t =>
                        String.eqb (RoutineTask.date r.2) (Py.strftime_Ymd today)) (rows t) ->
                   exists tm, 0 <= Py.hour tm < 24 /\ 0 <= Py.minute tm < 60 /\
                     RoutineTask.scheduled_time r.2 = Py.strftime_HM tm).
  { intros r Hin. apply Htimes.
    apply list_elem_of_In, filter_In in Hin as [Hin _]. by apply list_elem_of_In. }
  split; [|split].
  - eexists. unfold overdue_alerts. apply overdue_loop_spec.
    intros r Hin. apply elem_of_pending in Hin as [Hin _].
    destruct (Hrow r Hin) as (tm & Hh & Hm & Hst).
    exists (Py.hour tm). destruct r as [i [d n st c]]. cbn in Hst. subst st.
    by apply task_hour_strftime.
  - intros r Hin. destruct (Hrow r Hin) as (tm & Hh & Hm & Hst).
    unfold task_status. rewrite Hst, strptime_strftime_HM by done.
    cbn [of_option mbind result_bind].
    destruct (truthy _); [eexists; split; [reflexivity|by left]|].
    destruct (Py.time_gt _ _); eexists; (split; [reflexivity|]); [right; by left|right; by right].
  - intros t' r Ht' Hin. destruct (H3 t' Ht') as [_ Hd].
    destruct (Hd r Hin) as (x & Hx & Hiso). exists x. rewrite Hiso.
    by apply strptime_isoformat.
Qed.

End Invariant.

Lemma reachable_seeded (create : request -> result (list (option string)))
    (json_loads : string -> result pyval) :
  reachable create json_loads seeded_db.
Proof.
  apply (reachable_step create json_loads (Seed demo_day) started_db); [|exact I|reflexivity].
  apply (reachable_step create json_loads Init new_db); [constructor|exact I|reflexivity].
Qed.

Lemma reachable_store_ok_witness :
  exists i age conditions,
    rows_of (patient_profile seeded_db) = [(i, PatientProfile.Row age conditions)].
Proof.
  destruct (reachable_store_ok provider_down no_json seeded_db
              (reachable_seeded provider_down no_json)) as (_ & _ & _ & _ & H).
  apply (H (Table [(1, default_profile)] 1)). reflexivity.
Defined.

Lemma reachable_pages_total_witness :
  exists alerts,
    overdue_alerts 12 (rows_of (routines seeded_db)) = Ok alerts.
Proof.
  destruct (reachable_pages_total provider_down no_json seeded_db demo_day
              (Py.Time 12 0 0 0) (rows_of (routines seeded_db))
              (reachable_seeded provider_down no_json) eq_refl) as (H & _).
  exact H.
Defined.

(* ================================================================== *)
(** * Further properties: the advisory pages *)
(* ================================================================== *)

Lemma prefix_spec (a b : string) :
  String.prefix a b = true <-> exists c, b = a +:+ c.
Proof.
  revert b. induction a as [|x a IH]; intros b.
  - split; [by exists b|]. intros _. by destruct b.
  - destruct b as [|y b].
    + split; [done|]. intros [c Hc]. discriminate Hc.
    + cbn [String.prefix]. destruct (Ascii.ascii_dec x y) as [->|Hne].
      * rewrite IH. split; intros [c Hc]; exists c.
        -- cbn. by rewrite Hc.
        -- cbn in Hc. by injection Hc.
      * split; [done|]. intros [c Hc]. cbn in Hc. injection Hc as ? ?. by subst.
Qed.

(** [contains] is the substring test. *)
Lemma contains_spec (needle hay : string) :
  contains needle hay = true <-> exists a b, hay = a +:+ needle +:+ b.
Proof.
  induction hay as [|y hay IH]; cbn [contains].
  - destruct (String.prefix needle "") eqn:Hp.
    + split; [|done]. intros _. apply prefix_spec in Hp as [c Hc].
      exists "", c. exact Hc.
    + split; [done|]. intros (a & b & Hab).
      destruct a; cbn in Hab; [|discriminate].
      assert (String.prefix needle "" = true) as Hq
        by (apply prefix_spec; by exists b).
      congruence.
  - destruct (String.prefix needle (String y hay)) eqn:Hp.
    + split; [|done]. intros _. apply prefix_spec in Hp as [c Hc].
      exists "", c. exact Hc.
    + rewrite IH. split.
      * intros (a & b & ->). by exists (String y a), b.
      * intros (a & b & Hab). destruct a as [|x a]; cbn in Hab.
        -- assert (String.prefix needle (String y hay) = true) as Hq
             by (apply prefix_spec; by exists b).
           congruence.
        -- injection Hab as -> ->. by exists a, b.
Qed.

Section PageProperties.

Variable create : request -> result (list (option string)).
Variable json_loads : string -> result pyval.
Variable float_is_zero : string -> bool.
Variable repr : pyval -> string.
Variable dict_keys : gmap string pyval -> list string.

Lemma ask_ai_down (e : exn) (prompt : string) (json_mode : bool) :
  (forall r, create r = Raise e) ->
  ask_ai create json_loads prompt json_mode = PDict {[ "error" := PStr (exn_str e) ]}.
Proof. intros Hdown. by rewrite ask_ai_unfold, Hdown. Qed.

(** X16. When the provider is down no advisory page raises; but what each
    page draws differs: the interaction check shows its warning headline
    with no warning, the food check shows Caution with the texts None, the
    pattern analysis reports stable trends, the triage shows the green
    banner Unknown, and the report decoder shows the error object and then
    Analysis Complete. *)
Theorem pages_when_provider_down (e : exn) (meds_df : list (Z * Medication.t))
    (m0 : Z * Medication.t) (text age conditions : string) :
  (forall r, create r = Raise e) ->
  text <> "" ->
  check_interactions_page create json_loads float_is_zero repr dict_keys meds_df
    = ([st_error "❌ INTERACTION WARNING"], None) /\
  check_food_page create json_loads float_is_zero repr text (m0 :: meds_df)
    = ([ st_error "⚠️ **Caution Required**";
         st_write (PStr "**Warning:** None");
         st_write (PStr "**Advice:** None") ], None) /\
  run_pattern_analysis_page create json_loads float_is_zero repr text
    = inl ([st_success "✅ Trends look stable."], None) /\
  check_symptoms_page create json_loads repr text age conditions meds_df
    = ([ st_success "🟢 **TRIAGE: Unknown**";
         st_subheader "Analysis";
         st_write PNone;
         st_subheader "Recommended Action Plan";
         st_info PNone;
         st_caption "⚠️ **DISCLAIMER:** None" ], None) /\
  decode_report_page create json_loads text
    = ([ st_subheader "📝 Plain English Translation";
         st_markdown (PDict {[ "error" := PStr (exn_str e) ]});
         st_success "Analysis Complete!" ], None).
Proof.
  intros Hdown Htext.
  split; [|split; [|split; [|split]]].
  - unfold check_interactions_page, check_drug_interactions.
    rewrite (ask_ai_down e) by done. unfold py_get.
    rewrite !lookup_singleton_ne by done. reflexivity.
  - unfold check_food_page, check_food_interaction. destruct text; [done|].
    rewrite (ask_ai_down e) by done.
    rewrite !lookup_singleton_ne by done. reflexivity.
  - unfold run_pattern_analysis_page, detect_patterns, patterns_view.
    rewrite (ask_ai_down e) by done.
    rewrite !lookup_singleton_ne by done. reflexivity.
  - unfold check_symptoms_page, check_symptoms_with_context. destruct text; [done|].
    rewrite (ask_ai_down e) by done.
    rewrite !lookup_singleton_ne by done. reflexivity.
  - unfold decode_report_page, analyze_medical_text. destruct text; [done|].
    rewrite (ask_ai_down e) by done. reflexivity.
Qed.

(** X17. The interaction check announces that no dangerous interaction was
    detected only when the answer of the gateway is a mapping whose field
    safe is true in the sense of Python; the error object, a missing field
    and every false value lead to the warning headline. *)
Theorem interactions_success_only_if_safe (meds_df : list (Z * Medication.t))
    (calls : list st_call) (raised : option exn) :
  check_interactions_page create json_loads float_is_zero repr dict_keys meds_df
    = (calls, raised) ->
  let report := check_drug_interactions create json_loads
                  (med_list_str repr meds_df) in
  (st_success "✅ No dangerous interactions detected." ∈ calls <->
     exists m safe, report = PDict m /\ m !! "safe" = Some safe /\
                    py_truthy float_is_zero safe = true) /\
  (st_success "✅ No dangerous interactions detected." ∈ calls ->
     calls = [st_success "✅ No dangerous interactions detected."] /\ raised = None) /\
  (forall m, report = PDict m -> m !! "safe" = None ->
     st_error "❌ INTERACTION WARNING" ∈ calls).
Proof.
  intros Hpage report. unfold check_interactions_page in Hpage. fold report in Hpage.
  destruct report as [| | | | | |m] eqn:Hr; cbn [py_get] in Hpage;
    try (injection Hpage as <- <-;
         split; [split; [by intros ?%elem_of_nil|by intros (? & ? & ? & _)]|];
         split; [by intros ?%elem_of_nil|]; by intros ? ?).
  set (safe := match m !! "safe" with Some x => x | None => PNone end) in *.
  assert (Hwarn : py_truthy float_is_zero safe = false ->
            st_error "❌ INTERACTION WARNING" ∈ calls /\
            st_success "✅ No dangerous interactions detected." ∉ calls).
  { intros Hf. rewrite Hf in Hpage.
    destruct (_ ≫= _) as [items|e] in Hpage; injection Hpage as <- <-.
    - split; [apply list_elem_of_here|]. intros Hin.
      apply elem_of_cons in Hin as [?|Hin]; [done|].
      apply list_elem_of_fmap in Hin as (? & ? & _). done.
    - split; [apply list_elem_of_here|]. by intros ?%list_elem_of_singleton. }
  destruct (py_truthy float_is_zero safe) eqn:Hsafe.
  - injection Hpage as <- <-. split; [|split].
    + split; [|intros _; apply list_elem_of_here]. intros _.
      subst safe. destruct (m !! "safe") as [v|] eqn:Hv; [|done].
      by exists m, v.
    + done.
    + intros m' [= <-] Hnone. subst safe. by rewrite Hnone in Hsafe.
  - destruct (Hwarn eq_refl) as [Hin Hnot]. split; [|split].
    + split; [done|]. intros (m' & v & [= <-] & Hv & Ht).
      subst safe. rewrite Hv in Hsafe. congruence.
    + done.
    + done.
Qed.


(** X18. The triage banner goes by the words in the level: red when the
    text contains Emergency, otherwise orange when it contains Urgent,
    otherwise green.  Of the three levels the prompt asks for, the one
    named Non-Urgent contains Urgent and so is drawn with the orange
    banner; a level that is not a text or a container ends the page with a
    TypeError. *)
Theorem triage_banner_by_words (triage : string) :
  ((exists a b, triage = a +:+ "Emergency" +:+ b) ->
     triage_banner repr (PStr triage)
       = Ok (st_error ("🔴 **TRIAGE: " +:+ triage +:+ "**"))) /\
  (~ (exists a b, triage = a +:+ "Emergency" +:+ b) ->
   (exists a b, triage = a +:+ "Urgent" +:+ b) ->
     triage_banner repr (PStr triage)
       = Ok (st_warning ("🟠 **TRIAGE: " +:+ triage +:+ "**"))) /\
  (~ (exists a b, triage = a +:+ "Emergency" +:+ b) ->
   ~ (exists a b, triage = a +:+ "Urgent" +:+ b) ->
     triage_banner repr (PStr triage)
       = Ok (st_success ("🟢 **TRIAGE: " +:+ triage +:+ "**"))) /\
  triage_banner repr (PStr "Emergency - Call 911")
    = Ok (st_error "🔴 **TRIAGE: Emergency - Call 911**") /\
  triage_banner repr (PStr "Urgent - See Doctor 24h")
    = Ok (st_warning "🟠 **TRIAGE: Urgent - See Doctor 24h**") /\
  triage_banner repr (PStr "Non-Urgent - Monitor")
    = Ok (st_warning "🟠 **TRIAGE: Non-Urgent - Monitor**") /\
  (exists e, triage_banner repr PNone = Raise (TypeError e)) /\
  (forall n, exists e, triage_banner repr (PInt n) = Raise (TypeError e)).
Proof.
  unfold triage_banner. cbn [py_in py_format mbind result_bind].
  split; [|split; [|split]].
  - intros He. apply contains_spec in He. by rewrite He.
  - intros Hne Hu. apply contains_spec in Hu.
    destruct (contains "Emergency" triage) eqn:He;
      [by apply contains_spec in He|]. by rewrite Hu.
  - intros Hne Hnu.
    destruct (contains "Emergency" triage) eqn:He;
      [by apply contains_spec in He|].
    destruct (contains "Urgent" triage) eqn:Hu;
      [by apply contains_spec in Hu|]. reflexivity.
  - split; [reflexivity|]. split; [reflexivity|]. split; [reflexivity|].
    split; [by eexists|]. intros n. by eexists.
Qed.

(** X19. An answer that is JSON but not an object passes the gateway and
    then ends each structured page with an AttributeError before anything is
    drawn; and when the pattern analysis reports a concern without its
    description or its advice, the page ends with a KeyError, in the second
    case after the warning was drawn. *)
Theorem pages_on_unexpected_answer (v : pyval) (meds_df : list (Z * Medication.t))
    (m0 : Z * Medication.t) (text age conditions : string) :
  (forall prompt, ask_ai create json_loads prompt true = v) ->
  text <> "" ->
  ((forall m, v <> PDict m) ->
     (exists e, check_interactions_page create json_loads float_is_zero repr dict_keys
                  meds_df = ([], Some (AttributeError e))) /\
     (exists e, check_food_page create json_loads float_is_zero repr text (m0 :: meds_df)
                  = ([], Some (AttributeError e))) /\
     (exists e, run_pattern_analysis_page create json_loads float_is_zero repr text
                  = inl ([], Some (AttributeError e))) /\
     (exists e, check_symptoms_page create json_loads repr text age conditions meds_df
                  = ([], Some (AttributeError e)))) /\
  (forall m concern,
     v = PDict m -> m !! "concern_detected" = Some concern ->
     py_truthy float_is_zero concern = true ->
     (m !! "pattern_description" = None ->
        run_pattern_analysis_page create json_loads float_is_zero repr text
          = inr ([], "pattern_description")) /\
     (forall description, m !! "pattern_description" = Some description ->
        m !! "advice" = None ->
        run_pattern_analysis_page create json_loads float_is_zero repr text
          = inr ([st_warning ("⚠️ Pattern Detected: " +:+ py_format repr description)],
                 "advice")) /\
     (forall description advice, m !! "pattern_description" = Some description ->
        m !! "advice" = Some advice ->
        run_pattern_analysis_page create json_loads float_is_zero repr text
          = inl ([ st_warning ("⚠️ Pattern Detected: " +:+ py_format repr description);
                   st_write (PStr ("**Advice:** " +:+ py_format repr advice)) ], None))).
Proof.
  intros Hv Htext. split.
  - intros Hnd.
    unfold check_interactions_page, check_drug_interactions, check_food_page,
      check_food_interaction, run_pattern_analysis_page, detect_patterns, patterns_view,
      check_symptoms_page, check_symptoms_with_context.
    destruct text; [done|]. rewrite !Hv.
    destruct v as [| | | | | |m]; try (repeat split; by eexists).
    by destruct (Hnd m).
  - intros m concern -> Hc Ht.
    unfold run_pattern_analysis_page, detect_patterns, patterns_view.
    rewrite Hv, Hc, Ht. split; [|split].
    + by intros ->.
    + by intros d -> ->.
    + by intros d a -> ->.
Qed.

End PageProperties.

Lemma pages_when_provider_down_witness :
  run_pattern_analysis_page provider_down no_json (fun _ => false) (fun _ => "")
    "No logs available."
    = inl ([st_success "✅ Trends look stable."], None) /\
  check_symptoms_page provider_down no_json (fun _ => "") "Chest pain" "75"
    "Hypertension, Arthritis" []
    = ([ st_success "🟢 **TRIAGE: Unknown**";
         st_subheader "Analysis";
         st_write PNone;
         st_subheader "Recommended Action Plan";
         st_info PNone;
         st_caption "⚠️ **DISCLAIMER:** None" ], None).
Proof.
  split.
  - apply (pages_when_provider_down provider_down no_json (fun _ => false) (fun _ => "")
             (fun _ => []) (ProviderError "Connection error.") []
             (1, Medication.Row "Warfarin" "5mg" "Morning" None)
             "No logs available." "75" "Hypertension, Arthritis");
      [reflexivity|discriminate].
  - apply (pages_when_provider_down provider_down no_json (fun _ => false) (fun _ => "")
             (fun _ => []) (ProviderError "Connection error.") []
             (1, Medication.Row "Warfarin" "5mg" "Morning" None)
             "Chest pain" "75" "Hypertension, Arthritis");
      [reflexivity|discriminate].
Defined.

Lemma interactions_success_only_if_safe_witness :
  exists m safe,
    check_drug_interactions (provider_says "{}")
      (fun _ => Ok (PDict {[ "safe" := PBool true ]}))
      (med_list_str (fun _ => "") [(1, Medication.Row "Warfarin" "5mg" "Morning" None)])
    = PDict m /\
    m !! "safe" = Some safe /\ py_truthy (fun _ => false) safe = true.
Proof.
  apply (interactions_success_only_if_safe (provider_says "{}")
           (fun _ => Ok (PDict {[ "safe" := PBool true ]}))
           (fun _ => false) (fun _ => "") (fun _ => [])
           [(1, Medication.Row "Warfarin" "5mg" "Morning" None)]
           [st_success "✅ No dangerous interactions detected."] None).
  - vm_compute. reflexivity.
  - apply list_elem_of_here.
Defined.

Lemma triage_banner_by_words_witness :
  triage_banner (fun _ => "") (PStr "Non-Urgent - Monitor")
    = Ok (st_warning "🟠 **TRIAGE: Non-Urgent - Monitor**").
Proof.
  apply (proj1 (proj2 (triage_banner_by_words (fun _ => "") "Non-Urgent - Monitor"))).
  - intros He. apply contains_spec in He. vm_compute in He. discriminate.
  - exists "Non-", " - Monitor". reflexivity.
Defined.

Lemma pages_on_unexpected_answer_witness :
  exists e,
    check_interactions_page (provider_says "[]") (fun _ => Ok (PList []))
      (fun _ => false) (fun _ => "") (fun _ => [])
      [(1, Medication.Row "Warfarin" "5mg" "Morning" None)]
    = ([], Some (AttributeError e)).
Proof.
  destruct (pages_on_unexpected_answer (provider_says "[]") (fun _ => Ok (PList []))
              (fun _ => false) (fun _ => "") (fun _ => []) (PList [])
              [(1, Medication.Row "Warfarin" "5mg" "Morning" None)]
              (1, Medication.Row "Warfarin" "5mg" "Morning" None)
              "x" "75" "none") as [H _]; [reflexivity|discriminate|].
  destruct (H ltac:(discriminate)) as (H1 & _). exact H1.
Defined.

(** X20. A time chosen in a time picker survives the store: written with
    Add Task or Save and read back, the routine page gets the same hour and
    minute with zero seconds, the dashboard gets the same hour, and the
    alarm script builds the same text from the same hour and minute. *)
Theorem picked_time_round_trip (t : Py.time) (date task : string) (completed : Z) :
  0 <= Py.hour t < 24 -> 0 <= Py.minute t < 60 ->
  Py.strptime_HM (Py.strftime_HM t) = Some (Py.Time (Py.hour t) (Py.minute t) 0 0) /\
  task_hour (RoutineTask.Row date task (Py.strftime_HM t) completed) = Ok (Py.hour t) /\
  (forall u, 0 <= Py.hour u < 24 -> 0 <= Py.minute u < 60 ->
     Py.strftime_HM u = Py.strftime_HM t ->
     Py.hour u = Py.hour t /\ Py.minute u = Py.minute t) /\
  String.length (Py.strftime_HM t) = 5%nat.
Proof.
  intros Hh Hm. split; [by apply strptime_strftime_HM|].
  split; [by apply task_hour_strftime|]. split.
  - intros u Hu1 Hu2 Heq. by apply strftime_HM_inj.
  - reflexivity.
Qed.

Lemma picked_time_round_trip_witness :
  Py.strptime_HM (Py.strftime_HM (Py.Time 17 30 12 5)) = Some (Py.Time 17 30 0 0).
Proof.
  apply (proj1 (picked_time_round_trip (Py.Time 17 30 12 5) "2026-11-03" "Walk" 0
                  ltac:(cbn; lia) ltac:(cbn; lia))).
Defined.

(** X21. Deleting the log entry that is the current alert lets the alert
    fall back to the High entry with the next greatest id, or to no alert
    when it was the only High entry; deleting an id that is not in the log
    changes nothing. *)
Theorem delete_log_then_alert (s : db) (t : table LogEntry.t) (r : Z * LogEntry.t) :
  logs s = Some t ->
  NoDup (map fst (rows t)) ->
  r ∈ rows t ->
  exists s',
    delete_log r.1 s = Ok s' /\
    (forall x, x ∈ rows_of (logs s') <-> x ∈ rows t /\ x <> r) /\
    ((forall x, x ∈ rows t -> LogEntry.severity x.2 = SqlText "High" -> x = r) ->
       high_risk_alerts s' = Ok []) /\
    (forall y, y ∈ rows t -> y <> r -> LogEntry.severity y.2 = SqlText "High" ->
       (forall x, x ∈ rows t -> x <> r -> LogEntry.severity x.2 = SqlText "High" ->
          x.1 <= y.1) ->
       high_risk_alerts s' = Ok [alert_message y.2]) /\
    (forall i, (forall x, x ∈ rows t -> x.1 <> i) ->
       exists s'', delete_log i s = Ok s'' /\ rows_of (logs s'') = rows t).
Proof.
  intros Ht Hnd Hr.
  exists (set_logs (delete_row r.1 t) s).
  split; [unfold delete_log; by rewrite Ht|].
  assert (Hrows : forall x, x ∈ rows (delete_row r.1 t) <-> x ∈ rows t /\ x <> r).
  { intros x. unfold delete_row. cbn [rows].
    rewrite list_elem_of_In, filter_In, <- list_elem_of_In, negb_true_iff, Z.eqb_neq.
    split; intros [Hin Hne]; (split; [done|]).
    - by intros ->.
    - intros Heq. apply Hne. by apply (row_of_id (rows t)). }
  split; [exact Hrows|].
  assert (Halerts : high_risk_alerts (set_logs (delete_row r.1 t) s) =
            match take 1 (merge_sort id_desc (high_rows (delete_row r.1 t))) with
            | [] => Ok []
            | row :: _ => Ok [alert_message row.2]
            end) by reflexivity.
  rewrite Halerts.
  pose proof (head_of_sorted_desc (high_rows (delete_row r.1 t))) as Hhead.
  split; [|split].
  - intros Honly. destruct (merge_sort id_desc _) as [|x l]; [reflexivity|].
    destruct Hhead as [Hx _]. apply high_rows_elem_of in Hx as [Hx Hs].
    apply Hrows in Hx as [Hx Hne]. by destruct (Hne (Honly x Hx Hs)).
  - intros y Hy Hyr Hys Hmax.
    destruct (merge_sort id_desc _) as [|x l].
    + assert (Hin : y ∈ high_rows (delete_row r.1 t)).
      { apply high_rows_elem_of. split; [by apply Hrows|done]. }
      rewrite Hhead in Hin. by apply elem_of_nil in Hin.
    + destruct Hhead as [Hx Hxmax]. cbn [take].
      apply high_rows_elem_of in Hx as [Hx Hs]. apply Hrows in Hx as [Hx Hne].
      assert (x = y) as ->; [|reflexivity].
      apply (row_of_id (rows t)); try done. apply Z.le_antisymm.
      * by apply Hmax.
      * apply Hxmax. apply high_rows_elem_of. split; [by apply Hrows|done].
  - intros i Hi. eexists. split; [unfold delete_log; by rewrite Ht|].
    cbn [logs set_logs rows_of delete_row rows]. apply filter_all.
    intros x Hx. apply negb_true_iff, Z.eqb_neq. by apply Hi.
Qed.

Lemma delete_log_then_alert_witness :
  exists s',
    delete_log 2 (set_logs demo_logs started_db) = Ok s' /\
    high_risk_alerts s' = Ok ["🚨 ALERT: Fell in the hallway (2026-11-01 08:00:00)"].
Proof.
  destruct (delete_log_then_alert (set_logs demo_logs started_db) demo_logs
              (2, LogEntry.Row "2026-11-02 09:30:00" "Son" "Chest pain after lunch"
                    (SqlText "Vitals") (SqlText "High")) eq_refl)
    as (s' & Hdel & _ & _ & Hnext & _).
  - cbn. apply (bool_decide_unpack _). vm_compute. exact I.
  - apply list_elem_of_further, list_elem_of_here.
  - exists s'. split; [exact Hdel|].
    apply (Hnext (1, LogEntry.Row "2026-11-01 08:00:00" "Nurse" "Fell in the hallway"
                       (SqlText "Incident") (SqlText "High"))).
    + apply list_elem_of_here.
    + discriminate.
    + reflexivity.
    + intros x Hx Hne Hs. unfold demo_logs in Hx. cbn [rows] in Hx.
      repeat (apply elem_of_cons in Hx as [->|Hx];
              [first [cbn; lia | done | discriminate]|]).
      by apply elem_of_nil in Hx.
Defined.

(** X22. Save and Del on the routine page touch one task: Save rewrites the
    scheduled time of the rows with the given id to the picked time and
    keeps their other fields, the ids and every other row; Del removes the
    rows with the given id and keeps the others in order; with an id that no
    row has, both leave the rows as they were. *)
Theorem edit_task_frame (id : Z) (new_t_obj : Py.time) (s : db)
    (t : table RoutineTask.t) :
  routines s = Some t ->
  (exists s', save_time id new_t_obj s = Ok s' /\
     map fst (rows_of (routines s')) = map fst (rows t) /\
     (forall k i r, rows t !! k = Some (i, r) ->
        rows_of (routines s') !! k =
          Some (i, if i =? id
                   then RoutineTask.Row (RoutineTask.date r) (RoutineTask.task r)
                          (Py.strftime_HM new_t_obj) (RoutineTask.completed r)
                   else r)) /\
     logs s' = logs s /\ medications s' = medications s /\
     appointments s' = appointments s /\ patient_profile s' = patient_profile s) /\
  (exists s', delete_task id s = Ok s' /\
     rows_of (routines s') = List.filter (fun r => negb (r.1 =? id)) (rows t) /\
     (forall r, r ∈ rows_of (routines s') <-> r ∈ rows t /\ r.1 <> id) /\
     logs s' = logs s /\ medications s' = medications s /\
     appointments s' = appointments s /\ patient_profile s' = patient_profile s) /\
  ((forall r, r ∈ rows t -> r.1 <> id) ->
     (exists s', save_time id new_t_obj s = Ok s' /\ rows_of (routines s') = rows t) /\
     (exists s', delete_task id s = Ok s' /\ rows_of (routines s') = rows t)).
Proof.
  intros Ht. split; [|split].
  - eexists. split; [unfold save_time; by rewrite Ht|].
    split; [apply map_fst_update_row|]. split; [|by destruct s].
    intros k i r Hk. cbn [routines set_routines rows_of update_row rows].
    rewrite list_lookup_fmap, Hk. cbn [fmap option_fmap option_map fst snd].
    by destruct (i =? id).
  - eexists. split; [unfold delete_task; by rewrite Ht|].
    split; [reflexivity|]. split; [|by destruct s].
    intros r. cbn [routines set_routines rows_of delete_row rows].
    by rewrite list_elem_of_In, filter_In, <- list_elem_of_In, negb_true_iff, Z.eqb_neq.
  - intros Hnone. split.
    + eexists. split; [unfold save_time; by rewrite Ht|].
      cbn [routines set_routines rows_of update_row rows]. apply map_id_on.
      intros x Hx. by rewrite (proj2 (Z.eqb_neq _ _) (Hnone x Hx)).
    + eexists. split; [unfold delete_task; by rewrite Ht|].
      cbn [routines set_routines rows_of delete_row rows]. apply filter_all.
      intros x Hx. apply negb_true_iff, Z.eqb_neq. by apply Hnone.
Qed.

Lemma edit_task_frame_witness :
  exists s', save_time 2 (Py.Time 9 30 0 0) seeded_db = Ok s' /\
             rows_of (routines s') !! 1%nat
               = Some (2, RoutineTask.Row "2026-11-03" "Morning Meds" "09:30" 0).
Proof.
  destruct (edit_task_frame 2 (Py.Time 9 30 0 0) seeded_db
              (Table (rows_of (routines seeded_db)) 6) eq_refl)
    as ((s' & Hs & _ & Hrow & _) & _).
  exists s'. split; [exact Hs|].
  apply (Hrow 1%nat 2 (RoutineTask.Row "2026-11-03" "Morning Meds" "09:00" 0)).
  reflexivity.
Defined.
